(** * Gosling: reconciliation, deduplication and citation formatting

    A shallow embedding of the decision logic of [gosling/honk.py],
    [gosling/feed.py] and [slackbot.py], followed by the properties of
    that logic.  Python dictionaries that are only looked up are finite
    maps, Python sets are finite sets, remote services are oracles, and
    code that raises returns a [result]. *)

From Stdlib Require Import ZArith String Ascii DecimalString.
From stdpp Require Import base option list gmap strings sorting.

Local Open Scope string_scope.
Local Open Scope Z_scope.

(** ** Python values shared by the three modules *)

Module Py.

(** An exception carries its class name and its message; [str_exn] is
    Python's [str(e)]. *)
Record exn := Exn { exn_class : string; exn_msg : string }.

Definition str_exn (e : exn) : string := exn_msg e.

Inductive result (A : Type) : Type :=
| Ok (a : A)
| Raise (e : exn).
Arguments Ok {A} a.
Arguments Raise {A} e.

Definition bind {A B} (r : result A) (k : A -> result B) : result B :=
  match r with
  | Ok a => k a
  | Raise e => Raise e
  end.

(** [repr(s)] on text whose characters are code points below 256:
    single quotes unless the text has a single quote and no double
    one; the quote, the backslash and what does not print are
    escaped. *)
Definition hex_digit (n : nat) : ascii :=
  if (n <? 10)%nat then ascii_of_nat (48 + n) else ascii_of_nat (87 + n).

Definition is_printable (c : ascii) : bool :=
  let n := nat_of_ascii c in
  ((32 <=? n)%nat && (n <? 127)%nat) || ((161 <=? n)%nat && negb (n =? 173)%nat).

Definition backslash : ascii := ascii_of_nat 92.
Definition single_quote : ascii := ascii_of_nat 39.
Definition double_quote : ascii := ascii_of_nat 34.

Definition repr_char (quote c : ascii) : string :=
  let n := nat_of_ascii c in
  if Ascii.eqb c quote || Ascii.eqb c backslash then String backslash (String c "")
  else if (n =? 9)%nat then String backslash "t"
  else if (n =? 10)%nat then String backslash "n"
  else if (n =? 13)%nat then String backslash "r"
  else if is_printable c then String c ""
  else String backslash (String "x" (String (hex_digit (n / 16)) (String (hex_digit (n mod 16)) ""))).

Fixpoint has_char (c : ascii) (s : string) : bool :=
  match s with
  | EmptyString => false
  | String c' s' => Ascii.eqb c' c || has_char c s'
  end.

Fixpoint repr_chars (quote : ascii) (s : string) : string :=
  match s with
  | EmptyString => String quote ""
  | String c s' => repr_char quote c +:+ repr_chars quote s'
  end.

Definition py_repr (s : string) : string :=
  let quote := if has_char single_quote s && negb (has_char double_quote s)
               then double_quote else single_quote in
  String quote (repr_chars quote s).

(** [d[k]] on a key that may be absent; [str] of a [KeyError] is the
    [repr] of the key. *)
Definition subscript {A} (k : string) (o : option A) : result A :=
  match o with
  | Some a => Ok a
  | None => Raise (Exn "KeyError" (py_repr k))
  end.

Fixpoint mapM {A B} (f : A -> result B) (l : list A) : result (list B) :=
  match l with
  | [] => Ok []
  | x :: l' => bind (f x) (fun y => bind (mapM f l') (fun ys => Ok (y :: ys)))
  end.

Definition nl : string := String (ascii_of_nat 10) EmptyString.

(** [str(n)] for a natural number. *)
Definition str_nat (n : nat) : string := NilEmpty.string_of_uint (Nat.to_uint n).

(** [sep.join(l)] *)
Fixpoint join (sep : string) (l : list string) : string :=
  match l with
  | [] => ""
  | [x] => x
  | x :: l' => x +:+ sep +:+ join sep l'
  end.

Fixpoint str_take (n : nat) (s : string) : string :=
  match n, s with
  | S n', String c s' => String c (str_take n' s')
  | _, _ => ""
  end.

Fixpoint str_drop (n : nat) (s : string) : string :=
  match n, s with
  | S n', String _ s' => str_drop n' s'
  | _, _ => s
  end.

(** A slice bound is counted from the end when negative and clamped
    to [0 .. len(s)].  Offsets count the characters of the model: they
    are Python's offsets for text whose characters are code points
    below 256, one character each. *)
Definition slice_index (s : string) (pos : Z) : nat :=
  Z.to_nat (if pos <? 0 then Z.max 0 (Z.of_nat (String.length s) + pos) else pos).

(** [s[:pos]] and [s[pos:]] *)
Definition slice_to (s : string) (pos : Z) : string := str_take (slice_index s pos) s.
Definition slice_from (s : string) (pos : Z) : string := str_drop (slice_index s pos) s.

(** [sorted(l, key=key)] and [sorted(l, key=key, reverse=True)]: both
    are stable, elements with equal keys keep their order. *)
Fixpoint insert_by {A} (before : A -> A -> bool) (x : A) (l : list A) : list A :=
  match l with
  | [] => [x]
  | y :: l' => if before x y then x :: y :: l' else y :: insert_by before x l'
  end.

Definition sorted {A} (key : A -> Z) (l : list A) : list A :=
  foldr (insert_by (fun x y => key x <=? key y)) [] l.

Definition sorted_reverse {A} (key : A -> Z) (l : list A) : list A :=
  foldr (insert_by (fun x y => key y <=? key x)) [] l.

(** A [dict] whose iteration order is observed: keys in order of first
    insertion, a later assignment replaces the value in place. *)
Fixpoint dict_set {V} (k : string) (v : V) (d : list (string * V)) : list (string * V) :=
  match d with
  | [] => [(k, v)]
  | (k', v') :: d' =>
      if String.eqb k' k then (k, v) :: d' else (k', v') :: dict_set k v d'
  end.

Fixpoint dict_get {V} (k : string) (d : list (string * V)) : option V :=
  match d with
  | [] => None
  | (k', v) :: d' => if String.eqb k' k then Some v else dict_get k d'
  end.

Definition dict_values {V} (d : list (string * V)) : list V := snd <$> d.

(** Truth value of a string, of an optional string ([None] is falsy). *)
Definition truthy (s : string) : bool := negb (String.eqb s "").
Definition truthy_opt (o : option string) : bool :=
  match o with Some s => truthy s | None => false end.

(** [s.split('.')[0]] *)
Fixpoint first_field (s : string) : string :=
  match s with
  | EmptyString => ""
  | String c s' => if Ascii.eqb c "." then "" else String c (first_field s')
  end.

(** [int(s)] on text whose characters are code points below 256:
    surrounding white space is dropped, one sign is allowed, and the
    digits may be separated by single underscores.  [None] stands for
    [ValueError].  The bound that recent interpreters put on the number
    of digits is left out. *)
Definition is_digit (c : ascii) : bool :=
  let n := nat_of_ascii c in (48 <=? n)%nat && (n <=? 57)%nat.

Definition is_space (c : ascii) : bool :=
  let n := nat_of_ascii c in
  ((9 <=? n)%nat && (n <=? 13)%nat) || ((28 <=? n)%nat && (n <=? 32)%nat)
  || (n =? 133)%nat || (n =? 160)%nat.

Definition digit_value (c : ascii) : Z := Z.of_nat (nat_of_ascii c) - 48.

Fixpoint digits (l : list ascii) (acc : Z) : option Z :=
  match l with
  | [] => Some acc
  | c :: l' =>
      if is_digit c then digits l' (10 * acc + digit_value c)
      else if Ascii.eqb c "_" then
        match l' with
        | d :: _ => if is_digit d then digits l' acc else None
        | [] => None
        end
      else None
  end.

Definition unsigned (l : list ascii) : option Z :=
  match l with
  | c :: _ => if is_digit c then digits l 0 else None
  | [] => None
  end.

Fixpoint lstrip (l : list ascii) : list ascii :=
  match l with
  | c :: l' => if is_space c then lstrip l' else l
  | [] => []
  end.

Definition strip (l : list ascii) : list ascii := rev (lstrip (rev (lstrip l))).

Definition int_of_str (s : string) : option Z :=
  match strip (list_ascii_of_string s) with
  | c :: l' =>
      if Ascii.eqb c "-" then Z.opp <$> unsigned l'
      else if Ascii.eqb c "+" then unsigned l'
      else unsigned (c :: l')
  | [] => None
  end.

(** [s.strip()] and [s.lower()] on text whose characters are code
    points below 256. *)
Definition str_strip (s : string) : string :=
  string_of_list_ascii (strip (list_ascii_of_string s)).

Definition lower_char (c : ascii) : ascii :=
  let n := nat_of_ascii c in
  if ((65 <=? n)%nat && (n <=? 90)%nat)
     || ((192 <=? n)%nat && (n <=? 222)%nat && negb (n =? 215)%nat)
  then ascii_of_nat (n + 32) else c.

Fixpoint lower (s : string) : string :=
  match s with
  | EmptyString => EmptyString
  | String c s' => String (lower_char c) (lower s')
  end.

(** [sub in s] and [s.split(sep)] for a separator of one character. *)
Fixpoint contains (sub s : string) : bool :=
  String.prefix sub s
  || match s with
     | EmptyString => false
     | String _ s' => contains sub s'
     end.

Fixpoint split_on (sep : ascii) (s : string) : list string :=
  match s with
  | EmptyString => [""]
  | String c s' =>
      if Ascii.eqb c sep then "" :: split_on sep s'
      else match split_on sep s' with
           | w :: ws => String c w :: ws
           | [] => [String c ""]
           end
  end.

End Py.

Import Py.

(** ** gosling/nest.py: the records passed around *)

Module Nest.

(** [Message(content=...)] leaves [role] at its default, ["user"]. *)
Record Message := { role : string; content : string }.

Definition user_message (text : string) : Message :=
  {| role := "user"; content := text |}.

Record SlackEventData := {
  event_type : string;
  event_ts : string;
  channel_id : string;
  user_id : string;
  text : string;
  thread_ts : string;
  ephemeral : bool;
  is_dm : bool;
  is_bot : bool
}.

End Nest.

(** ** gosling/honk.py: citation formatting *)

Module Honk.

Record reference := { name : string; url : string }.
Record citation := { position : Z; references : list reference }.
Record normalized_response := { message : string; citations : list citation }.

(** The three variables of the first pass. *)
Record numbering := {
  all_references : gset string;
  reference_numbers : gmap string nat;
  current_ref_num : nat
}.

Definition numbering_init : numbering :=
  {| all_references := ∅; reference_numbers := ∅; current_ref_num := 1 |}.

(** Body of the inner loop of the first pass, for one reference URL. *)
Definition assign_number (st : numbering) (u : string) : numbering :=
  let st' :=
    match reference_numbers st !! u with
    | None => {| all_references := all_references st;
                 reference_numbers := <[u := current_ref_num st]> (reference_numbers st);
                 current_ref_num := S (current_ref_num st) |}
    | Some _ => st
    end in
  {| all_references := {[u]} ∪ all_references st';
     reference_numbers := reference_numbers st';
     current_ref_num := current_ref_num st' |}.

(** First pass: the citations are scanned in the order of the list. *)
Definition assign_numbers (cs : list citation) : numbering :=
  foldl (fun st c => foldl (fun st r => assign_number st (url r)) st (references c))
        numbering_init cs.

(** Second pass: the set of URLs cited at each position. *)
Definition add_at (m : gmap Z (gset string)) (pos : Z) (u : string) : gmap Z (gset string) :=
  let m' := match m !! pos with
            | None => <[pos := ∅]> m
            | Some _ => m
            end in
  <[pos := {[u]} ∪ default ∅ (m' !! pos)]> m'.

Definition citations_by_position (cs : list citation) : gmap Z (gset string) :=
  foldl (fun m c => foldl (fun m r => add_at m (position c) (url r)) m (references c))
        ∅ cs.

(** [reference_numbers[x]]; every URL that is looked up was numbered
    by the first pass. *)
Definition number_of (nums : gmap string nat) (u : string) : nat :=
  default 0%nat (nums !! u).

Definition is_link (ref : string) : bool := String.prefix "http" ref.

Definition citation_num (nums : gmap string nat) (ref : string) : string :=
  let num := number_of nums ref in
  if is_link ref then "<" +:+ ref +:+ "|" +:+ str_nat num +:+ ">" else str_nat num.

Definition superscript (nums : gmap string nat) (refs : gset string) : string :=
  "[" +:+ join "," (citation_num nums <$>
                      sorted (fun x => Z.of_nat (number_of nums x)) (elements refs)) +:+ "]".

(** One step of the insertion loop. *)
Definition insert_marker (nums : gmap string nat) (by_pos : gmap Z (gset string))
           (msg : string) (pos : Z) : string :=
  let refs := default ∅ (by_pos !! pos) in
  slice_to msg pos +:+ superscript nums refs +:+ slice_from msg pos.

Definition reference_line (nums : gmap string nat) (ref : string) : string :=
  let formatted_ref := if is_link ref then "<" +:+ ref +:+ "|" +:+ ref +:+ ">" else ref in
  str_nat (number_of nums ref) +:+ ". " +:+ formatted_ref +:+ nl.

Definition references_block (st : numbering) : string :=
  foldl (fun acc ref => acc +:+ reference_line (reference_numbers st) ref)
        ("References:" +:+ nl)
        (sorted (fun x => Z.of_nat (number_of (reference_numbers st) x))
                (elements (all_references st))).

Definition format_normalized_response (nr : normalized_response) : string :=
  match citations nr with
  | [] => message nr
  | cs =>
      let st := assign_numbers cs in
      let by_pos := citations_by_position cs in
      let positions := sorted_reverse (fun p => p) (fst <$> map_to_list by_pos) in
      let msg := foldl (insert_marker (reference_numbers st) by_pos) (message nr) positions in
      if bool_decide (all_references st = ∅) then msg
      else references_block st +:+ nl +:+ msg
  end.

(** The reference URLs in the order in which the first pass meets them. *)
Definition cited_urls (cs : list citation) : list string :=
  concat ((fun c => url <$> references c) <$> cs).

(** What holds after the first pass has met the URLs [l]. *)
Record numbered (l : list string) (st : numbering) : Prop := {
  numbered_all : all_references st = list_to_set l;
  numbered_dom : dom (reference_numbers st) = list_to_set l;
  numbered_next : current_ref_num st = S (size (list_to_set l : gset string));
  numbered_rank : forall i u, l !! i = Some u -> u ∉ take i l ->
      reference_numbers st !! u
      = Some (S (size (list_to_set (take i l) : gset string)))
}.

(** The numbering as the data model words it: the first pass run over
    the citations sorted by ascending position. *)
Definition spec_reference_numbers (cs : list citation) : gmap string nat :=
  reference_numbers (assign_numbers (sorted position cs)).

(** The marker and the entry of the references block expected for a
    URL that carries number 1. *)
Definition marker_1 (u : string) : string :=
  "[" +:+ (if is_link u then "<" +:+ u +:+ "|1>" else "1") +:+ "]".

Definition entry_1 (u : string) : string :=
  "1. " +:+ (if is_link u then "<" +:+ u +:+ "|" +:+ u +:+ ">" else u) +:+ nl.

(** Sample inputs. *)

Definition cite (pos : Z) (u : string) : citation :=
  {| position := pos; references := [ {| name := u; url := u |} ] |}.

Definition later_citation_first : normalized_response :=
  {| message := "Sort keys matter. Use a TTL.";
     citations := [ cite 28 "https://docs.example/ttl"; cite 17 "https://docs.example/sorting" ] |}.

Definition cited_twice : normalized_response :=
  {| message := "Sort keys matter. Use a TTL to drop old rows early.";
     citations := [ cite 10 "https://docs.example/ttl"; cite 40 "https://docs.example/ttl" ] |}.

(** The numbers given so far are the numbers from 1 up to the counter,
    each given to one URL. *)
Record well_numbered (st : numbering) : Prop := {
  wn_start : (1 <= current_ref_num st)%nat;
  wn_range : forall u k, reference_numbers st !! u = Some k ->
                         (1 <= k < current_ref_num st)%nat;
  wn_inj : forall u v k, reference_numbers st !! u = Some k ->
                         reference_numbers st !! v = Some k -> u = v;
  wn_onto : forall k, (1 <= k < current_ref_num st)%nat ->
                      exists u, reference_numbers st !! u = Some k
}.

(** The message with a marker put in at each of the given offsets,
    which are in ascending order; [from] is the offset up to which the
    message has been copied. *)
Fixpoint splice (marker : Z -> string) (msg : string) (from : nat) (ps : list Z) : string :=
  match ps with
  | [] => str_drop from msg
  | p :: ps' =>
      str_drop from (str_take (Z.to_nat p) msg) +:+ marker p +:+
      splice marker msg (Z.to_nat p) ps'
  end.

Definition two_sources : normalized_response :=
  {| message := "Sort keys matter. Use a TTL to drop old rows early.";
     citations :=
       [ {| position := 17;
            references := [ {| name := "sorting.txt"; url := "https://docs.example/sorting" |};
                            {| name := "notes.txt"; url := "notes.txt" |} ] |};
         cite 51 "https://docs.example/ttl";
         cite 17 "https://docs.example/ttl" ] |}.

(** *** The answer of the backend

    A field that the code reads with [x['key']] is optional here:
    [None] is a missing key.  The metadata of a file is [None] when
    the backend sends none. *)
Record file_model := {
  file_name : option string;
  file_metadata : option (gmap string string)
}.
Record raw_reference := { file : option file_model }.
Record raw_citation := {
  raw_position : option Z;
  raw_references : option (list raw_reference)
}.
Record chat_model := {
  message_content : option string;
  raw_citations : option (list raw_citation)
}.

(** What [assistant.chat] returned: a chat object, or plain text. *)
Inductive response :=
| RespChat (c : chat_model)
| RespStr (s : string).

Definition normalize_reference (ref : raw_reference) : result reference :=
  bind (subscript "file" (file ref)) (fun f =>
  match file_metadata f with
  | None => Raise (Exn "AttributeError" "'NoneType' object has no attribute 'get'")
  | Some md =>
      bind (subscript "name" (file_name f)) (fun n =>
      Ok {| name := n; url := default n (md !! "url") |})
  end).

Definition normalize_citation (c : raw_citation) : result citation :=
  bind (subscript "references" (raw_references c)) (fun refs =>
  bind (mapM normalize_reference refs) (fun references =>
  bind (subscript "position" (raw_position c)) (fun pos =>
  Ok {| position := pos; references := references |}))).

Definition normalize_pinecone_citations (r : chat_model) : result normalized_response :=
  bind (subscript "citations" (raw_citations r)) (fun cs =>
  bind (mapM normalize_citation cs) (fun normalized_citations =>
  bind (subscript "content" (message_content r)) (fun msg =>
  Ok {| message := msg; citations := normalized_citations |}))).

Definition format_response_with_citations (r : response) : result string :=
  match r with
  | RespStr _ => Raise (Exn "TypeError" "string indices must be integers")
  | RespChat c =>
      bind (normalize_pinecone_citations c) (fun nr => Ok (format_normalized_response nr))
  end.

(** [get_response] logs and re-raises what [assistant.chat] raises;
    [chat] is the backend. *)
Definition get_response (chat : list Nest.Message -> result response)
           (messages : list Nest.Message) : result response :=
  chat messages.

(** A chat object with one citation of two files, one of them with a
    URL in its metadata. *)
Definition answer_with_two_files : chat_model :=
  {| message_content := Some "Use a sorting key.";
     raw_citations :=
       Some [ {| raw_position := Some 18;
                 raw_references :=
                   Some [ {| file := Some {| file_name := Some "wiki_docs_sorting.txt";
                                            file_metadata :=
                                              Some {[ "url" := "https://wiki.example/doc/sorting" ]} |} |};
                          {| file := Some {| file_name := Some "notes.txt";
                                            file_metadata := Some ∅ |} |} ] |} ] |}.

End Honk.


(** ** gosling/feed.py: reconciliation against the assistant's files *)

Module Feed.

Record FileMetadata := {
  source : string;
  file_name : string;
  last_updated : string;
  url : string;
  file_path : string;
  content_hash : string
}.

(** An entry of [assistant.list_files()]; [metadata] is [None] when
    the entry has no metadata dictionary. *)
Record remote_file := {
  id : string;
  name : string;
  metadata : option (gmap string string)
}.

Definition existing_files_of (listing : list remote_file) : list (string * remote_file) :=
  foldl (fun d f => dict_set (name f) f d) [] listing.

Definition is_valid (src : string) (f : remote_file) : bool :=
  match metadata f with
  | Some md => bool_decide (md !! "source" = Some src)
  | None => false
  end.

(** [int(s.split('.')[0])]; the error shows at most 200 characters of
    the [repr] of the text. *)
Definition timestamp (s : string) : result Z :=
  match int_of_str (first_field s) with
  | Some z => Ok z
  | None => Raise (Exn "ValueError" ("invalid literal for int() with base 10: " +:+
                                     str_take 200 (py_repr (first_field s))))
  end.

Definition is_newer (precise : bool) (new_ts existing_ts : Z) : bool :=
  ((existing_ts <? new_ts) && precise)
  || (negb precise && (existing_ts <? new_ts) && (new_ts - existing_ts <? 24 * 60 * 60)).

(** The test made once the candidate is newer: upload unless the
    remote hash is present and equal. *)
Definition hash_differs (existing_metadata : gmap string string) (new_file_info : FileMetadata) : bool :=
  match existing_metadata !! "content_hash" with
  | Some existing_hash =>
      if truthy existing_hash
      then negb (String.eqb existing_hash (content_hash new_file_info))
      else true
  | None => true
  end.

(** Body of the loop that fills [files_to_upsert]: is this file appended? *)
Definition needs_upsert (precise : bool) (existing_files : list (string * remote_file))
           (new_file_info : FileMetadata) : result bool :=
  match dict_get (file_name new_file_info) existing_files with
  | Some existing_file_details =>
      let existing_metadata := default ∅ (metadata existing_file_details) in
      if negb (truthy_opt (existing_metadata !! "last_updated")) then Ok true
      else
        bind (timestamp (default "" (existing_metadata !! "last_updated"))) (fun existing_ts =>
        bind (timestamp (last_updated new_file_info)) (fun new_ts =>
        if is_newer precise new_ts existing_ts
        then Ok (hash_differs existing_metadata new_file_info)
        else Ok false))
  | None => Ok true
  end.

Fixpoint files_to_upsert (precise : bool) (existing_files : list (string * remote_file))
         (files : list FileMetadata) : result (list FileMetadata) :=
  match files with
  | [] => Ok []
  | f :: files' =>
      bind (needs_upsert precise existing_files f) (fun b =>
      bind (files_to_upsert precise existing_files files') (fun rest =>
      Ok (if b then f :: rest else rest)))
  end.

Definition files_to_delete (src : string) (existing_files : list (string * remote_file))
           (files : list FileMetadata) : list remote_file :=
  let existing_valid_files := filter (fun f => is_valid src f = true) (dict_values existing_files) in
  let current_file_names : gset string := list_to_set (file_name <$> files) in
  filter (fun f => name f ∉ current_file_names) existing_valid_files.

(** The two lists computed before anything is written. *)
Definition reconcile (listing : list remote_file) (files : list FileMetadata)
           (src : string) (precise : bool)
  : result (list remote_file * list FileMetadata) :=
  let existing_files := existing_files_of listing in
  bind (files_to_upsert precise existing_files files) (fun ups =>
  Ok (files_to_delete src existing_files files, ups)).

(** *** The writer

    What the function does to the outside world, in order. *)
Inductive event :=
| EvPrint (text : string)
| EvInput (prompt : string)
| EvDelete (file_id : string)
| EvUpload (i attempt : nat) (path : string) (upload_metadata : gmap string string)
| EvDescribe (file_id : string)
| EvSleep (seconds : Z).

Definition is_mutation (ev : event) : bool :=
  match ev with
  | EvDelete _ | EvUpload _ _ _ _ => true
  | _ => false
  end.

(** The assistant as the function sees it.  A deletion is identified
    by its rank in [files_to_delete], an upload and its verification
    by the index of the file and the number of the attempt: each
    such call happens at most once. *)
Record assistant := {
  list_files : list remote_file;
  delete_file : nat -> string -> result unit;
  upload_file : nat -> nat -> string -> gmap string string -> result string;
  describe_file : nat -> nat -> string -> result (option (gmap string string))
}.

(** Computations that leave a trace and may raise. *)
Definition M (A : Type) : Type := list event * result A.

Definition ret {A} (a : A) : M A := ([], Ok a).
Definition raise {A} (e : exn) : M A := ([], Raise e).
Definition lift {A} (r : result A) : M A := ([], r).
Definition emit (ev : event) : M unit := ([ev], Ok tt).

Definition mbind {A B} (m : M A) (k : A -> M B) : M B :=
  match m with
  | (t, Ok a) => let '(t', r) := k a in ((t ++ t')%list, r)
  | (t, Raise e) => (t, Raise e)
  end.

Definition try_except {A} (m : M A) (handler : exn -> M A) : M A :=
  match m with
  | (t, Ok a) => (t, Ok a)
  | (t, Raise e) => let '(t', r) := handler e in ((t ++ t')%list, r)
  end.

Notation "x <- m ;; k" := (mbind m (fun x => k))
  (at level 100, m at next level, right associativity).
Notation "m ;;; k" := (mbind m (fun _ => k))
  (at level 100, right associativity).

Definition max_retries : nat := 5.
Definition retry_delay : Z := 1.

Definition upload_metadata_of (file_info : FileMetadata) : gmap string string :=
  {[ "source" := source file_info;
     "last_updated" := last_updated file_info;
     "url" := url file_info;
     "content_hash" := content_hash file_info ]}.

Definition verified (described_metadata : option (gmap string string)) : bool :=
  match described_metadata with
  | Some md => negb (bool_decide (md = ∅)) && truthy_opt (md !! "last_updated")
  | None => false
  end.

(** The body of [try:] for one attempt; returning normally is [break]. *)
Definition attempt_upload (a : assistant) (i attempt : nat) (file_info : FileMetadata) : M unit :=
  emit (EvUpload i attempt (file_path file_info) (upload_metadata_of file_info)) ;;;
  result_id <- lift (upload_file a i attempt (file_path file_info) (upload_metadata_of file_info)) ;;
  emit (EvDescribe result_id) ;;;
  described <- lift (describe_file a i attempt result_id) ;;
  if verified described
  then emit (EvSleep 1)
  else raise (Exn "ValueError" ("File " +:+ file_name file_info +:+ " has no metadata after upload")).

(** [for attempt in range(max_retries)], from a given attempt on. *)
Fixpoint retry_loop (a : assistant) (i : nat) (file_info : FileMetadata)
         (attempts : list nat) : M unit :=
  match attempts with
  | [] => ret tt
  | attempt :: rest =>
      try_except (attempt_upload a i attempt file_info) (fun e =>
        if (attempt <? max_retries - 1)%nat
        then emit (EvSleep (retry_delay * 2 ^ Z.of_nat attempt)) ;;; retry_loop a i file_info rest
        else raise e)
  end.

Definition upload_with_retries (a : assistant) (i : nat) (file_info : FileMetadata) : M unit :=
  retry_loop a i file_info (seq 0 max_retries).

Fixpoint upsert_all (a : assistant) (i : nat) (files : list FileMetadata) : M unit :=
  match files with
  | [] => ret tt
  | file_info :: rest => upload_with_retries a i file_info ;;; upsert_all a (S i) rest
  end.

Fixpoint delete_all (a : assistant) (k : nat) (files : list remote_file) : M unit :=
  match files with
  | [] => ret tt
  | file :: rest =>
      try_except (emit (EvDelete (id file)) ;;; lift (delete_file a k (id file)))
                 (fun _ => ret tt) ;;;
      delete_all a (S k) rest
  end.

(** [confirmation.lower() != 'y'] *)
Definition declines (confirmation : string) : bool :=
  negb (String.eqb confirmation "y" || String.eqb confirmation "Y").

(** [answer] is what [input] returns when it is called. *)
Definition dupsert_files_pinecone (a : assistant) (files : list FileMetadata) (src : string)
           (precise auto_confirm : bool) (answer : string) : M unit :=
  plan <- lift (reconcile (list_files a) files src precise) ;;
  let '(to_delete, to_upsert) := plan in
  match to_delete, to_upsert with
  | [], [] => emit (EvPrint (nl +:+ "No changes needed!"))
  | _, _ =>
      proceed <- (if auto_confirm then ret true
                  else emit (EvInput (nl +:+ "Apply these changes? (y/N): ")) ;;;
                       if declines answer
                       then emit (EvPrint "Operation cancelled.") ;;; ret false
                       else ret true) ;;
      if proceed : bool
      then delete_all a 0 to_delete ;;; upsert_all a 0 to_upsert
      else ret tt
  end.

(** The pause that directly precedes the given attempt in a trace. *)
Fixpoint delay_before (attempt : nat) (tr : list event) : option Z :=
  match tr with
  | [] => None
  | ev :: tr' =>
      match ev, tr' with
      | EvSleep d, EvUpload _ k _ _ :: _ =>
          if (k =? attempt)%nat then Some d else delay_before attempt tr'
      | _, _ => delay_before attempt tr'
      end
  end.

(** The pauses of a trace, in order. *)
Definition pauses (tr : list event) : list Z :=
  omap (fun ev => match ev with EvSleep d => Some d | _ => None end) tr.

(** The local manifest and the remote listing hold the same files:
    each valid remote entry is named like a local file, and each local
    file carries a timestamp and has remote entries of its name, all
    with its [last_updated] and its [content_hash]. *)
Definition is_timestamp (s : string) : bool :=
  match timestamp s with
  | Ok _ => true
  | Raise _ => false
  end.

Definition same_record (f : FileMetadata) (r : remote_file) : bool :=
  match metadata r with
  | Some md =>
      bool_decide (md !! "last_updated" = Some (last_updated f))
      && bool_decide (md !! "content_hash" = Some (content_hash f))
  | None => false
  end.

Definition same_inventory (src : string) (listing : list remote_file)
           (files : list FileMetadata) : bool :=
  forallb (fun r => negb (is_valid src r)
                    || existsb (fun f => String.eqb (file_name f) (name r)) files) listing
  && forallb (fun f => is_timestamp (last_updated f)
                       && existsb (fun r => String.eqb (name r) (file_name f)) listing
                       && forallb (fun r => negb (String.eqb (name r) (file_name f))
                                            || same_record f r) listing) files.

(** Sample inputs. *)

Definition wiki_page (n lu h : string) : FileMetadata :=
  {| source := "wiki_docs"; file_name := n; last_updated := lu;
     url := "https://wiki.example/doc/" +:+ n; file_path := "/tmp/out/" +:+ n;
     content_hash := h |}.

Definition stored_page (n lu h : string) : remote_file :=
  {| id := "file-" +:+ n; name := n;
     metadata := Some {[ "source" := "wiki_docs"; "last_updated" := lu;
                         "content_hash" := h ]} |}.

Definition timed_out : exn := Exn "TimeoutError" "upload timed out".

(** An assistant that holds the given files and refuses every upload. *)
Definition unreachable (listing : list remote_file) : assistant :=
  {| list_files := listing;
     delete_file := fun _ _ => Ok tt;
     upload_file := fun _ _ _ _ => Raise timed_out;
     describe_file := fun _ _ _ => Ok None |}.

(** No entry of the listing has the file's name, or the entry that
    stands for the name has no [last_updated] value. *)
Definition unverified (listing : list remote_file) (f : FileMetadata) : Prop :=
  (forall r, r ∈ listing -> name r <> file_name f)
  \/ (exists r, dict_get (file_name f) (existing_files_of listing) = Some r
               /\ truthy_opt (default ∅ (metadata r) !! "last_updated") = false).

(** Is the file appended to [files_to_upsert]? *)
Definition wants_upsert (precise : bool) (existing_files : list (string * remote_file))
           (f : FileMetadata) : bool :=
  match needs_upsert precise existing_files f with
  | Ok true => true
  | _ => false
  end.

(** The uploads of a trace, as (index of the file, attempt), and the
    identifiers whose deletion it asks for. *)
Definition upload_attempts_of (tr : list event) : list (nat * nat) :=
  omap (fun ev => match ev with EvUpload i k _ _ => Some (i, k) | _ => None end) tr.

Definition deletions_of (tr : list event) : list string :=
  omap (fun ev => match ev with EvDelete file_id => Some file_id | _ => None end) tr.

(** An assistant that takes every upload and shows its metadata. *)
Definition obliging (listing : list remote_file) : assistant :=
  {| list_files := listing;
     delete_file := fun _ _ => Raise timed_out;
     upload_file := fun i _ _ _ => Ok ("file-" +:+ str_nat i);
     describe_file := fun _ _ _ => Ok (Some {[ "last_updated" := "1700000000" ]}) |}.

(** An assistant whose uploads fail twice before they are taken. *)
Definition flaky (listing : list remote_file) : assistant :=
  {| list_files := listing;
     delete_file := fun _ _ => Ok tt;
     upload_file := fun i k _ _ => if (k <? 2)%nat then Raise timed_out
                                   else Ok ("file-" +:+ str_nat i);
     describe_file := fun _ _ _ => Ok (Some {[ "last_updated" := "1700000000" ]}) |}.

End Feed.

(** ** slackbot.py: deduplication, reputation and the reply *)

Module Slackbot.

Definition POSITIVE_REACTIONS : gset string :=
  list_to_set
    [ "+1"; "thumbsup"; "white_check_mark"; "heavy_check_mark"; "yes";
      "good"; "verified"; "raised_hands"; "heart"; "thumbs_up" +:+
      "heart"; "heavy_plus_sign" ].

Definition NEGATIVE_REACTIONS : gset string :=
  list_to_set
    [ "-1"; "thumbsdown"; "x"; "no"; "negative"; "wrong"; "false";
      "thumbs_down" ].

(** *** The idempotency table *)

Record log_entry := { level : string; line : string }.

(** The table, the clock, the log, and for each coming call to the
    table whether it raises.  The clock is in whole seconds: [now] is
    the instant, [wall t] is the reading of the local wall clock at the
    instant [t] (what [datetime.now()] holds, as seconds), and
    [epoch_of l] is the instant that [.timestamp()] gives for the
    reading [l].  The log holds the lines that [is_duplicate_request]
    and [mark_request_started] write; the lines that
    [process_slack_event] writes itself, which print the whole record,
    are not part of it. *)
Record world := {
  event_table : gmap (string * string) Z;
  faults : list (option exn);
  now : Z;
  wall : Z -> Z;
  epoch_of : Z -> Z;
  log : list log_entry
}.

Definition Act (A : Type) : Type := world -> result A * world.

Definition ret {A} (a : A) : Act A := fun w => (Ok a, w).

Definition sbind {A B} (m : Act A) (k : A -> Act B) : Act B :=
  fun w => match m w with
           | (Ok a, w') => k a w'
           | (Raise e, w') => (Raise e, w')
           end.

Definition try_except {A} (m : Act A) (handler : exn -> Act A) : Act A :=
  fun w => match m w with
           | (Ok a, w') => (Ok a, w')
           | (Raise e, w') => handler e w'
           end.

Notation "x <- m ;; k" := (sbind m (fun x => k))
  (at level 100, m at next level, right associativity).
Notation "m ;;; k" := (sbind m (fun _ => k))
  (at level 100, right associativity).

Definition write_log (lvl text : string) : Act unit :=
  fun w => (Ok tt, {| event_table := event_table w; faults := faults w; now := now w;
                      wall := wall w; epoch_of := epoch_of w;
                      log := log w ++ [ {| level := lvl; line := text |} ] |}).

(** A call to the table consumes the next entry of [faults]. *)
Definition table_call : Act unit :=
  fun w => let w' := {| event_table := event_table w; faults := tail (faults w);
                        now := now w; wall := wall w; epoch_of := epoch_of w;
                        log := log w |} in
           match faults w with
           | Some e :: _ => (Raise e, w')
           | _ => (Ok tt, w')
           end.

(** [event_table.get_item(Key=...)]: the item, when there is one. *)
Definition get_item (key : string * string) : Act (option Z) :=
  table_call ;;; fun w => (Ok (event_table w !! key), w).

(** [event_table.put_item(Item=...)] *)
Definition put_item (key : string * string) (ttl : Z) : Act unit :=
  table_call ;;;
  fun w => (Ok tt, {| event_table := <[key := ttl]> (event_table w); faults := faults w;
                      now := now w; wall := wall w; epoch_of := epoch_of w;
                      log := log w |}).

Definition dedup_key (event_data : Nest.SlackEventData) : string * string :=
  (Nest.channel_id event_data, Nest.event_ts event_data).

Definition is_duplicate_request (event_data : Nest.SlackEventData) : Act bool :=
  try_except
    (response <- get_item (dedup_key event_data) ;;
     ret (bool_decide (is_Some response)))
    (fun e =>
     write_log "error" ("Error checking duplicate request: " +:+ str_exn e) ;;;
     ret false).

(** The expiry is [int((datetime.now() + timedelta(hours=1)).timestamp())]:
    one hour is added to the reading of the wall clock, and the sum is
    read back as an instant. *)
Definition mark_request_started (event_data : Nest.SlackEventData) : Act unit :=
  try_except
    (expiry <- (fun w => (Ok (epoch_of w (wall w (now w) + 60 * 60)), w)) ;;
     put_item (dedup_key event_data) expiry ;;;
     write_log "info" ("Marked request as started in DynamoDB: " +:+
                       Nest.event_ts event_data +:+ " " +:+ Nest.channel_id event_data))
    (fun e => write_log "error" ("Error marking request: " +:+ str_exn e)).

(** The end of [process_slack_event], from the duplicate check on.
    [run_chat_process] is the outcome of the routing tests (direct
    message, command, mention, honk reaction) and
    [process_chat_request] the processing that follows.  The lines
    that this part of the function logs are left out: the log of the
    world holds those of the two functions it calls. *)
Definition is_gated (event_type : string) (slack_data : Nest.SlackEventData) : bool :=
  Nest.is_dm slack_data
  || existsb (String.eqb event_type) ["honk"; "app_mention"; "message"].

Definition check_and_process (event_type : string) (run_chat_process : bool)
           (process_chat_request : Nest.SlackEventData -> Act unit)
           (slack_data : Nest.SlackEventData) : Act unit :=
  duplicate <- (if is_gated event_type slack_data
                then is_duplicate_request slack_data
                else ret false) ;;
  if duplicate : bool then ret tt
  else if run_chat_process
       then mark_request_started slack_data ;;; process_chat_request slack_data
       else ret tt.

(** *** The reply *)

(** [str_response] is [str] on a chat object. *)
Definition get_provider_response
           (chat : list Nest.Message -> result Honk.response)
           (str_response : Honk.chat_model -> string)
           (conversation_context : list Nest.Message) : string :=
  match Honk.get_response chat conversation_context with
  | Raise e => "Sorry, I encountered an error: " +:+ str_exn e
  | Ok response =>
      match Honk.format_response_with_citations response with
      | Ok resp => resp
      | Raise _ =>
          match response with
          | Honk.RespStr s => s
          | Honk.RespChat c => str_response c
          end
      end
  end.

(** *** Thread context and reputation *)

Record reaction := { name : string; count : Z }.

(** A message of [conversations_replies]; [user] and [text] are read
    with [msg['user']] and [msg['text']] and may be missing. *)
Record slack_message := {
  ts : string;
  user : option string;
  text : option string;
  bot_id : option string;
  reactions : list reaction
}.

Record message_metadata := {
  meta_ts : string;
  meta_reactions : list string;
  reaction_score : Z;
  meta_is_bot : bool;
  meta_text : string;
  score : Z
}.

(** Body of [for reaction in reactions]. *)
Definition score_step (score : Z) (r : reaction) : Z :=
  if bool_decide (name r ∈ POSITIVE_REACTIONS) then score + count r
  else if bool_decide (name r ∈ NEGATIVE_REACTIONS) then score - count r
  else score.

Definition message_score (msg : slack_message) : Z :=
  foldl score_step 0 (reactions msg).

Definition metadata_of (msg : slack_message) : message_metadata :=
  {| meta_ts := ts msg;
     meta_reactions := name <$> reactions msg;
     reaction_score := message_score msg;
     meta_is_bot := truthy_opt (bot_id msg);
     meta_text := default "" (text msg);
     score := message_score msg |}.

Definition context_line (msg : slack_message) : result Nest.Message :=
  if 0 <=? message_score msg
  then bind (subscript "user" (user msg)) (fun u =>
       bind (subscript "text" (text msg)) (fun t =>
       Ok (Nest.user_message (u +:+ ": " +:+ t))))
  else Ok (Nest.user_message "[Response marked as incorrect]").

Fixpoint context_loop (conversation : list slack_message)
  : result (list Nest.Message * list message_metadata) :=
  match conversation with
  | [] => Ok ([], [])
  | msg :: rest =>
      bind (context_line msg) (fun m =>
      bind (context_loop rest) (fun '(messages, context_metadata) =>
      Ok (m :: messages, metadata_of msg :: context_metadata)))
  end.

(** [replies] is what [client.conversations_replies(...)["messages"]]
    gives; an error is logged and raised again. *)
Definition get_conversation_context (replies : result (list slack_message))
  : result (list Nest.Message * list message_metadata) :=
  bind replies context_loop.

(** The world after a call to the table has raised [e] and [text] has
    been logged for it. *)
Definition after_error (w : world) (rest : list (option exn)) (text : string) : world :=
  {| event_table := event_table w; faults := rest; now := now w;
     wall := wall w; epoch_of := epoch_of w;
     log := log w ++ [ {| level := "error"; line := text |} ] |}.

(** Does the next call to the table return normally? *)
Definition next_call_ok (w : world) : bool :=
  match faults w with
  | Some _ :: _ => false
  | _ => true
  end.

(** What the reply falls back to when formatting fails. *)
Definition raw_answer (str_response : Honk.chat_model -> string) (r : Honk.response) : string :=
  match r with
  | Honk.RespStr s => s
  | Honk.RespChat c => str_response c
  end.



(** Sample inputs. *)

Definition two_up_one_down : slack_message :=
  {| ts := "1700000000.000100"; user := Some "U123"; text := Some "try a materialized view";
     bot_id := None;
     reactions := [ {| name := "+1"; count := 2 |}; {| name := "-1"; count := 1 |} ] |}.

Definition one_down : slack_message :=
  {| ts := "1700000000.000200"; user := Some "U456"; text := Some "just drop the table";
     bot_id := None;
     reactions := [ {| name := "x"; count := 1 |}; {| name := "eyes"; count := 4 |} ] |}.

Definition mention (channel ts : string) : Nest.SlackEventData :=
  {| Nest.event_type := "app_mention"; Nest.event_ts := ts; Nest.channel_id := channel;
     Nest.user_id := "U123"; Nest.text := "how do I sort a data source?";
     Nest.thread_ts := ts; Nest.ephemeral := false; Nest.is_dm := false;
     Nest.is_bot := false |}.


(** A clock on Central European Time, half an hour before the
    instant [1761440400] at which summer time ended in 2025: the wall
    clock is two hours ahead of the instants before it and one hour
    after it, and a reading met twice is read back as the first of the
    two instants. *)
Definition fall_back_world : world :=
  {| event_table := ∅; faults := []; now := 1761440400 - 1800;
     wall := fun t => if t <? 1761440400 then t + 7200 else t + 3600;
     epoch_of := fun l => if l <? 1761440400 + 7200 then l - 7200 else l - 3600;
     log := [] |}.

Definition throttled : exn := Exn "ClientError" "ProvisionedThroughputExceededException".

Definition failing_world : world :=
  {| event_table := {[ ("C1", "1700000000.000100") := 1700003600 ]};
     faults := [Some throttled]; now := 1700000100; wall := fun t => t;
     epoch_of := fun l => l; log := [] |}.

(** A chat object whose cited file carries no metadata. *)
Definition answer_without_metadata : Honk.chat_model :=
  {| Honk.message_content := Some "Use a sorting key.";
     Honk.raw_citations :=
       Some [ {| Honk.raw_position := Some 18;
                 Honk.raw_references :=
                   Some [ {| Honk.file := Some {| Honk.file_name := Some "wiki_docs_sorting.txt";
                                                 Honk.file_metadata := None |} |} ] |} ] |}.

(** *** Parsing an event

    The payload of an event; a field is [None] when the key is
    missing.  [has_bot_id] and [has_bot_profile] say whether those
    keys are there. *)
Record raw_message := { msg_text : option string; msg_ts : option string }.

Record raw_item := {
  item_type : option string;
  item_ts : option string;
  item_channel : option string;
  item_text : option string
}.

Record raw_event := {
  subtype : option string;
  ev_text : option string;
  ev_ts : option string;
  ev_message : option raw_message;
  ev_thread_ts : option string;
  ev_channel : option string;
  ev_user : option string;
  has_bot_id : bool;
  has_bot_profile : bool;
  trigger_id : option string;
  ev_item : option raw_item;
  item_user : option string;
  ev_reaction : option string
}.

Record bolt_context := { ctx_channel_id : option string; ctx_user_id : option string }.

(** The record that parsing builds.  A timestamp is [None] when the
    payload gave [None] for it. *)
Record event_record := {
  r_event_type : string;
  r_event_ts : option string;
  r_channel_id : string;
  r_user_id : string;
  r_text : string;
  r_response : string;
  r_thread_ts : option string;
  r_ephemeral : bool;
  r_is_dm : bool;
  r_is_bot : bool;
  r_context : list Nest.Message;
  r_context_metadata : list message_metadata;
  r_reactions : list string;
  r_score : Z
}.

(** [event_data["text"]] and [event_data["ts"]] once an edited message
    has been swapped in; for [ts] the key may hold [None]. *)
Definition text_key (event_data : raw_event) : option string :=
  if bool_decide (subtype event_data = Some "message_changed")
  then Some (default "" (ev_message event_data ≫= msg_text))
  else ev_text event_data.

Definition ts_key (event_data : raw_event) : option (option string) :=
  if bool_decide (subtype event_data = Some "message_changed")
  then Some (match ev_message event_data ≫= msg_ts with
             | Some s => Some s
             | None => ev_ts event_data
             end)
  else Some <$> ev_ts event_data.

Definition is_bot_payload (event_data : raw_event) : bool :=
  has_bot_id event_data || has_bot_profile event_data.

Definition context_subscript (k : string) (context : option bolt_context)
           (field : bolt_context -> option string) : result string :=
  match context with
  | None => Raise (Exn "TypeError" "'NoneType' object is not subscriptable")
  | Some c => subscript k (field c)
  end.

(** [conversations_replies channel ts] is the thread the client
    returns. *)
Definition parse_slack_event
           (conversations_replies : string -> string -> result (list slack_message))
           (event_type : string) (event_data : raw_event) (context : option bolt_context)
  : result event_record :=
  if existsb (String.eqb event_type) ["app_mention"; "message"] then
    bind (if truthy_opt (ev_thread_ts event_data) then Ok (ev_thread_ts event_data)
          else subscript "ts" (ts_key event_data)) (fun thread_ts =>
    bind (subscript "ts" (ts_key event_data)) (fun event_ts =>
    bind (subscript "channel" (ev_channel event_data)) (fun channel =>
    bind (subscript "user" (ev_user event_data)) (fun user =>
    bind (subscript "text" (text_key event_data)) (fun text =>
    Ok {| r_event_type := event_type; r_event_ts := event_ts; r_channel_id := channel;
          r_user_id := user; r_text := text; r_response := ""; r_thread_ts := thread_ts;
          r_ephemeral := false; r_is_dm := String.prefix "D" channel;
          r_is_bot := is_bot_payload event_data;
          r_context := []; r_context_metadata := []; r_reactions := []; r_score := 0 |})))))
  else if String.eqb event_type "honk" then
    bind (subscript "trigger_id" (trigger_id event_data)) (fun event_ts =>
    bind (context_subscript "channel_id" context ctx_channel_id) (fun channel =>
    bind (context_subscript "user_id" context ctx_user_id) (fun user =>
    bind (subscript "text" (text_key event_data)) (fun text =>
    Ok {| r_event_type := event_type; r_event_ts := Some event_ts; r_channel_id := channel;
          r_user_id := user; r_text := text; r_response := "";
          r_thread_ts := Some (default "" (ev_thread_ts event_data));
          r_ephemeral := true; r_is_dm := String.prefix "D" channel;
          r_is_bot := is_bot_payload event_data;
          r_context := []; r_context_metadata := []; r_reactions := []; r_score := 0 |}))))
  else if existsb (String.eqb event_type) ["reaction_added"; "reaction_removed"] then
    let item := ev_item event_data in
    bind (subscript "ts" (item ≫= item_ts)) (fun its =>
    bind (subscript "channel" (item ≫= item_channel)) (fun channel =>
    bind (subscript "item_user" (item_user event_data)) (fun user =>
    bind (subscript "reaction" (ev_reaction event_data)) (fun reaction =>
    let slack_data :=
      {| r_event_type := event_type; r_event_ts := Some its; r_channel_id := channel;
         r_user_id := user; r_text := default "" (item ≫= item_text);
         r_response := "reaction_" +:+ event_type +:+ ":" +:+ reaction;
         r_thread_ts := Some its; r_ephemeral := false;
         r_is_dm := String.prefix "D" channel; r_is_bot := false;
         r_context := []; r_context_metadata := []; r_reactions := []; r_score := 0 |} in
    bind (get_conversation_context (conversations_replies channel its))
         (fun '(conversation_context, context_metadata) =>
    match list_find (fun meta => meta_ts meta = its) context_metadata with
    | None => Ok slack_data
    | Some (_, target_message) =>
        Ok {| r_event_type := event_type; r_event_ts := Some its; r_channel_id := channel;
              r_user_id := user; r_text := meta_text target_message;
              r_response := r_response slack_data;
              r_thread_ts := Some (meta_ts target_message); r_ephemeral := false;
              r_is_dm := r_is_dm slack_data; r_is_bot := meta_is_bot target_message;
              r_context := conversation_context; r_context_metadata := context_metadata;
              r_reactions := meta_reactions target_message;
              r_score := score target_message |}
    end)))))
  else Raise (Exn "ValueError" ("Unexpected Message Type: " +:+ event_type)).

(** Sample payloads. *)

Definition plain_event : raw_event :=
  {| subtype := None; ev_text := Some "<@UBOT> how do I sort?"; ev_ts := Some "1700000000.000100";
     ev_message := None; ev_thread_ts := None; ev_channel := Some "C1"; ev_user := Some "U123";
     has_bot_id := false; has_bot_profile := false; trigger_id := None; ev_item := None;
     item_user := None; ev_reaction := None |}.

Definition edited_event : raw_event :=
  {| subtype := Some "message_changed"; ev_text := Some "old text";
     ev_ts := Some "1700000000.000900";
     ev_message := Some {| msg_text := Some "<@UBOT> how do I sort by date?";
                           msg_ts := Some "1700000000.000100" |};
     ev_thread_ts := None; ev_channel := Some "D42"; ev_user := Some "U123";
     has_bot_id := false; has_bot_profile := false; trigger_id := None; ev_item := None;
     item_user := None; ev_reaction := None |}.

Definition reaction_event : raw_event :=
  {| subtype := None; ev_text := None; ev_ts := None; ev_message := None; ev_thread_ts := None;
     ev_channel := None; ev_user := Some "U9"; has_bot_id := false; has_bot_profile := false;
     trigger_id := None;
     ev_item := Some {| item_type := Some "message"; item_ts := Some "1700000000.000200";
                        item_channel := Some "C1"; item_text := None |};
     item_user := Some "U456"; ev_reaction := Some "x" |}.

(** *** Answering a request

    The calls made to the outside, in order. *)
Inductive call :=
| ChatUpdate (channel ts text : string)
| PostMessage (channel text : string) (thread_ts : option string)
| PostEphemeral (channel user text : string) (thread_ts : option string)
| Tinybird (response : string) (context : list string)
| Query (conversation : list Nest.Message)
| RagUpdate.

(** The two fields of the event that sending changes, and the calls
    made so far. *)
Record chat_state := {
  update_ts : option string;
  response : string;
  calls : list call
}.

(** The outside: the thread of a channel and timestamp, the answer of
    Slack to the call made when [n] calls had been made (for a new
    message, the [ts] it returns), the backend, [str] on a chat object,
    and the outcome of the update of the index. *)
Record services := {
  conversations_replies : string -> string -> result (list slack_message);
  slack_api : nat -> result (option string);
  chat : list Nest.Message -> result Honk.response;
  str_response : Honk.chat_model -> string;
  handle_rag_update : result unit
}.

Definition Chat (A : Type) : Type := chat_state -> result A * chat_state.

Definition chat_ret {A} (a : A) : Chat A := fun st => (Ok a, st).

Definition chat_bind {A B} (m : Chat A) (k : A -> Chat B) : Chat B :=
  fun st => match m st with
            | (Ok a, st') => k a st'
            | (Raise e, st') => (Raise e, st')
            end.

Definition chat_try {A} (m : Chat A) (handler : exn -> Chat A) : Chat A :=
  fun st => match m st with
            | (Ok a, st') => (Ok a, st')
            | (Raise e, st') => handler e st'
            end.

Definition chat_lift {A} (r : result A) : Chat A := fun st => (r, st).

Definition record_call (c : call) : Chat unit :=
  fun st => (Ok tt, {| update_ts := update_ts st; response := response st;
                       calls := calls st ++ [c] |}).

(** [event_data.send_slack(client, response)] of nest.py. *)
Definition send_slack (sv : services) (event_data : event_record) (new_response : option string)
  : Chat unit :=
  fun st =>
    let text := if truthy_opt new_response then default "" new_response else response st in
    let answer := slack_api sv (length (calls st)) in
    if truthy_opt (update_ts st) then
      let st' := {| update_ts := update_ts st; response := text;
                    calls := (calls st ++ [ChatUpdate (r_channel_id event_data)
                                                      (default "" (update_ts st)) text])%list |} in
      match answer with
      | Ok _ => (Ok tt, st')
      | Raise e => (Raise e, st')
      end
    else if r_is_dm event_data || negb (truthy (r_user_id event_data)) then
      let sent := (calls st ++ [PostMessage (r_channel_id event_data) text
                                            (r_thread_ts event_data)])%list in
      match answer with
      | Ok r => (Ok tt, {| update_ts := r; response := text; calls := sent |})
      | Raise e => (Raise e, {| update_ts := update_ts st; response := text; calls := sent |})
      end
    else
      let sent := (calls st ++ [PostEphemeral (r_channel_id event_data) (r_user_id event_data)
                                              text (r_thread_ts event_data)])%list in
      match answer with
      | Ok _ => (Ok tt, {| update_ts := None; response := text; calls := sent |})
      | Raise e => (Raise e, {| update_ts := update_ts st; response := text; calls := sent |})
      end.

(** [event_data.send_tinybird()] of nest.py: whatever happens to the
    request, nothing is raised. *)
Definition send_tinybird (context : list Nest.Message) : Chat unit :=
  fun st =>
    record_call (Tinybird (response st)
                          ((fun msg => Nest.role msg +:+ ": " +:+ Nest.content msg) <$> context))
                st.

(** The texts of the messages, byte for byte as the source file has
    them (the pictograms of the source are stored mis-decoded); nothing
    here looks inside these texts. *)
Definition LOADING_MESSAGE : string := "Thinking ðŸ§".
Definition RAG_STARTING : string :=
  "Starting RAG update process... This may take a few minutes.".
Definition RAG_DONE : string := "âœ… RAG update completed successfully!".
Definition RAG_FAILED : string := "âŒ RAG update failed: ".

(** The context with the question at its end. *)
Definition with_question (conversation_context : list Nest.Message) (text : string)
  : list Nest.Message :=
  match last conversation_context with
  | Some m => if negb (String.eqb (Nest.content m) text)
              then conversation_context ++ [Nest.user_message text]
              else conversation_context
  | None => conversation_context ++ [Nest.user_message text]
  end.

Definition process_chat_request (sv : services) (event_data : event_record) : Chat unit :=
  if negb (truthy (r_text event_data)) then
    send_slack sv event_data (Some "Looks like you didn't provide a prompt. Try again.")
  else
    chat_try
      (chat_bind
         (if negb (r_ephemeral event_data) && truthy_opt (r_thread_ts event_data)
          then chat_lift (get_conversation_context
                            (conversations_replies sv (r_channel_id event_data)
                                                   (default "" (r_thread_ts event_data))))
          else chat_ret ([], []))
         (fun '(thread_context, _) =>
       let conversation_context := with_question thread_context (r_text event_data) in
       chat_bind (send_tinybird conversation_context) (fun _ =>
       chat_bind (send_slack sv event_data
                             (Some (LOADING_MESSAGE +:+ nl +:+ "> " +:+ r_text event_data)))
                 (fun _ =>
       if String.eqb (lower (str_strip (r_text event_data))) "feed" then
         chat_try
           (chat_bind (send_slack sv event_data (Some RAG_STARTING)) (fun _ =>
            chat_bind (record_call RagUpdate) (fun _ =>
            chat_bind (chat_lift (handle_rag_update sv)) (fun _ =>
            send_slack sv event_data (Some RAG_DONE)))))
           (fun e => send_slack sv event_data (Some (RAG_FAILED +:+ str_exn e)))
       else
         chat_bind (record_call (Query conversation_context)) (fun _ =>
         let answer := get_provider_response (chat sv) (str_response sv)
                                             conversation_context in
         chat_bind (send_slack sv event_data (Some answer)) (fun _ =>
         send_tinybird conversation_context))))))
      (fun e => send_slack sv event_data (Some ("Sorry, I encountered an error: " +:+ str_exn e))).

(** The thread context that [process_chat_request] starts from. *)
Definition thread_of (sv : services) (event_data : event_record)
  : result (list Nest.Message * list message_metadata) :=
  if negb (r_ephemeral event_data) && truthy_opt (r_thread_ts event_data)
  then get_conversation_context
         (conversations_replies sv (r_channel_id event_data)
                                (default "" (r_thread_ts event_data)))
  else Ok ([], []).

(** The text of a call to Slack. *)
Definition text_of_call (c : call) : option string :=
  match c with
  | ChatUpdate _ _ text | PostMessage _ text _ | PostEphemeral _ _ text _ => Some text
  | _ => None
  end.

(** The conversations sent to the backend. *)
Definition queries_of (cs : list call) : list (list Nest.Message) :=
  omap (fun c => match c with Query q => Some q | _ => None end) cs.

(** The state of an event that has sent nothing yet. *)
Definition fresh (event_data : event_record) : chat_state :=
  {| update_ts := Some ""; response := r_response event_data; calls := [] |}.

Definition question (channel user thread text : string) : event_record :=
  {| r_event_type := "app_mention"; r_event_ts := Some thread; r_channel_id := channel;
     r_user_id := user; r_text := text; r_response := ""; r_thread_ts := Some thread;
     r_ephemeral := false; r_is_dm := false; r_is_bot := false; r_context := [];
     r_context_metadata := []; r_reactions := []; r_score := 0 |}.

(** Services that work: a thread of one message, a Slack that gives
    each new message a timestamp, a backend that answers in text. *)
Definition working : services :=
  {| conversations_replies := fun _ _ =>
       Ok [ {| ts := "1700000000.000100"; user := Some "U123";
               text := Some "how do I sort?"; bot_id := None; reactions := [] |} ];
     slack_api := fun _ => Ok (Some "1700000000.000500");
     chat := fun _ => Ok (Honk.RespStr "Use a sorting key.");
     str_response := fun _ => "<ChatModel>";
     handle_rag_update := Ok tt |}.

(** *** Access checks

    What the client and the secrets answer: the channel that
    [conversations_open] returns for a user, the outcome of
    [conversations_info] for a channel, and the values of the secrets
    [SLACK_CHANNEL_ALLOW_LIST] and [SLACK_BOT_USER_ID]. *)
Record access := {
  conversations_open : string -> result string;
  conversations_info : string -> result unit;
  allow_list : string;
  bot_user_id : string
}.

(** The [try] block of [verify_channel_access]: the channel to go on
    with. *)
Definition access_check (ac : access) (event_data : event_record) : result string :=
  if String.prefix "D" (r_channel_id event_data)
  then conversations_open ac (r_user_id event_data)
  else bind (conversations_info ac (r_channel_id event_data))
            (fun _ => Ok (r_channel_id event_data)).

Definition TIMED_OUT : string := "The request timed out. Please try again in a moment.".

Definition verify_channel_access (sv : services) (ac : access) (event_data : event_record)
  : Chat (bool * string) :=
  chat_try
    (chat_bind (chat_lift (access_check ac event_data))
               (fun channel => chat_ret (true, channel)))
    (fun e =>
       let error_msg := lower (str_exn e) in
       chat_bind (if contains "operation_timeout" error_msg
                  then chat_try (send_slack sv event_data (Some TIMED_OUT))
                                (fun _ => chat_ret tt)
                  else chat_ret tt)
                 (fun _ => chat_ret (false, r_channel_id event_data))).

Definition is_reaction (event_type : string) : bool :=
  existsb (String.eqb event_type) ["reaction_added"; "reaction_removed"].

Definition allowed_channels (ac : access) : list string :=
  str_strip <$> split_on "," (allow_list ac).

Definition with_channel (slack_data : event_record) (channel : string) : event_record :=
  {| r_event_type := r_event_type slack_data; r_event_ts := r_event_ts slack_data;
     r_channel_id := channel; r_user_id := r_user_id slack_data;
     r_text := r_text slack_data; r_response := r_response slack_data;
     r_thread_ts := r_thread_ts slack_data; r_ephemeral := r_ephemeral slack_data;
     r_is_dm := r_is_dm slack_data; r_is_bot := r_is_bot slack_data;
     r_context := r_context slack_data; r_context_metadata := r_context_metadata slack_data;
     r_reactions := r_reactions slack_data; r_score := r_score slack_data |}.

Definition with_user (slack_data : event_record) (user : string) : event_record :=
  {| r_event_type := r_event_type slack_data; r_event_ts := r_event_ts slack_data;
     r_channel_id := r_channel_id slack_data; r_user_id := user;
     r_text := r_text slack_data; r_response := r_response slack_data;
     r_thread_ts := r_thread_ts slack_data; r_ephemeral := r_ephemeral slack_data;
     r_is_dm := r_is_dm slack_data; r_is_bot := r_is_bot slack_data;
     r_context := r_context slack_data; r_context_metadata := r_context_metadata slack_data;
     r_reactions := r_reactions slack_data; r_score := r_score slack_data |}.

(** [process_slack_event] up to the duplicate check; [check_and_process]
    is what follows it.  The payload [event_data] is a dict: where the
    function calls [send_slack] on it, an [AttributeError] is raised.
    The result comes with the calls made. *)
Definition process_slack_event
           (sv : services) (ac : access) (event_type : string) (event_data : raw_event)
           (context : option bolt_context)
           (check_and_process : event_record -> Chat unit)
  : result unit * list call :=
  if negb (bool_decide (ev_item event_data ≫= item_type = Some "message"))
     && is_reaction event_type
  then (Ok tt, [])
  else
    match parse_slack_event (conversations_replies sv) event_type event_data context with
    | Raise e => (Raise e, [])
    | Ok slack_data =>
        let run : Chat unit :=
          if r_is_bot slack_data && negb (is_reaction event_type) then chat_ret tt
          else
            chat_bind (if r_is_bot slack_data then send_tinybird (r_context slack_data)
                       else chat_ret tt) (fun _ =>
            chat_bind (verify_channel_access sv ac slack_data)
                      (fun '(has_access, updated_channel_id) =>
            if negb has_access then chat_ret tt
            else
              let slack_data := with_channel slack_data updated_channel_id in
              if bool_decide (allowed_channels ac = ["*"])
                 || bool_decide (r_channel_id slack_data ∈ allowed_channels ac)
              then
                check_and_process
                  (with_user slack_data
                             (if r_ephemeral slack_data then r_user_id slack_data else ""))
              else
                chat_lift (Raise (Exn "AttributeError"
                                      "'dict' object has no attribute 'send_slack'")))) in
        let '(r, st) := run (fresh slack_data) in
        (r, calls st)
    end.

(** A client that knows the channels, an allow list of two, and a
    mention in a third channel. *)
Definition open_access : access :=
  {| conversations_open := fun _ => Ok "D42";
     conversations_info := fun _ => Ok tt;
     allow_list := "C1, D42";
     bot_user_id := "UBOT" |}.

Definition other_event : raw_event :=
  {| subtype := None; ev_text := Some "<@UBOT> how do I sort?"; ev_ts := Some "1700000000.000100";
     ev_message := None; ev_thread_ts := None; ev_channel := Some "C7"; ev_user := Some "U123";
     has_bot_id := false; has_bot_profile := false; trigger_id := None; ev_item := None;
     item_user := None; ev_reaction := None |}.

End Slackbot.

(** ** gosling/feed.py: reconciliation against the bucket *)

Module FeedS3.

Import Feed.

Record s3_object := { key : string; last_modified : string }.

(** The bucket as the function sees it: the pages of the listing and
    the error, if any, that ends the listing after them; and one
    answer per key for the other calls.  An exception of class
    [ClientError] stands for that class and its subclasses. *)
Record bucket := {
  pages : list (list s3_object);
  pages_error : option exn;
  head_object : string -> result (gmap string string);
  delete_object : string -> result unit;
  open_file : string -> result unit;
  upload_fileobj : string -> gmap string string -> result unit
}.

Inductive s3_event :=
| S3Delete (k : string)
| S3Put (k : string) (object_metadata : gmap string string).

Definition is_client_error (e : exn) : bool := String.eqb (exn_class e) "ClientError".

(** Body of [for obj in page.get('Contents', [])]. *)
Definition list_object (b : bucket) (src : string)
           (existing_files : list (string * gmap string string)) (obj : s3_object)
  : result (list (string * gmap string string)) :=
  match head_object b (key obj) with
  | Ok object_metadata =>
      if bool_decide (object_metadata !! "source" = Some src)
      then Ok (dict_set (key obj) object_metadata existing_files)
      else Ok existing_files
  | Raise e => if is_client_error e then Ok existing_files else Raise e
  end.

Fixpoint list_objects (b : bucket) (src : string)
         (existing_files : list (string * gmap string string)) (objs : list s3_object)
  : result (list (string * gmap string string)) :=
  match objs with
  | [] => Ok existing_files
  | obj :: objs' =>
      bind (list_object b src existing_files obj) (fun d => list_objects b src d objs')
  end.

(** The listing: page after page, then the error that ends it. *)
Definition existing_files_of (b : bucket) (src : string)
  : result (list (string * gmap string string)) :=
  bind (list_objects b src [] (concat (pages b))) (fun d =>
  match pages_error b with
  | Some e => Raise e
  | None => Ok d
  end).

Definition s3_key (s3_prefix : string) (file_info : FileMetadata) : string :=
  s3_prefix +:+ file_name file_info.

(** The loop that deletes: a failed deletion is logged and the loop
    goes on. *)
Fixpoint delete_outdated (b : bucket) (current_file_keys : gset string) (keys : list string)
  : list s3_event :=
  match keys with
  | [] => []
  | k :: keys' =>
      if bool_decide (k ∉ current_file_keys)
      then S3Delete k :: match delete_object b k with
                         | Ok _ => delete_outdated b current_file_keys keys'
                         | Raise _ => delete_outdated b current_file_keys keys'
                         end
      else delete_outdated b current_file_keys keys'
  end.

Definition should_upload (s3_prefix : string)
           (existing_files : list (string * gmap string string)) (file_info : FileMetadata)
  : bool :=
  match dict_get (s3_key s3_prefix file_info) existing_files with
  | Some existing_metadata =>
      negb (bool_decide (existing_metadata !! "content_hash" = Some (content_hash file_info)))
  | None => true
  end.

Definition object_metadata_of (file_info : FileMetadata) : gmap string string :=
  {[ "source" := source file_info;
     "last_updated" := first_field (last_updated file_info);
     "url" := url file_info;
     "content_hash" := content_hash file_info ]}.

(** The loop that uploads: a file that cannot be opened, or whose
    upload fails, is logged and the loop goes on. *)
Fixpoint upload_changed (b : bucket) (s3_prefix : string)
         (existing_files : list (string * gmap string string)) (files : list FileMetadata)
  : list s3_event :=
  match files with
  | [] => []
  | file_info :: files' =>
      if should_upload s3_prefix existing_files file_info
      then match open_file b (file_path file_info) with
           | Ok _ =>
               S3Put (s3_key s3_prefix file_info) (object_metadata_of file_info) ::
               match upload_fileobj b (s3_key s3_prefix file_info)
                                    (object_metadata_of file_info) with
               | Ok _ => upload_changed b s3_prefix existing_files files'
               | Raise _ => upload_changed b s3_prefix existing_files files'
               end
           | Raise _ => upload_changed b s3_prefix existing_files files'
           end
      else upload_changed b s3_prefix existing_files files'
  end.

(** The calls that change the bucket, in order, and the outcome. *)
Definition dupsert_files_s3 (b : bucket) (s3_prefix : string) (files : list FileMetadata)
           (src : string) : list s3_event * result unit :=
  match existing_files_of b src with
  | Raise e => ([], Raise e)
  | Ok existing_files =>
      ((delete_outdated b (list_to_set (s3_key s3_prefix <$> files)) (fst <$> existing_files) ++
        upload_changed b s3_prefix existing_files files)%list, Ok tt)
  end.

Definition can_open (b : bucket) (file_info : FileMetadata) : bool :=
  match open_file b (file_path file_info) with
  | Ok _ => true
  | Raise _ => false
  end.

(** A bucket that holds the given objects, each with its metadata. *)
Definition holding (objs : list (string * gmap string string)) : bucket :=
  {| pages := [ (fun o => {| key := o.1; last_modified := "2024-01-05" |}) <$> objs ];
     pages_error := None;
     head_object := fun k => match dict_get k objs with
                             | Some md => Ok md
                             | None => Raise (Exn "ClientError" "Not Found")
                             end;
     delete_object := fun _ => Ok tt;
     open_file := fun _ => Ok tt;
     upload_fileobj := fun _ _ => Ok tt |}.

End FeedS3.

(** ** gosling/feed.py: fetching the documentation file *)

Module Llms.

Definition max_retries : nat := 3.

(** What the loop does: a request, or a pause of so many seconds. *)
Inductive fetch_event :=
| Request
| Pause (seconds : Z).

(** An exception of class [RequestException] stands for that class
    and its subclasses. *)
Definition is_request_exception (e : exn) : bool :=
  String.eqb (exn_class e) "RequestException".

(** The loop of [parse_llms_full] over [range(max_retries)], from
    [attempt] on, and the read of [response.text] after it.  [get n]
    is the outcome of the request made at attempt [n], status check
    included. *)
Fixpoint fetch_loop (get : nat -> result string) (remaining attempt : nat) (retry_delay : Z)
  : list fetch_event * result string :=
  match remaining with
  | O => ([], Raise (Exn "UnboundLocalError"
                         "cannot access local variable 'response' where it is not associated with a value"))
  | S remaining' =>
      match get attempt with
      | Ok text => ([Request], Ok text)
      | Raise e =>
          if is_request_exception e then
            if (attempt =? max_retries - 1)%nat then ([Request], Raise e)
            else
              let '(trace, r) := fetch_loop get remaining' (S attempt) (retry_delay * 2) in
              (Request :: Pause retry_delay :: trace, r)
          else ([Request], Raise e)
      end
  end.

Definition fetch (get : nat -> result string) : list fetch_event * result string :=
  fetch_loop get max_retries 0 1.

(** The trace of [k] failed requests followed by one more. *)
Fixpoint retries (k : nat) (retry_delay : Z) : list fetch_event :=
  match k with
  | O => [Request]
  | S k' => Request :: Pause retry_delay :: retries k' (retry_delay * 2)
  end.

Definition is_retried (r : result string) : bool :=
  match r with
  | Ok _ => false
  | Raise e => is_request_exception e
  end.

End Llms.

(** * Properties *)

(** ** slackbot.py *)

Section Reputation.
Import Slackbot.







(** C9. The positive set holds "thumbs_upheart" and not "thumbs_up":
    a reaction named "thumbs_up" leaves the score as it is, one named
    "thumbs_upheart" adds its count. *)
Theorem thumbs_up_is_not_positive (s n : Z) :
  ("thumbs_up" ∉ POSITIVE_REACTIONS)
  /\ ("thumbs_upheart" ∈ POSITIVE_REACTIONS)
  /\ score_step s {| name := "thumbs_up"; count := n |} = s
  /\ score_step s {| name := "thumbs_upheart"; count := n |} = s + n.
Proof.
  assert (H1 : "thumbs_up" ∉ POSITIVE_REACTIONS)
    by (apply (bool_decide_eq_false_1 _); vm_compute; reflexivity).
  assert (H2 : "thumbs_upheart" ∈ POSITIVE_REACTIONS)
    by (apply (bool_decide_eq_true_1 _); vm_compute; reflexivity).
  assert (H3 : "thumbs_up" ∉ NEGATIVE_REACTIONS)
    by (apply (bool_decide_eq_false_1 _); vm_compute; reflexivity).
  split; [|split; [|split]]; [exact H1 | exact H2 | |].
  - unfold score_step; cbn [name count].
    rewrite (bool_decide_eq_false_2 _ H1), (bool_decide_eq_false_2 _ H3). reflexivity.
  - unfold score_step; cbn [name count].
    rewrite (bool_decide_eq_true_2 _ H2). reflexivity.
Qed.

End Reputation.

Section Dedup.
Import Slackbot.



(** C10. When the call to the table raises, the check answers "not a
    duplicate" and the mark returns normally: the table is left as it
    was, the error goes to the log, and the event is processed. *)
Theorem dedup_fails_open (ev : Nest.SlackEventData) (w : world) (e : exn)
        (rest : list (option exn)) :
  faults w = Some e :: rest ->
  is_duplicate_request ev w
  = (Ok false, after_error w rest ("Error checking duplicate request: " +:+ str_exn e))
  /\ mark_request_started ev w
     = (Ok tt, after_error w rest ("Error marking request: " +:+ str_exn e))
  /\ (forall process_chat_request,
       check_and_process "app_mention" true process_chat_request ev w
       = (mark_request_started ev ;;; process_chat_request ev)
           (after_error w rest ("Error checking duplicate request: " +:+ str_exn e)))
  /\ (forall process_chat_request : Nest.SlackEventData -> Act unit,
       (mark_request_started ev ;;; process_chat_request ev) w
       = process_chat_request ev
           (after_error w rest ("Error marking request: " +:+ str_exn e))).
Proof.
  intros Hf. destruct w as [tbl fs t wl ep lg]; simpl in Hf; subst fs.
  split; [reflexivity|]. split; [reflexivity|]. split.
  - intros process_chat_request. unfold check_and_process, is_gated.
    replace (Nest.is_dm ev || existsb (String.eqb "app_mention") ["honk"; "app_mention"; "message"])
      with true by (destruct (Nest.is_dm ev); reflexivity).
    reflexivity.
  - intros process_chat_request. reflexivity.
Qed.

Lemma dedup_fails_open_witness :
  fst (is_duplicate_request (mention "C1" "1700000000.000100") failing_world) = Ok false
  /\ fst (mark_request_started (mention "C1" "1700000000.000300") failing_world) = Ok tt
  /\ event_table (snd (mark_request_started (mention "C1" "1700000000.000300") failing_world))
     = event_table failing_world.
Proof.
  destruct (dedup_fails_open (mention "C1" "1700000000.000100") failing_world throttled []
              eq_refl) as (Hcheck & _).
  destruct (dedup_fails_open (mention "C1" "1700000000.000300") failing_world throttled []
              eq_refl) as (_ & Hmark & _).
  rewrite Hcheck, Hmark. repeat split.
Defined.

End Dedup.

Section Reply.
Import Slackbot.

(** C8. When the query to the backend raises, the reply is the apology
    with the error's text; when the query answers and formatting the
    answer raises, the reply is the answer itself, through [str] unless
    it is text already.  Neither error leaves the function. *)
Theorem provider_response_falls_back
        (chat : list Nest.Message -> result Honk.response)
        (str_response : Honk.chat_model -> string)
        (conversation_context : list Nest.Message) :
  (forall e, chat conversation_context = Raise e ->
     get_provider_response chat str_response conversation_context
     = "Sorry, I encountered an error: " +:+ str_exn e)
  /\ (forall r e, chat conversation_context = Ok r ->
       Honk.format_response_with_citations r = Raise e ->
       get_provider_response chat str_response conversation_context
       = raw_answer str_response r).
Proof.
  split.
  - intros e He. unfold get_provider_response, Honk.get_response. rewrite He. reflexivity.
  - intros r e Hr He. unfold get_provider_response, Honk.get_response. rewrite Hr, He.
    destruct r; reflexivity.
Qed.

Lemma provider_response_falls_back_witness :
  get_provider_response (fun _ => Raise (Exn "PineconeApiException" "429 Too Many Requests"))
                        (fun _ => "<ChatModel>") []
  = "Sorry, I encountered an error: 429 Too Many Requests"
  /\ get_provider_response (fun _ => Ok (Honk.RespChat answer_without_metadata))
                           (fun _ => "<ChatModel>") []
     = "<ChatModel>"
  /\ get_provider_response (fun _ => Ok (Honk.RespStr "plain text")) (fun _ => "<ChatModel>") []
     = "plain text".
Proof.
  split; [|split].
  - apply (provider_response_falls_back _ _ []) with (e := Exn "PineconeApiException" "429 Too Many Requests").
    reflexivity.
  - apply (proj2 (provider_response_falls_back
                    (fun _ => Ok (Honk.RespChat answer_without_metadata)) (fun _ => "<ChatModel>") [])
                 (Honk.RespChat answer_without_metadata)
                 (Exn "AttributeError" "'NoneType' object has no attribute 'get'"));
      reflexivity.
  - apply (proj2 (provider_response_falls_back
                    (fun _ => Ok (Honk.RespStr "plain text")) (fun _ => "<ChatModel>") [])
                 (Honk.RespStr "plain text")
                 (Exn "TypeError" "string indices must be integers"));
      reflexivity.
Defined.

End Reply.

(** ** gosling/feed.py *)

Section Reconcile.
Import Feed.

Lemma timestamp_nonempty (s : string) (z : Z) : timestamp s = Ok z -> truthy s = true.
Proof. destruct s; [discriminate | reflexivity]. Qed.


Lemma needs_upsert_compared (precise : bool) (existing_files : list (string * remote_file))
      (f : FileMetadata) (r : remote_file) (md : gmap string string) (lu : string)
      (existing_ts new_ts : Z) :
  dict_get (file_name f) existing_files = Some r ->
  metadata r = Some md ->
  md !! "last_updated" = Some lu ->
  timestamp lu = Ok existing_ts ->
  timestamp (last_updated f) = Ok new_ts ->
  needs_upsert precise existing_files f
  = Ok (is_newer precise new_ts existing_ts && hash_differs md f).
Proof.
  intros Hget Hmd Hlu Hets Hnts. unfold needs_upsert.
  rewrite Hget, Hmd. cbn [from_option Datatypes.id]. rewrite Hlu.
  cbn [truthy_opt from_option Datatypes.id].
  rewrite (timestamp_nonempty _ _ Hets). cbn [negb].
  rewrite Hets, Hnts. cbn [bind].
  destruct (is_newer precise new_ts existing_ts); reflexivity.
Qed.



End Reconcile.

Section Retry.
Import Feed.

(** A failed attempt has uploaded, and maybe asked for the description. *)
Lemma failed_attempt_trace (a : assistant) (i k : nat) (f : FileMetadata) (e : exn) :
  snd (attempt_upload a i k f) = Raise e ->
  exists tl, fst (attempt_upload a i k f)
             = EvUpload i k (file_path f) (upload_metadata_of f) :: tl
             /\ (tl = [] \/ exists file_id, tl = [EvDescribe file_id]).
Proof.
  unfold attempt_upload, mbind, lift, emit, raise.
  destruct (upload_file a i k (file_path f) (upload_metadata_of f)) as [file_id|e1]; cbn.
  - destruct (describe_file a i k file_id) as [d|e2]; cbn.
    + destruct (verified d); cbn; [discriminate|].
      intros _. eexists; split; [reflexivity|]. right. by exists file_id.
    + intros _. eexists; split; [reflexivity|]. right. by exists file_id.
  - intros _. eexists; split; [reflexivity|]. by left.
Qed.

Ltac failed_attempt a i f Hfail k :=
  let t := fresh "t" in let r := fresh "r" in let E := fresh "E" in
  let tl := fresh "tl" in let Ht := fresh "Ht" in let Hr := fresh "Hr" in
  assert (Hr : (k < 5)%nat) by lia;
  pose proof (Hfail k Hr) as E;
  destruct (failed_attempt_trace a i k f _ E) as (tl & Ht & [-> | [? ->]]);
  destruct (attempt_upload a i k f) as [t r];
  cbn [fst snd] in E, Ht; subst t r; clear Hr.

(** C2, as amended. When each of the five attempts to upload a file
    fails, the pauses are 1, 2, 4 and 8 time-units long: the pause of
    8 follows the failure of attempt 3 and comes before attempt 4, the
    pause before attempt 3 is 4, and the error of the last attempt is
    raised. *)
Theorem retry_delays_then_raise (a : assistant) (i : nat) (f : FileMetadata)
        (err : nat -> exn) :
  (forall k, (k < 5)%nat -> snd (attempt_upload a i k f) = Raise (err k)) ->
  pauses (fst (upload_with_retries a i f)) = [1; 2; 4; 8]
  /\ delay_before 3 (fst (upload_with_retries a i f)) = Some 4
  /\ delay_before 4 (fst (upload_with_retries a i f)) = Some 8
  /\ snd (upload_with_retries a i f) = Raise (err 4%nat).
Proof.
  intros Hfail.
  unfold upload_with_retries, max_retries. cbn [seq retry_loop].
  failed_attempt a i f Hfail 0%nat; failed_attempt a i f Hfail 1%nat;
    failed_attempt a i f Hfail 2%nat; failed_attempt a i f Hfail 3%nat;
    failed_attempt a i f Hfail 4%nat; repeat split; reflexivity.
Qed.

Lemma retry_delays_then_raise_witness :
  delay_before 4 (fst (upload_with_retries (unreachable []) 0 (wiki_page "a.txt" "1700000000" "h1")))
  = Some 8
  /\ snd (upload_with_retries (unreachable []) 0 (wiki_page "a.txt" "1700000000" "h1"))
     = Raise timed_out.
Proof.
  destruct (retry_delays_then_raise (unreachable []) 0 (wiki_page "a.txt" "1700000000" "h1")
              (fun _ => timed_out) (fun k _ => eq_refl)) as (_ & _ & H8 & Hr).
  split; [exact H8 | exact Hr].
Defined.

(** C2 as it is stated fails: when every upload is refused, the pause
    before attempt 3 is 4 time-units long, not 8. *)
Lemma delay_before_attempt_3_is_4 :
  (forall k, (k < 5)%nat ->
     snd (attempt_upload (unreachable []) 0 k (wiki_page "a.txt" "1700000000" "h1"))
     = Raise timed_out)
  /\ delay_before 3 (fst (upload_with_retries (unreachable []) 0
                            (wiki_page "a.txt" "1700000000" "h1"))) = Some 4
  /\ delay_before 3 (fst (upload_with_retries (unreachable []) 0
                            (wiki_page "a.txt" "1700000000" "h1"))) <> Some 8.
Proof.
  split; [intros k _; reflexivity|].
  split; [vm_compute; reflexivity | vm_compute; discriminate].
Qed.

End Retry.

Section Unchanged.
Import Feed.

Lemma dict_get_set {V} (k k' : string) (v : V) (d : list (string * V)) :
  dict_get k (dict_set k' v d) = if String.eqb k' k then Some v else dict_get k d.
Proof.
  induction d as [|[k0 v0] d IH]; cbn [dict_set dict_get]; [reflexivity|].
  destruct (String.eqb k0 k') eqn:E; cbn [dict_get].
  - apply String.eqb_eq in E; subst k0. destruct (String.eqb k' k); reflexivity.
  - destruct (String.eqb k0 k) eqn:E2; [|exact IH].
    apply String.eqb_eq in E2; subst k0.
    rewrite String.eqb_sym, E. reflexivity.
Qed.

Lemma dict_values_set {V} (k : string) (v x : V) (d : list (string * V)) :
  x ∈ dict_values (dict_set k v d) -> x = v \/ x ∈ dict_values d.
Proof.
  unfold dict_values.
  induction d as [|[k0 v0] d IH]; cbn [dict_set fmap list_fmap snd].
  - intros H. apply list_elem_of_singleton in H. by left.
  - destruct (String.eqb k0 k); cbn [fmap list_fmap snd]; intros H;
      apply elem_of_cons in H as [->|H].
    + by left.
    + right. by apply elem_of_cons; right.
    + right. by apply elem_of_cons; left.
    + destruct (IH H) as [->|H']; [by left | right; by apply elem_of_cons; right].
Qed.

Lemma existing_files_get (l : list remote_file) (d : list (string * remote_file))
      (k : string) (r : remote_file) :
  dict_get k (foldl (fun d f => dict_set (name f) f d) d l) = Some r ->
  (r ∈ l /\ name r = k) \/ dict_get k d = Some r.
Proof.
  revert d. induction l as [|f l IH]; intros d; cbn [foldl]; [by right|].
  intros H. destruct (IH _ H) as [[Hin Hk]|Hd].
  - left. split; [by apply elem_of_cons; right | exact Hk].
  - rewrite dict_get_set in Hd. destruct (String.eqb (name f) k) eqn:E; [|by right].
    apply String.eqb_eq in E. injection Hd as <-. left. split; [by apply elem_of_cons; left | exact E].
Qed.

Lemma existing_files_some (l : list remote_file) (d : list (string * remote_file)) (k : string) :
  (exists r, r ∈ l /\ name r = k) \/ is_Some (dict_get k d) ->
  is_Some (dict_get k (foldl (fun d f => dict_set (name f) f d) d l)).
Proof.
  revert d. induction l as [|f l IH]; intros d; cbn [foldl].
  - intros [(r & Hin & _)|H]; [by apply not_elem_of_nil in Hin | exact H].
  - intros H. apply IH. rewrite dict_get_set.
    destruct (String.eqb (name f) k) eqn:E; [right; by eexists|].
    destruct H as [(r & Hin & Hk)|H]; [|by right].
    apply elem_of_cons in Hin as [->|Hin].
    + apply String.eqb_neq in E. contradiction.
    + left. by exists r.
Qed.

Lemma existing_files_values (l : list remote_file) (d : list (string * remote_file))
      (r : remote_file) :
  r ∈ dict_values (foldl (fun d f => dict_set (name f) f d) d l) ->
  r ∈ l \/ r ∈ dict_values d.
Proof.
  revert d. induction l as [|f l IH]; intros d; cbn [foldl]; [by right|].
  intros H. destruct (IH _ H) as [Hin|Hd].
  - left. by apply elem_of_cons; right.
  - destruct (dict_values_set _ _ _ _ Hd) as [->|Hd']; [left; by apply elem_of_cons; left | by right].
Qed.

Lemma is_newer_same (precise : bool) (t : Z) : is_newer precise t t = false.
Proof. unfold is_newer. rewrite Z.ltb_irrefl. by destruct precise. Qed.

Lemma same_inventory_no_upsert (precise : bool) (src : string) (listing : list remote_file)
      (files : list FileMetadata) (f : FileMetadata) :
  same_inventory src listing files = true -> In f files ->
  needs_upsert precise (existing_files_of listing) f = Ok false.
Proof.
  unfold same_inventory. rewrite andb_true_iff. intros [_ Hfiles] Hin.
  rewrite forallb_forall in Hfiles. specialize (Hfiles f Hin).
  rewrite !andb_true_iff in Hfiles. destruct Hfiles as [[Hts Hex] Hall].
  unfold is_timestamp in Hts. destruct (timestamp (last_updated f)) as [t|] eqn:Ht; [|discriminate].
  apply existsb_exists in Hex as (r0 & Hr0 & Hn0). apply String.eqb_eq in Hn0.
  destruct (existing_files_some listing [] (file_name f)) as [r Hr].
  { left. exists r0. split; [by apply list_elem_of_In | exact Hn0]. }
  destruct (existing_files_get _ _ _ _ Hr) as [[Hrin Hrn]|Hnil]; [|discriminate].
  rewrite forallb_forall in Hall. apply list_elem_of_In in Hrin.
  specialize (Hall r Hrin). rewrite Hrn, String.eqb_refl in Hall. cbn [negb orb] in Hall.
  unfold same_record in Hall. destruct (metadata r) as [md|] eqn:Hmd; [|discriminate].
  apply andb_true_iff in Hall as [Hlu _]. apply bool_decide_eq_true in Hlu.
  unfold existing_files_of.
  rewrite (needs_upsert_compared precise _ f r md (last_updated f) t t Hr Hmd Hlu Ht Ht).
  rewrite is_newer_same. reflexivity.
Qed.

Lemma nothing_to_upsert (precise : bool) (d : list (string * remote_file))
      (files : list FileMetadata) :
  (forall f, In f files -> needs_upsert precise d f = Ok false) ->
  files_to_upsert precise d files = Ok [].
Proof.
  induction files as [|f files IH]; intros H; cbn [files_to_upsert]; [reflexivity|].
  rewrite (H f (or_introl eq_refl)). cbn [bind].
  rewrite IH by (intros g Hg; apply H; by right). reflexivity.
Qed.

Lemma nothing_to_delete (src : string) (listing : list remote_file) (files : list FileMetadata) :
  same_inventory src listing files = true ->
  files_to_delete src (existing_files_of listing) files = [].
Proof.
  unfold same_inventory. rewrite andb_true_iff. intros [Hrem _].
  rewrite forallb_forall in Hrem.
  unfold files_to_delete. apply elem_of_nil_inv. intros r Hr.
  apply list_elem_of_filter in Hr as [Hnot Hr].
  apply list_elem_of_filter in Hr as [Hvalid Hr].
  destruct (existing_files_values _ _ _ Hr) as [Hin|Hnil]; [|by apply not_elem_of_nil in Hnil].
  apply list_elem_of_In in Hin. specialize (Hrem r Hin).
  rewrite Hvalid in Hrem. cbn [negb orb] in Hrem.
  apply existsb_exists in Hrem as (f & Hf & Hn). apply String.eqb_eq in Hn.
  apply Hnot. apply elem_of_list_to_set. rewrite <- Hn.
  apply list_elem_of_fmap_2. by apply list_elem_of_In.
Qed.

(** C4. When the local manifest and the remote listing of a source hold
    the same files (names, content hashes and [last_updated]
    timestamps), nothing is to be uploaded and nothing to be deleted,
    and the function returns without asking for a deletion or an upload. *)
Theorem same_inventory_no_change (a : assistant) (files : list FileMetadata) (src : string)
        (precise auto_confirm : bool) (answer : string) :
  same_inventory src (list_files a) files = true ->
  reconcile (list_files a) files src precise = Ok ([], [])
  /\ snd (dupsert_files_pinecone a files src precise auto_confirm answer) = Ok tt
  /\ filter (fun ev => is_mutation ev = true)
            (fst (dupsert_files_pinecone a files src precise auto_confirm answer)) = [].
Proof.
  intros Hsame.
  assert (Hplan : reconcile (list_files a) files src precise = Ok ([], [])).
  { unfold reconcile.
    rewrite (nothing_to_upsert precise _ files
               (fun f Hf => same_inventory_no_upsert precise src _ files f Hsame Hf)).
    cbn [bind]. rewrite (nothing_to_delete _ _ _ Hsame). reflexivity. }
  split; [exact Hplan|].
  unfold dupsert_files_pinecone. rewrite Hplan. split; reflexivity.
Qed.

Lemma same_inventory_no_change_witness :
  reconcile [stored_page "a.txt" "1700000000.25" "h1"; stored_page "b.txt" "1700000500" "h2"]
            [wiki_page "b.txt" "1700000500" "h2"; wiki_page "a.txt" "1700000000.25" "h1"]
            "wiki_docs" false
  = Ok ([], []).
Proof.
  exact (proj1 (same_inventory_no_change
                  (unreachable [stored_page "a.txt" "1700000000.25" "h1";
                                stored_page "b.txt" "1700000500" "h2"])
                  [wiki_page "b.txt" "1700000500" "h2"; wiki_page "a.txt" "1700000000.25" "h1"]
                  "wiki_docs" false true "" eq_refl)).
Defined.

End Unchanged.

(** ** gosling/honk.py *)

Section Numbering.
Import Honk.
Local Set Warnings "-clear-no-such-hyp".

Lemma assign_numbers_flat (cs : list citation) (st : numbering) :
  foldl (fun st c => foldl (fun st r => assign_number st (url r)) st (references c)) st cs
  = foldl assign_number st (cited_urls cs).
Proof.
  revert st. unfold cited_urls.
  induction cs as [|c cs IH]; intros st; cbn [foldl fmap list_fmap concat]; [reflexivity|].
  rewrite foldl_app, IH. f_equal. generalize (references c). clear.
  intros refs. revert st. induction refs as [|r refs IH]; intros st; [reflexivity|].
  cbn [foldl fmap list_fmap]. apply IH.
Qed.

Lemma numbered_nil : numbered [] numbering_init.
Proof.
  split; [reflexivity | apply dom_empty_L | reflexivity |].
  intros i u H. by rewrite lookup_nil in H.
Qed.

Lemma numbered_snoc (l : list string) (st : numbering) (x : string) :
  numbered l st -> numbered (l ++ [x]) (assign_number st x).
Proof.
  intros [Hall Hdom Hnext Hrank].
  assert (Hold : forall i u, (l ++ [x])%list !! i = Some u -> u ∉ take i (l ++ [x])%list ->
                 (i < length l)%nat -> l !! i = Some u /\ u ∉ take i l).
  { intros i u Hi Hfresh Hlt. rewrite lookup_app_l in Hi by exact Hlt.
    rewrite take_app_le in Hfresh by lia. done. }
  assert (Hlast : forall i u, (l ++ [x])%list !! i = Some u -> ¬ (i < length l)%nat ->
                  i = length l /\ u = x).
  { intros i u Hi Hge. apply lookup_lt_Some in Hi as Hlen. rewrite length_app in Hlen.
    cbn in Hlen. assert (i = length l) as -> by lia.
    rewrite list_lookup_middle in Hi by reflexivity. by injection Hi as <-. }
  unfold assign_number. destruct (reference_numbers st !! x) as [n|] eqn:Hx.
  - assert (Hin : x ∈ (list_to_set l : gset string)).
    { rewrite <- Hdom. apply elem_of_dom. by eexists. }
    assert (Hset : (list_to_set (l ++ [x])%list : gset string) = list_to_set l).
    { rewrite list_to_set_snoc_L. clear -Hin. set_solver. }
    split; cbn [all_references reference_numbers current_ref_num]; rewrite ?Hset.
    + rewrite Hall. clear -Hin. set_solver.
    + exact Hdom.
    + exact Hnext.
    + intros i u Hi Hfresh. destruct (decide (i < length l)%nat) as [Hlt|Hge].
      * destruct (Hold i u Hi Hfresh Hlt) as [Hi' Hf']. rewrite take_app_le by lia.
        by apply Hrank.
      * destruct (Hlast i u Hi Hge) as [-> ->].
        rewrite take_app_length in Hfresh. apply elem_of_list_to_set in Hin. contradiction.
  - assert (Hnin : x ∉ (list_to_set l : gset string)).
    { rewrite <- Hdom. by apply not_elem_of_dom. }
    split; cbn [all_references reference_numbers current_ref_num].
    + rewrite Hall, list_to_set_snoc_L. clear. set_solver.
    + rewrite dom_insert_L, Hdom, list_to_set_snoc_L. clear. set_solver.
    + rewrite Hnext, list_to_set_snoc_L, size_union by (clear -Hnin; set_solver).
      rewrite size_singleton. lia.
    + intros i u Hi Hfresh. destruct (decide (i < length l)%nat) as [Hlt|Hge].
      * destruct (Hold i u Hi Hfresh Hlt) as [Hi' Hf']. rewrite take_app_le by lia.
        rewrite lookup_insert_ne; [by apply Hrank|].
        intros <-. apply Hnin. apply elem_of_list_to_set. by eapply list_elem_of_lookup_2.
      * destruct (Hlast i u Hi Hge) as [-> ->].
        rewrite take_app_length, lookup_insert_eq, Hnext. reflexivity.
Qed.

Lemma numbered_foldl (l : list string) : numbered l (foldl assign_number numbering_init l).
Proof.
  induction l as [|x l IH] using rev_ind; [apply numbered_nil|].
  rewrite foldl_app. cbn [foldl]. by apply numbered_snoc.
Qed.

Lemma numbered_assign_numbers (cs : list citation) : numbered (cited_urls cs) (assign_numbers cs).
Proof. unfold assign_numbers. rewrite assign_numbers_flat. apply numbered_foldl. Qed.

Lemma sorted_ascending_id (cs : list citation) :
  Sorted Z.le (position <$> cs) -> sorted position cs = cs.
Proof.
  unfold sorted. induction cs as [|c cs IH]; [reflexivity|].
  cbn [fmap list_fmap foldr]. intros H. apply Sorted_inv in H as [Hs Hhd].
  rewrite (IH Hs). destruct cs as [|c' cs]; [reflexivity|].
  cbn [fmap list_fmap] in Hhd. apply HdRel_inv in Hhd.
  cbn [insert_by]. apply Z.leb_le in Hhd. rewrite Hhd. reflexivity.
Qed.

(** C1, as amended. The number of a reference URL is one more than the
    number of distinct URLs met before its first occurrence when the
    citations are scanned in the order of the citation list, and the
    references of a citation in their order.  When that list is in
    ascending order of position, this is the numbering by ascending
    position. *)
Theorem numbering_follows_list_order (cs : list citation) :
  (forall i u, cited_urls cs !! i = Some u -> u ∉ take i (cited_urls cs) ->
     reference_numbers (assign_numbers cs) !! u
     = Some (S (size (list_to_set (take i (cited_urls cs)) : gset string))))
  /\ (Sorted Z.le (position <$> cs) ->
      reference_numbers (assign_numbers cs) = spec_reference_numbers cs).
Proof.
  split.
  - apply (numbered_rank _ _ (numbered_assign_numbers cs)).
  - intros Hs. unfold spec_reference_numbers. by rewrite sorted_ascending_id.
Qed.

Lemma numbering_follows_list_order_witness :
  reference_numbers (assign_numbers (citations later_citation_first))
    !! "https://docs.example/sorting" = Some 2%nat.
Proof.
  exact (proj1 (numbering_follows_list_order (citations later_citation_first))
               1%nat "https://docs.example/sorting" eq_refl
               ltac:(vm_compute; intros H; inversion H as [|? ? ? H']; inversion H')).
Defined.

(** C1 as it is stated fails: a citation at position 28 listed before
    one at position 17 takes number 1, and the URL that comes first in
    the text takes number 2; numbering by ascending position gives the
    opposite. *)
Lemma numbering_ignores_position :
  citations later_citation_first <> []
  /\ reference_numbers (assign_numbers (citations later_citation_first))
       !! "https://docs.example/sorting" = Some 2%nat
  /\ spec_reference_numbers (citations later_citation_first)
       !! "https://docs.example/sorting" = Some 1%nat
  /\ format_normalized_response later_citation_first
     = "References:" +:+ nl +:+
       "1. <https://docs.example/ttl|https://docs.example/ttl>" +:+ nl +:+
       "2. <https://docs.example/sorting|https://docs.example/sorting>" +:+ nl +:+ nl +:+
       "Sort keys matter.[<https://docs.example/sorting|2>] Use a TTL.[<https://docs.example/ttl|1>]".
Proof. repeat split; try discriminate; vm_compute; reflexivity. Qed.

End Numbering.

Section Markers.
Import Honk.
Local Set Warnings "-clear-no-such-hyp".

Lemma str_app_cons (c : ascii) (s t : string) : String c s +:+ t = String c (s +:+ t).
Proof. reflexivity. Qed.

Lemma str_app_assoc (a b c : string) : (a +:+ b) +:+ c = a +:+ b +:+ c.
Proof.
  induction a as [|x a IH]; [reflexivity|].
  rewrite !str_app_cons. by rewrite IH.
Qed.

Lemma length_str_take (n : nat) (s : string) :
  String.length (str_take n s) = Nat.min n (String.length s).
Proof.
  revert n. induction s as [|c s IH]; intros [|n]; cbn; try reflexivity.
  by rewrite IH.
Qed.

Lemma str_take_app (n : nat) (s t : string) :
  (n <= String.length s)%nat -> str_take n (s +:+ t) = str_take n s.
Proof.
  revert n. induction s as [|c s IH]; intros [|n] H; cbn in H; try reflexivity; try lia.
  rewrite str_app_cons. cbn [str_take]. rewrite IH by lia. reflexivity.
Qed.

Lemma str_drop_app (n : nat) (s t : string) :
  (n <= String.length s)%nat -> str_drop n (s +:+ t) = str_drop n s +:+ t.
Proof.
  revert n. induction s as [|c s IH]; intros [|n] H; cbn in H; try reflexivity; try lia.
  rewrite str_app_cons. cbn [str_drop]. apply IH. lia.
Qed.

Lemma str_take_take (n m : nat) (s : string) :
  (n <= m)%nat -> str_take n (str_take m s) = str_take n s.
Proof.
  revert n m. induction s as [|c s IH]; intros [|n] [|m] H; cbn; try reflexivity; try lia.
  rewrite IH by lia. reflexivity.
Qed.

(** Inserting at 40 and then at 10 puts both markers at the offsets of
    the message they were given for. *)
Lemma insert_40_then_10 (msg mk : string) :
  (10 <= String.length msg)%nat ->
  slice_to (slice_to msg 40 +:+ mk +:+ slice_from msg 40) 10 +:+ mk +:+
  slice_from (slice_to msg 40 +:+ mk +:+ slice_from msg 40) 10
  = slice_to msg 10 +:+ mk +:+ slice_from (slice_to msg 40) 10 +:+ mk +:+ slice_from msg 40.
Proof.
  intros Hlen. unfold slice_to, slice_from, slice_index. cbn [Z.ltb Z.compare Z.to_nat].
  set (n10 := Pos.to_nat 10). set (n40 := Pos.to_nat 40).
  assert (H10 : (n10 <= String.length (str_take n40 msg))%nat).
  { rewrite length_str_take. subst n10 n40. lia. }
  rewrite str_take_app by exact H10. rewrite str_drop_app by exact H10.
  rewrite str_take_take by (subst n10 n40; lia). reflexivity.
Qed.

Lemma list_to_set_single (u : string) (l : list string) :
  l <> [] -> Forall (fun x => x = u) l -> (list_to_set l : gset string) = {[u]}.
Proof.
  induction l as [|x l IH]; [done|]. intros _ H. apply Forall_cons in H as [-> H].
  destruct l as [|y l]; [cbn; by rewrite union_empty_r_L|].
  change (list_to_set (u :: y :: l)) with ({[u]} ∪ (list_to_set (y :: l) : gset string)).
  rewrite IH by done. by rewrite union_idemp_L.
Qed.

Lemma numbered_single (u : string) (l : list string) (st : numbering) :
  l <> [] -> Forall (fun x => x = u) l -> numbered l st ->
  reference_numbers st = {[u := 1%nat]} /\ all_references st = {[u]}.
Proof.
  intros Hne Hall [Ha Hd _ Hr]. pose proof (list_to_set_single u l Hne Hall) as Hset.
  split; [|by rewrite Ha].
  apply map_eq. intros k. destruct (decide (k = u)) as [->|Hk].
  - rewrite lookup_singleton_eq. destruct l as [|x l]; [done|].
    apply Forall_cons in Hall as [-> _].
    rewrite (Hr 0%nat u eq_refl) by (cbn; apply not_elem_of_nil). reflexivity.
  - rewrite lookup_singleton_ne by done. apply not_elem_of_dom.
    rewrite Hd, Hset. by apply not_elem_of_singleton.
Qed.

Lemma add_at_eq (m : gmap Z (gset string)) (pos : Z) (u : string) :
  add_at m pos u = <[pos := {[u]} ∪ default ∅ (m !! pos)]> m.
Proof.
  unfold add_at. destruct (m !! pos) as [X|] eqn:E.
  - by rewrite E.
  - by rewrite lookup_insert_eq, insert_insert_eq.
Qed.

Lemma add_at_again (m : gmap Z (gset string)) (pos : Z) (u : string) :
  add_at (add_at m pos u) pos u = add_at m pos u.
Proof.
  rewrite (add_at_eq (add_at m pos u)), add_at_eq, lookup_insert_eq, insert_insert_eq.
  cbn [from_option Datatypes.id]. f_equal. generalize (default ∅ (m !! pos)). clear.
  intros X. set_solver.
Qed.

Lemma add_refs_single (m : gmap Z (gset string)) (pos : Z) (u : string) (refs : list reference) :
  refs <> [] -> Forall (fun r => url r = u) refs ->
  foldl (fun m r => add_at m pos (url r)) m refs = add_at m pos u.
Proof.
  intros Hne Hall. destruct refs as [|r refs]; [done|]. clear Hne.
  apply Forall_cons in Hall as [Hr Hall]. cbn [foldl]. rewrite Hr. clear Hr.
  induction refs as [|r' refs IH]; [reflexivity|].
  apply Forall_cons in Hall as [Hr' Hall]. cbn [foldl]. rewrite Hr', add_at_again. by apply IH.
Qed.

Lemma by_position_single (u : string) (p q : Z) (refs_p refs_q : list reference) :
  p <> q ->
  refs_p <> [] -> refs_q <> [] ->
  Forall (fun r => url r = u) refs_p -> Forall (fun r => url r = u) refs_q ->
  citations_by_position [ {| position := p; references := refs_p |};
                          {| position := q; references := refs_q |} ]
  = <[q := {[u]}]> (<[p := {[u]}]> ∅).
Proof.
  intros Hpq Hp Hq Hup Huq. unfold citations_by_position. cbn [foldl position references].
  rewrite (add_refs_single _ p u refs_p Hp Hup), (add_refs_single _ q u refs_q Hq Huq).
  rewrite !add_at_eq, lookup_insert_ne, !lookup_empty by done.
  cbn [from_option Datatypes.id]. by rewrite union_empty_r_L.
Qed.

Lemma superscript_single (u : string) : superscript {[u := 1%nat]} {[u]} = marker_1 u.
Proof.
  unfold superscript, marker_1, citation_num, number_of.
  rewrite elements_singleton. cbn [sorted foldr insert_by fmap list_fmap join].
  rewrite lookup_singleton_eq. cbn [from_option Datatypes.id].
  destruct (is_link u); reflexivity.
Qed.

Lemma references_block_single (u : string) (st : numbering) :
  reference_numbers st = {[u := 1%nat]} -> all_references st = {[u]} ->
  references_block st = "References:" +:+ nl +:+ entry_1 u.
Proof.
  intros Hn Ha. unfold references_block, reference_line, entry_1, number_of.
  rewrite Hn, Ha, elements_singleton. cbn [sorted foldr insert_by foldl].
  rewrite lookup_singleton_eq. cbn [from_option Datatypes.id].
  rewrite str_app_assoc. destruct (is_link u); reflexivity.
Qed.

(** C5. Two citations, at positions 10 and 40 of a message that is at
    least 10 characters long, whose references all have the same URL:
    the URL takes number 1, the same marker stands at offsets 10 and 40
    of the message as it was given, and the references block has one
    entry.  With no citation the message comes back as it is. *)
Theorem two_citations_one_url (msg u : string) (refs10 refs40 : list reference)
        (cs : list citation) :
  (10 <= String.length msg)%nat ->
  refs10 <> [] -> refs40 <> [] ->
  Forall (fun r => url r = u) refs10 -> Forall (fun r => url r = u) refs40 ->
  cs = [ {| position := 10; references := refs10 |};
         {| position := 40; references := refs40 |} ]
  \/ cs = [ {| position := 40; references := refs40 |};
            {| position := 10; references := refs10 |} ] ->
  reference_numbers (assign_numbers cs) = {[u := 1%nat]}
  /\ format_normalized_response {| message := msg; citations := cs |}
     = "References:" +:+ nl +:+ entry_1 u +:+ nl +:+
       slice_to msg 10 +:+ marker_1 u +:+ slice_from (slice_to msg 40) 10 +:+
       marker_1 u +:+ slice_from msg 40
  /\ format_normalized_response {| message := msg; citations := [] |} = msg.
Proof.
  intros Hlen H10 H40 Hu10 Hu40 Hcs.
  assert (Hurls : cited_urls cs <> [] /\ Forall (fun x => x = u) (cited_urls cs)).
  { destruct Hcs as [-> | ->]; unfold cited_urls;
      cbn [fmap list_fmap concat references]; rewrite app_nil_r; split.
    - destruct refs10; [done | discriminate].
    - apply Forall_app; split; apply Forall_fmap; assumption.
    - destruct refs40; [done | discriminate].
    - apply Forall_app; split; apply Forall_fmap; assumption. }
  destruct Hurls as [Hne Hall].
  destruct (numbered_single u _ _ Hne Hall (numbered_assign_numbers cs)) as [Hnums Hrefs].
  assert (Hby : citations_by_position cs !! 10 = Some {[u]}
                /\ citations_by_position cs !! 40 = Some {[u]}
                /\ sorted_reverse (fun p => p) (fst <$> map_to_list (citations_by_position cs))
                   = [40; 10]).
  { destruct Hcs as [-> | ->]; rewrite (by_position_single u) by done;
      (split; [|split]);
      rewrite ?lookup_insert_eq, ?lookup_insert_ne, ?lookup_insert_eq by done;
      try reflexivity; generalize ({[u]} : gset string); intros X; vm_compute; reflexivity. }
  destruct Hby as (Hat10 & Hat40 & Hpos).
  split; [exact Hnums|]. split; [|reflexivity].
  assert (Hfmt : format_normalized_response {| message := msg; citations := cs |}
                 = references_block (assign_numbers cs) +:+ nl +:+
                   foldl (insert_marker (reference_numbers (assign_numbers cs))
                                        (citations_by_position cs)) msg [40; 10]).
  { destruct Hcs as [-> | ->];
      unfold format_normalized_response; cbn [citations message]; rewrite Hpos, Hrefs;
      rewrite (bool_decide_eq_false_2 _ (non_empty_singleton_L u)); reflexivity. }
  rewrite Hfmt, (references_block_single u _ Hnums Hrefs), Hnums.
  cbn [foldl]. unfold insert_marker. rewrite Hat10, Hat40. cbn [from_option Datatypes.id].
  rewrite superscript_single, insert_40_then_10 by exact Hlen.
  rewrite !str_app_assoc. reflexivity.
Qed.

Lemma two_citations_one_url_witness :
  format_normalized_response cited_twice
  = "References:" +:+ nl +:+
    "1. <https://docs.example/ttl|https://docs.example/ttl>" +:+ nl +:+ nl +:+
    "Sort keys [<https://docs.example/ttl|1>]matter. Use a TTL to drop old [<https://docs.example/ttl|1>]rows early.".
Proof.
  refine (eq_trans
            (proj1 (proj2 (two_citations_one_url
                             "Sort keys matter. Use a TTL to drop old rows early."
                             "https://docs.example/ttl"
                             [ {| name := "https://docs.example/ttl"; url := "https://docs.example/ttl" |} ]
                             [ {| name := "https://docs.example/ttl"; url := "https://docs.example/ttl" |} ]
                             (citations cited_twice) _ _ _ _ _ _))) _).
  - vm_compute. lia.
  - discriminate.
  - discriminate.
  - repeat constructor.
  - repeat constructor.
  - left. reflexivity.
  - vm_compute. reflexivity.
Defined.

End Markers.

(** * Further properties *)

(** ** gosling/feed.py: the plan *)

Section Plan.
Import Feed.
Local Set Warnings "-clear-no-such-hyp".

Lemma files_to_upsert_filter (precise : bool) (d : list (string * remote_file))
      (files ups : list FileMetadata) :
  files_to_upsert precise d files = Ok ups ->
  ups = filter (fun f => wants_upsert precise d f = true) files.
Proof.
  revert ups. induction files as [|f files IH]; intros ups; cbn [files_to_upsert].
  - intros H. by injection H as <-.
  - unfold wants_upsert at 1.
    destruct (needs_upsert precise d f) as [b|e] eqn:Hf; cbn [bind]; [|discriminate].
    destruct (files_to_upsert precise d files) as [rest|e] eqn:Hr; cbn [bind]; [|discriminate].
    intros H. injection H as <-. rewrite (IH rest eq_refl).
    destruct b.
    + rewrite filter_cons_True; [reflexivity|]. unfold wants_upsert. by rewrite Hf.
    + rewrite filter_cons_False; [reflexivity|]. unfold wants_upsert. by rewrite Hf.
Qed.

Lemma existing_files_none (listing : list remote_file) (k : string) :
  (forall r, r ∈ listing -> name r <> k) ->
  dict_get k (existing_files_of listing) = None.
Proof.
  intros H. unfold existing_files_of.
  destruct (dict_get k (foldl _ [] listing)) as [r|] eqn:E; [|reflexivity].
  destruct (existing_files_get _ _ _ _ E) as [[Hin Hk]|Hnil]; [|discriminate].
  by destruct (H r Hin).
Qed.

Lemma reconcile_inv (listing : list remote_file) (files : list FileMetadata) (src : string)
      (precise : bool) (dels : list remote_file) (ups : list FileMetadata) :
  reconcile listing files src precise = Ok (dels, ups) ->
  dels = files_to_delete src (existing_files_of listing) files
  /\ ups = filter (fun f => wants_upsert precise (existing_files_of listing) f = true) files.
Proof.
  unfold reconcile.
  destruct (files_to_upsert precise (existing_files_of listing) files) as [u|e] eqn:E;
    cbn [bind]; [|discriminate].
  intros H. injection H as <- <-. split; [reflexivity|]. by apply files_to_upsert_filter.
Qed.

Lemma needs_upsert_unverified (listing : list remote_file) (precise : bool)
      (f : FileMetadata) :
  unverified listing f -> needs_upsert precise (existing_files_of listing) f = Ok true.
Proof.
  unfold needs_upsert. intros [Hno|(r & Hr & Hlu)].
  - by rewrite (existing_files_none _ _ Hno).
  - rewrite Hr. cbn zeta. by rewrite Hlu.
Qed.

Lemma files_to_upsert_all (precise : bool) (d : list (string * remote_file))
      (files : list FileMetadata) :
  (forall f, f ∈ files -> needs_upsert precise d f = Ok true) ->
  files_to_upsert precise d files = Ok files.
Proof.
  induction files as [|f files IH]; intros H; [reflexivity|].
  cbn [files_to_upsert]. rewrite (H f (list_elem_of_here _ _)). cbn [bind].
  rewrite IH by (intros g Hg; apply H; by right). reflexivity.
Qed.

(** X1. A local file is put on the upload list when no remote entry
    has its name, and also when the remote entry of its name has no
    [last_updated] value.  Its own timestamp is not parsed: the test
    answers without an error whatever the file's [last_updated] is, and
    when every local file is such a file the plan is made, with all of
    them to upload, whatever their timestamps are. *)
Theorem unknown_or_unverified_is_uploaded
        (listing : list remote_file) (files : list FileMetadata) (src : string)
        (precise : bool) (f : FileMetadata) :
  unverified listing f ->
  needs_upsert precise (existing_files_of listing) f = Ok true
  /\ (forall dels ups, reconcile listing files src precise = Ok (dels, ups) ->
        f ∈ files -> f ∈ ups)
  /\ ((forall g, g ∈ files -> unverified listing g) ->
      reconcile listing files src precise
      = Ok (files_to_delete src (existing_files_of listing) files, files)).
Proof.
  intros Hf. pose proof (needs_upsert_unverified listing precise f Hf) as Hn.
  split; [exact Hn|]. split.
  - intros dels ups Hrec Hin. destruct (reconcile_inv _ _ _ _ _ _ Hrec) as [_ ->].
    apply list_elem_of_filter. split; [|exact Hin]. unfold wants_upsert. by rewrite Hn.
  - intros Hall. unfold reconcile. rewrite files_to_upsert_all; [reflexivity|].
    intros g Hg. apply needs_upsert_unverified. by apply Hall.
Qed.

Lemma unknown_or_unverified_is_uploaded_witness :
  needs_upsert true (existing_files_of [stored_page "a.txt" "1700000000" "h1"])
               (wiki_page "new.txt" "not a timestamp" "h9") = Ok true
  /\ reconcile [stored_page "a.txt" "1700000000" "h1"]
               [wiki_page "new.txt" "not a timestamp" "h9"] "wiki_docs" true
     = Ok ([stored_page "a.txt" "1700000000" "h1"],
           [wiki_page "new.txt" "not a timestamp" "h9"]).
Proof.
  assert (Hnew : unverified [stored_page "a.txt" "1700000000" "h1"]
                            (wiki_page "new.txt" "not a timestamp" "h9")).
  { left. intros r Hr. apply list_elem_of_singleton in Hr. subst r. vm_compute. discriminate. }
  destruct (unknown_or_unverified_is_uploaded
              [stored_page "a.txt" "1700000000" "h1"]
              [wiki_page "new.txt" "not a timestamp" "h9"] "wiki_docs" true
              (wiki_page "new.txt" "not a timestamp" "h9") Hnew) as (Hn & _ & Hall).
  split; [exact Hn|]. rewrite Hall.
  - vm_compute. reflexivity.
  - intros g Hg. apply list_elem_of_singleton in Hg. by subst g.
Defined.

Lemma dict_set_fresh {V} (k : string) (v : V) (d : list (string * V)) :
  dict_get k d = None -> dict_set k v d = (d ++ [(k, v)])%list.
Proof.
  induction d as [|[k0 v0] d IH]; cbn [dict_get dict_set]; [reflexivity|].
  destruct (String.eqb k0 k); [discriminate|]. intros H. by rewrite (IH H).
Qed.

Lemma dict_get_pairs_none (l : list remote_file) (k : string) :
  k ∉ name <$> l -> dict_get k ((fun r => (name r, r)) <$> l) = None.
Proof.
  induction l as [|r l IH]; cbn [fmap list_fmap dict_get]; [reflexivity|].
  intros H. apply not_elem_of_cons in H as [Hne Hl].
  destruct (String.eqb (name r) k) eqn:E; [apply String.eqb_eq in E; congruence|].
  by apply IH.
Qed.

Lemma existing_files_unique (listing : list remote_file) :
  NoDup (name <$> listing) ->
  existing_files_of listing = (fun r => (name r, r)) <$> listing.
Proof.
  unfold existing_files_of.
  induction listing as [|r l IH] using rev_ind; [reflexivity|].
  rewrite fmap_app. intros H. apply NoDup_app in H as (Hl & Hr & _).
  rewrite foldl_app. cbn [foldl]. rewrite (IH Hl), fmap_app. cbn [fmap list_fmap].
  apply dict_set_fresh. apply dict_get_pairs_none.
  intros Hin. apply (Hr _ Hin). cbn. apply list_elem_of_singleton. reflexivity.
Qed.

(** X2. When the names of the remote listing are distinct, the
    deletion list is the listing, in its order, restricted to the
    entries of the source whose name is no local file name. *)
Theorem stale_entries_are_deleted (listing : list remote_file) (files : list FileMetadata)
        (src : string) :
  NoDup (name <$> listing) ->
  files_to_delete src (existing_files_of listing) files
  = filter (fun r => is_valid src r = true /\ name r ∉ file_name <$> files) listing.
Proof.
  intros Hnd. unfold files_to_delete, dict_values.
  rewrite (existing_files_unique _ Hnd), <- list_fmap_compose.
  replace (snd ∘ (fun r => (name r, r)) <$> listing) with listing
    by (clear; induction listing as [|r l IH]; cbn; [reflexivity | by rewrite <- IH]).
  clear Hnd. induction listing as [|r l IH]; [reflexivity|].
  destruct (is_valid src r) eqn:Hv.
  - rewrite (filter_cons_True (fun f => is_valid src f = true)) by exact Hv.
    destruct (decide (name r ∈ file_name <$> files)) as [Hin|Hnin].
    + rewrite filter_cons_False by (intros Hn; apply Hn; by apply elem_of_list_to_set).
      rewrite filter_cons_False by (intros [_ Hn]; contradiction). exact IH.
    + rewrite filter_cons_True by (intros Hn; apply Hnin; by apply elem_of_list_to_set in Hn).
      rewrite filter_cons_True by done. by rewrite IH.
  - rewrite (filter_cons_False (fun f => is_valid src f = true)) by congruence.
    rewrite filter_cons_False by (intros [Hn _]; congruence). exact IH.
Qed.

Lemma stale_entries_are_deleted_witness :
  files_to_delete "wiki_docs"
    (existing_files_of [stored_page "a.txt" "1700000000" "h1"; stored_page "old.txt" "1600000000" "h0"])
    [wiki_page "a.txt" "1700000000" "h1"]
  = [stored_page "old.txt" "1600000000" "h0"].
Proof.
  refine (eq_trans (stale_entries_are_deleted
                      [stored_page "a.txt" "1700000000" "h1"; stored_page "old.txt" "1600000000" "h0"]
                      [wiki_page "a.txt" "1700000000" "h1"] "wiki_docs" _) _).
  - repeat constructor; cbn; set_solver.
  - vm_compute. reflexivity.
Defined.

(** X3. Whatever the listing, the upload list is a sublist of the
    local manifest, every entry of the deletion list is an entry of
    the listing that belongs to the source and whose name is no local
    file name, and so no name is both deleted and uploaded. *)
Theorem plan_is_sound (listing : list remote_file) (files : list FileMetadata) (src : string)
        (precise : bool) (dels : list remote_file) (ups : list FileMetadata) :
  reconcile listing files src precise = Ok (dels, ups) ->
  sublist ups files
  /\ (forall r, r ∈ dels ->
        r ∈ listing /\ is_valid src r = true /\ name r ∉ file_name <$> files)
  /\ (forall r f, r ∈ dels -> f ∈ ups -> name r <> file_name f).
Proof.
  intros Hrec. destruct (reconcile_inv _ _ _ _ _ _ Hrec) as [-> ->].
  assert (Hdel : forall r, r ∈ files_to_delete src (existing_files_of listing) files ->
                 r ∈ listing /\ is_valid src r = true /\ name r ∉ file_name <$> files).
  { intros r Hr. unfold files_to_delete in Hr.
    apply list_elem_of_filter in Hr as [Hnot Hr].
    apply list_elem_of_filter in Hr as [Hvalid Hr].
    destruct (existing_files_values _ _ _ Hr) as [Hin|Hnil]; [|by apply not_elem_of_nil in Hnil].
    split; [exact Hin|]. split; [exact Hvalid|].
    intros Hn. apply Hnot. by apply elem_of_list_to_set. }
  split; [apply sublist_filter|]. split; [exact Hdel|].
  intros r f Hr Hf Heq. destruct (Hdel r Hr) as (_ & _ & Hn). apply Hn. rewrite Heq.
  apply list_elem_of_fmap_2. apply list_elem_of_filter in Hf. tauto.
Qed.

Lemma plan_is_sound_witness :
  sublist [wiki_page "b.txt" "1700000900" "h3"]
          [wiki_page "a.txt" "1700000000" "h1"; wiki_page "b.txt" "1700000900" "h3"].
Proof.
  exact (proj1 (plan_is_sound
                  [stored_page "a.txt" "1700000000" "h1"; stored_page "b.txt" "1700000500" "h2";
                   stored_page "old.txt" "1600000000" "h0"]
                  [wiki_page "a.txt" "1700000000" "h1"; wiki_page "b.txt" "1700000900" "h3"]
                  "wiki_docs" true
                  [stored_page "old.txt" "1600000000" "h0"]
                  [wiki_page "b.txt" "1700000900" "h3"] eq_refl)).
Defined.

(** X4. A local file whose remote entry has a [last_updated] value is
    left off the upload list when its timestamp is not greater than the
    remote one, even if its content differs, and also when the remote
    entry has its content hash and that hash is not empty, however
    much newer it is. *)
Theorem older_or_unchanged_is_skipped
        (listing : list remote_file) (files : list FileMetadata) (src : string)
        (precise : bool) (dels : list remote_file) (ups : list FileMetadata)
        (f : FileMetadata) (r : remote_file) (md : gmap string string) (lu : string)
        (existing_ts new_ts : Z) :
  reconcile listing files src precise = Ok (dels, ups) ->
  dict_get (file_name f) (existing_files_of listing) = Some r ->
  metadata r = Some md ->
  md !! "last_updated" = Some lu ->
  timestamp lu = Ok existing_ts ->
  timestamp (last_updated f) = Ok new_ts ->
  new_ts <= existing_ts
  \/ (md !! "content_hash" = Some (content_hash f) /\ content_hash f <> "") ->
  f ∉ ups.
Proof.
  intros Hrec Hget Hmd Hlu Hets Hnts Hcase.
  destruct (reconcile_inv _ _ _ _ _ _ Hrec) as [_ ->].
  intros Hin. apply list_elem_of_filter in Hin as [Hw _].
  unfold wants_upsert in Hw.
  rewrite (needs_upsert_compared precise _ f r md lu _ _ Hget Hmd Hlu Hets Hnts) in Hw.
  destruct Hcase as [Hle|[Hh Hne]].
  - assert (Hn : is_newer precise new_ts existing_ts = false).
    { unfold is_newer. replace (existing_ts <? new_ts) with false
        by (symmetry; apply Z.ltb_ge; lia). by destruct precise. }
    rewrite Hn in Hw. discriminate.
  - assert (Hd : hash_differs md f = false).
    { unfold hash_differs. rewrite Hh. unfold truthy.
      apply String.eqb_neq in Hne. rewrite Hne, String.eqb_refl. reflexivity. }
    rewrite Hd, andb_false_r in Hw. discriminate.
Qed.

Lemma older_or_unchanged_is_skipped_witness :
  wiki_page "a.txt" "1690000000" "changed" ∉ ([] : list FileMetadata).
Proof.
  apply (older_or_unchanged_is_skipped
           [stored_page "a.txt" "1700000000" "h1"]
           [wiki_page "a.txt" "1690000000" "changed"] "wiki_docs" true [] []
           (wiki_page "a.txt" "1690000000" "changed")
           (stored_page "a.txt" "1700000000" "h1")
           {[ "source" := "wiki_docs"; "last_updated" := "1700000000"; "content_hash" := "h1" ]}
           "1700000000" 1700000000 1690000000
           eq_refl eq_refl eq_refl eq_refl eq_refl eq_refl).
  left. lia.
Defined.

End Plan.

(** ** gosling/feed.py: the writer *)

Section Writer.
Import Feed.

Lemma needs_upsert_raises_ValueError (precise : bool) (d : list (string * remote_file))
      (f : FileMetadata) (e : exn) :
  needs_upsert precise d f = Raise e -> exn_class e = "ValueError".
Proof.
  unfold needs_upsert, timestamp.
  destruct (dict_get (file_name f) d) as [r|]; [|discriminate].
  cbn zeta. destruct (negb _); [discriminate|].
  destruct (int_of_str (first_field (default "" _))); cbn [bind].
  - destruct (int_of_str (first_field (last_updated f))); cbn [bind].
    + destruct (is_newer _ _ _); discriminate.
    + intros H. by injection H as <-.
  - intros H. by injection H as <-.
Qed.

Lemma files_to_upsert_raises (precise : bool) (d : list (string * remote_file))
      (files : list FileMetadata) (f : FileMetadata) (e : exn) :
  f ∈ files -> needs_upsert precise d f = Raise e ->
  exists e', files_to_upsert precise d files = Raise e' /\ exn_class e' = "ValueError".
Proof.
  induction files as [|g files IH]; intros Hin Hf; [by apply not_elem_of_nil in Hin|].
  cbn [files_to_upsert].
  destruct (needs_upsert precise d g) as [b|eg] eqn:Hg; cbn [bind].
  - apply elem_of_cons in Hin as [->|Hin]; [congruence|].
    destruct (IH Hin Hf) as (e' & -> & Hc). exists e'. by split.
  - exists eg. split; [reflexivity|]. by eapply needs_upsert_raises_ValueError.
Qed.

(** X5. When the [last_updated] of a local file is no integer and the
    remote entry of its name has a [last_updated] that is one, the
    whole call raises [ValueError] before it prints, asks or writes
    anything. *)
Theorem malformed_timestamp_stops_the_call
        (a : assistant) (files : list FileMetadata) (src : string)
        (precise auto_confirm : bool) (answer : string)
        (f : FileMetadata) (r : remote_file) (md : gmap string string) (lu : string)
        (existing_ts : Z) :
  f ∈ files ->
  dict_get (file_name f) (existing_files_of (list_files a)) = Some r ->
  metadata r = Some md ->
  md !! "last_updated" = Some lu ->
  timestamp lu = Ok existing_ts ->
  int_of_str (first_field (last_updated f)) = None ->
  exists e, exn_class e = "ValueError"
            /\ dupsert_files_pinecone a files src precise auto_confirm answer = ([], Raise e).
Proof.
  intros Hin Hget Hmd Hlu Hets Hbad.
  assert (Hf : exists e, needs_upsert precise (existing_files_of (list_files a)) f = Raise e).
  { unfold needs_upsert. rewrite Hget, Hmd. cbn [from_option Datatypes.id]. rewrite Hlu.
    cbn [truthy_opt from_option Datatypes.id]. rewrite (timestamp_nonempty _ _ Hets).
    cbn [negb]. rewrite Hets. cbn [bind]. unfold timestamp. rewrite Hbad. by eexists. }
  destruct Hf as [e0 Hf].
  destruct (files_to_upsert_raises precise _ files f e0 Hin Hf) as (e & He & Hc).
  exists e. split; [exact Hc|].
  unfold dupsert_files_pinecone, reconcile. rewrite He. reflexivity.
Qed.

Lemma malformed_timestamp_stops_the_call_witness :
  exists e, exn_class e = "ValueError"
            /\ dupsert_files_pinecone (obliging [stored_page "a.txt" "1700000000" "h1"])
                 [wiki_page "a.txt" "2024-01-05T10:00:00" "h2"] "wiki_docs" true true ""
               = ([], Raise e).
Proof.
  apply (malformed_timestamp_stops_the_call
           (obliging [stored_page "a.txt" "1700000000" "h1"])
           [wiki_page "a.txt" "2024-01-05T10:00:00" "h2"] "wiki_docs" true true ""
           (wiki_page "a.txt" "2024-01-05T10:00:00" "h2")
           (stored_page "a.txt" "1700000000" "h1")
           {[ "source" := "wiki_docs"; "last_updated" := "1700000000"; "content_hash" := "h1" ]}
           "1700000000" 1700000000);
    [apply list_elem_of_singleton; reflexivity | reflexivity ..].
Defined.

(** X6. Without [auto_confirm], any answer to the prompt other than
    "y" or "Y" leaves the assistant untouched: the trace holds no
    deletion and no upload, whatever the plan was. *)
Theorem declined_changes_nothing (a : assistant) (files : list FileMetadata) (src : string)
        (precise : bool) (answer : string) :
  declines answer = true ->
  filter (fun ev => is_mutation ev = true)
         (fst (dupsert_files_pinecone a files src precise false answer)) = [].
Proof.
  intros Hd. unfold dupsert_files_pinecone.
  destruct (reconcile (list_files a) files src precise) as [[dels ups]|e]; [|reflexivity].
  cbn [lift mbind]. rewrite Hd. destruct dels, ups; reflexivity.
Qed.

Lemma declined_changes_nothing_witness :
  filter (fun ev => is_mutation ev = true)
         (fst (dupsert_files_pinecone (obliging []) [wiki_page "a.txt" "1700000000" "h1"]
                                      "wiki_docs" true false "yes")) = [].
Proof.
  exact (declined_changes_nothing (obliging []) [wiki_page "a.txt" "1700000000" "h1"]
           "wiki_docs" true "yes" eq_refl).
Defined.

Lemma delete_all_run (a : assistant) (k : nat) (files : list remote_file) :
  delete_all a k files = ((fun file => EvDelete (id file)) <$> files, Ok tt).
Proof.
  revert k. induction files as [|file files IH]; intros k; [reflexivity|].
  cbn [delete_all fmap list_fmap]. rewrite IH.
  unfold try_except, mbind, emit, lift, ret.
  destruct (delete_file a k (id file)) as [[]|e]; reflexivity.
Qed.

(** X7. Once the changes are confirmed, each file of the deletion list
    is asked for once, in order and before the first upload, whether
    the assistant deletes it or fails; the outcome of the call is the
    outcome of the uploads. *)
Theorem deletions_come_first_and_never_block
        (a : assistant) (files : list FileMetadata) (src : string) (precise : bool)
        (answer : string) (dels : list remote_file) (ups : list FileMetadata) :
  reconcile (list_files a) files src precise = Ok (dels, ups) ->
  dels <> [] \/ ups <> [] ->
  dupsert_files_pinecone a files src precise true answer
  = ((((fun file => EvDelete (id file)) <$> dels) ++ fst (upsert_all a 0 ups))%list,
     snd (upsert_all a 0 ups)).
Proof.
  intros Hrec Hne. unfold dupsert_files_pinecone. rewrite Hrec. cbn [lift mbind app].
  assert (Hrun : mbind (ret true) (fun proceed : bool =>
                   if proceed then delete_all a 0 dels ;;; upsert_all a 0 ups else ret tt)
                 = ((((fun file => EvDelete (id file)) <$> dels) ++ fst (upsert_all a 0 ups))%list,
                    snd (upsert_all a 0 ups))).
  { cbn [ret mbind app]. rewrite delete_all_run. cbn [mbind].
    destruct (upsert_all a 0 ups) as [t r]. reflexivity. }
  destruct dels as [|d dels]; [destruct ups as [|u ups]; [by destruct Hne|]|];
    rewrite Hrun; reflexivity.
Qed.

Lemma deletions_come_first_and_never_block_witness :
  deletions_of (fst (dupsert_files_pinecone
                       (obliging [stored_page "old.txt" "1600000000" "h0";
                                  stored_page "older.txt" "1500000000" "h"])
                       [] "wiki_docs" true true ""))
  = ["file-old.txt"; "file-older.txt"].
Proof.
  assert (Hplan : reconcile (list_files (obliging [stored_page "old.txt" "1600000000" "h0";
                                                  stored_page "older.txt" "1500000000" "h"]))
                            [] "wiki_docs" true
                  = Ok ([stored_page "old.txt" "1600000000" "h0";
                         stored_page "older.txt" "1500000000" "h"], []))
    by (vm_compute; reflexivity).
  assert (Hne : [stored_page "old.txt" "1600000000" "h0"; stored_page "older.txt" "1500000000" "h"]
                <> [] \/ ([] : list FileMetadata) <> []) by (left; discriminate).
  pose proof (deletions_come_first_and_never_block _ [] "wiki_docs" true "" _ _ Hplan Hne)
    as Hrun.
  apply (f_equal fst) in Hrun. cbn [fst] in Hrun.
  exact (eq_trans (f_equal deletions_of Hrun) ltac:(vm_compute; reflexivity)).
Defined.

Lemma attempt_uploads_once (a : assistant) (i k : nat) (f : FileMetadata) :
  upload_attempts_of (fst (attempt_upload a i k f)) = [(i, k)].
Proof.
  unfold attempt_upload, mbind, lift, emit, raise.
  destruct (upload_file a i k (file_path f) (upload_metadata_of f)) as [file_id|e]; cbn;
    [|reflexivity].
  destruct (describe_file a i k file_id) as [d|e]; cbn; [|reflexivity].
  destruct (verified d); reflexivity.
Qed.

Lemma attempt_pauses (a : assistant) (i k : nat) (f : FileMetadata) :
  pauses (fst (attempt_upload a i k f))
  = match snd (attempt_upload a i k f) with Ok _ => [1] | Raise _ => [] end.
Proof.
  unfold attempt_upload, mbind, lift, emit, raise.
  destruct (upload_file a i k (file_path f) (upload_metadata_of f)) as [file_id|e]; cbn;
    [|reflexivity].
  destruct (describe_file a i k file_id) as [d|e]; cbn; [|reflexivity].
  destruct (verified d); reflexivity.
Qed.

Lemma pauses_app (t1 t2 : list event) : pauses (t1 ++ t2) = (pauses t1 ++ pauses t2)%list.
Proof. apply omap_app. Qed.

Lemma uploads_app (t1 t2 : list event) :
  upload_attempts_of (t1 ++ t2) = (upload_attempts_of t1 ++ upload_attempts_of t2)%list.
Proof. apply omap_app. Qed.

Lemma pauses_sleep (d : Z) (t : list event) : pauses (EvSleep d :: t) = d :: pauses t.
Proof. reflexivity. Qed.

Lemma uploads_sleep (d : Z) (t : list event) :
  upload_attempts_of (EvSleep d :: t) = upload_attempts_of t.
Proof. reflexivity. Qed.

Lemma retry_loop_ok (a : assistant) (i k : nat) (f : FileMetadata) (rest : list nat) :
  snd (attempt_upload a i k f) = Ok tt ->
  retry_loop a i f (k :: rest) = attempt_upload a i k f.
Proof.
  cbn [retry_loop]. destruct (attempt_upload a i k f) as [t [[]|e]]; cbn; [reflexivity|discriminate].
Qed.

Lemma retry_loop_fail (a : assistant) (i k : nat) (f : FileMetadata) (rest : list nat) (e : exn) :
  snd (attempt_upload a i k f) = Raise e ->
  retry_loop a i f (k :: rest)
  = if (k <? max_retries - 1)%nat
    then ((fst (attempt_upload a i k f) ++
             EvSleep (retry_delay * 2 ^ Z.of_nat k) :: fst (retry_loop a i f rest))%list,
          snd (retry_loop a i f rest))
    else (fst (attempt_upload a i k f), Raise e).
Proof.
  cbn [retry_loop]. destruct (attempt_upload a i k f) as [t [[]|e']]; cbn [fst snd];
    [discriminate|].
  intros H. injection H as ->. unfold try_except.
  destruct (k <? max_retries - 1)%nat.
  - unfold mbind, emit. destruct (retry_loop a i f rest) as [t' r]. reflexivity.
  - unfold raise. by rewrite app_nil_r.
Qed.

Lemma retry_loop_succeeds (a : assistant) (i : nat) (f : FileMetadata) (m : nat) :
  forall s rest,
  (s + m < 5)%nat ->
  (forall j, (s <= j < s + m)%nat -> exists e, snd (attempt_upload a i j f) = Raise e) ->
  snd (attempt_upload a i (s + m) f) = Ok tt ->
  snd (retry_loop a i f (seq s (S m) ++ rest)) = Ok tt
  /\ pauses (fst (retry_loop a i f (seq s (S m) ++ rest)))
     = (((fun j => 2 ^ Z.of_nat j) <$> seq s m) ++ [1])%list
  /\ upload_attempts_of (fst (retry_loop a i f (seq s (S m) ++ rest)))
     = (fun j => (i, j)) <$> seq s (S m).
Proof.
  induction m as [|m IH]; intros s rest Hlt Hfail Hok.
  - rewrite Nat.add_0_r in Hok. cbn [seq app]. rewrite (retry_loop_ok _ _ _ _ _ Hok).
    rewrite attempt_pauses, attempt_uploads_once, Hok. by repeat split.
  - destruct (Hfail s ltac:(lia)) as [e He].
    change (seq s (S (S m)) ++ rest)%list with (s :: (seq (S s) (S m) ++ rest))%list.
    rewrite (retry_loop_fail _ _ _ _ _ _ He).
    replace (s <? max_retries - 1)%nat with true
      by (symmetry; apply Nat.ltb_lt; unfold max_retries; lia).
    cbn [fst snd].
    destruct (IH (S s) rest ltac:(lia)) as (Hr & Hp & Hu).
    { intros j Hj. apply Hfail. lia. }
    { by replace (S s + m)%nat with (s + S m)%nat by lia. }
    split; [exact Hr|].
    rewrite pauses_app, uploads_app, pauses_sleep, uploads_sleep.
    rewrite attempt_pauses, attempt_uploads_once, He, Hp, Hu.
    unfold retry_delay. rewrite Z.mul_1_l. split; reflexivity.
Qed.

(** X8. When the attempts before attempt [k] fail and attempt [k]
    uploads and verifies the file, the file is uploaded: there are
    [k + 1] attempts and no more, the pauses after the failures are 1,
    2, 4, ... time-units, and one pause of 1 follows the success. *)
Theorem upload_succeeds_after_retries (a : assistant) (i : nat) (f : FileMetadata) (k : nat) :
  (k < 5)%nat ->
  (forall j, (j < k)%nat -> exists e, snd (attempt_upload a i j f) = Raise e) ->
  snd (attempt_upload a i k f) = Ok tt ->
  snd (upload_with_retries a i f) = Ok tt
  /\ pauses (fst (upload_with_retries a i f))
     = (((fun j => 2 ^ Z.of_nat j) <$> seq 0 k) ++ [1])%list
  /\ upload_attempts_of (fst (upload_with_retries a i f)) = (fun j => (i, j)) <$> seq 0 (S k).
Proof.
  intros Hk Hfail Hok. unfold upload_with_retries, max_retries.
  replace 5%nat with (S k + (4 - k))%nat by lia. rewrite seq_app.
  apply retry_loop_succeeds; [lia | intros j Hj; apply Hfail; lia | exact Hok].
Qed.

Lemma upload_succeeds_after_retries_witness :
  pauses (fst (upload_with_retries (flaky []) 0 (wiki_page "a.txt" "1700000000" "h1")))
  = [1; 2; 1].
Proof.
  refine (proj1 (proj2 (upload_succeeds_after_retries
                          (flaky []) 0 (wiki_page "a.txt" "1700000000" "h1") 2 _ _ _))).
  - lia.
  - intros j Hj. exists timed_out.
    destruct j as [|[|j]]; [reflexivity | reflexivity | lia].
  - reflexivity.
Defined.

Lemma retry_loop_attempts (a : assistant) (i : nat) (f : FileMetadata) (ks : list nat) :
  exists n, (n <= length ks)%nat /\ (ks <> [] -> (1 <= n)%nat)
            /\ upload_attempts_of (fst (retry_loop a i f ks)) = (fun k => (i, k)) <$> take n ks.
Proof.
  induction ks as [|k ks IH].
  - exists 0%nat. repeat split; [lia | done].
  - destruct (snd (attempt_upload a i k f)) as [[]|e] eqn:E.
    + exists 1%nat. rewrite (retry_loop_ok _ _ _ _ _ E), attempt_uploads_once.
      cbn. repeat split; lia.
    + rewrite (retry_loop_fail _ _ _ _ _ _ E). destruct (k <? max_retries - 1)%nat.
      * destruct IH as (n & Hn & _ & Hu). exists (S n). cbn [fst length take fmap list_fmap].
        rewrite uploads_app, uploads_sleep, attempt_uploads_once, Hu.
        repeat split; lia.
      * exists 1%nat. cbn [fst]. rewrite attempt_uploads_once. cbn. repeat split; lia.
Qed.

Lemma attempts_of_file (a : assistant) (i : nat) (f : FileMetadata) :
  exists n, (1 <= n <= 5)%nat
            /\ upload_attempts_of (fst (upload_with_retries a i f))
               = (fun k => (i, k)) <$> seq 0 n.
Proof.
  unfold upload_with_retries, max_retries.
  destruct (retry_loop_attempts a i f (seq 0 5)) as (n & Hn & H1 & Hu).
  rewrite length_seq in Hn. exists n. split; [split; [by apply H1 | exact Hn]|].
  rewrite Hu, take_seq. by rewrite Nat.min_l.
Qed.

(** X9. Whatever the assistant does, a file is tried at least once and
    at most five times, with the attempts numbered from 0 in order. *)
Theorem attempts_are_bounded (a : assistant) (i : nat) (f : FileMetadata) :
  exists n, (1 <= n <= 5)%nat
            /\ upload_attempts_of (fst (upload_with_retries a i f))
               = (fun k => (i, k)) <$> seq 0 n.
Proof. exact (attempts_of_file a i f). Qed.

Lemma retry_loop_exhausted (a : assistant) (i : nat) (f : FileMetadata) (m : nat) :
  forall s,
  (s + m = 4)%nat ->
  (forall k, (s <= k < 5)%nat -> exists e, snd (attempt_upload a i k f) = Raise e) ->
  exists e, snd (retry_loop a i f (seq s (S m))) = Raise e.
Proof.
  induction m as [|m IH]; intros s Hs Hfail.
  - destruct (Hfail s ltac:(lia)) as [e He]. cbn [seq].
    rewrite (retry_loop_fail _ _ _ _ _ _ He).
    replace (s <? max_retries - 1)%nat with false
      by (symmetry; apply Nat.ltb_ge; unfold max_retries; lia).
    by exists e.
  - destruct (Hfail s ltac:(lia)) as [e He].
    change (seq s (S (S m))) with (s :: seq (S s) (S m)).
    rewrite (retry_loop_fail _ _ _ _ _ _ He).
    replace (s <? max_retries - 1)%nat with true
      by (symmetry; apply Nat.ltb_lt; unfold max_retries; lia).
    cbn [snd]. apply IH; [lia | intros k Hk; apply Hfail; lia].
Qed.

Lemma upload_exhausted (a : assistant) (i : nat) (f : FileMetadata) :
  (forall k, (k < 5)%nat -> exists e, snd (attempt_upload a i k f) = Raise e) ->
  exists e, snd (upload_with_retries a i f) = Raise e.
Proof.
  intros Hfail. unfold upload_with_retries, max_retries.
  apply (retry_loop_exhausted a i f 4 0 eq_refl). intros k Hk. apply Hfail. lia.
Qed.

Lemma upsert_all_stops (a : assistant) (files : list FileMetadata) :
  forall i0 j f,
  files !! j = Some f ->
  (forall k, (k < 5)%nat -> exists e, snd (attempt_upload a (i0 + j) k f) = Raise e) ->
  (exists e, snd (upsert_all a i0 files) = Raise e)
  /\ (forall i k, (i, k) ∈ upload_attempts_of (fst (upsert_all a i0 files)) ->
                  (i0 <= i <= i0 + j)%nat).
Proof.
  induction files as [|g files IH]; intros i0 j f Hj Hfail; [by rewrite lookup_nil in Hj|].
  cbn [upsert_all].
  destruct (attempts_of_file a i0 g) as (n & Hn & Hu).
  destruct j as [|j].
  - cbn in Hj. injection Hj as ->. rewrite Nat.add_0_r in Hfail.
    destruct (upload_exhausted a i0 f Hfail) as [e He].
    destruct (upload_with_retries a i0 f) as [t r]. cbn [snd] in He. subst r.
    cbn [mbind fst snd] in *. split; [by exists e|].
    intros i k Hin. rewrite Hu in Hin. apply list_elem_of_fmap in Hin as (k' & Heq & _).
    injection Heq as -> ->. lia.
  - cbn in Hj. destruct (IH (S i0) j f Hj) as ([e He] & Hidx).
    { intros k Hk. replace (S i0 + j)%nat with (i0 + S j)%nat by lia. by apply Hfail. }
    destruct (upload_with_retries a i0 g) as [t [[]|e']]; cbn [mbind fst snd] in *.
    + destruct (upsert_all a (S i0) files) as [t' r']. cbn [fst snd] in *. subst r'.
      split; [by exists e|]. intros i k Hin. rewrite uploads_app in Hin.
      apply elem_of_app in Hin as [Hin|Hin].
      * rewrite Hu in Hin. apply list_elem_of_fmap in Hin as (k' & Heq & _).
        injection Heq as -> ->. lia.
      * specialize (Hidx i k Hin). lia.
    + split; [by exists e'|]. intros i k Hin. rewrite Hu in Hin.
      apply list_elem_of_fmap in Hin as (k' & Heq & _). injection Heq as -> ->. lia.
Qed.

(** X10. When the five attempts for one file of the upload list fail,
    the batch ends there: the call raises and no file after that one
    is tried. *)
Theorem exhausted_file_ends_the_batch (a : assistant) (files : list FileMetadata)
        (j : nat) (f : FileMetadata) :
  files !! j = Some f ->
  (forall k, (k < 5)%nat -> exists e, snd (attempt_upload a j k f) = Raise e) ->
  (exists e, snd (upsert_all a 0 files) = Raise e)
  /\ (forall i k, (i, k) ∈ upload_attempts_of (fst (upsert_all a 0 files)) -> (i <= j)%nat).
Proof.
  intros Hj Hfail. destruct (upsert_all_stops a files 0 j f Hj Hfail) as [He Hidx].
  split; [exact He|]. intros i k Hin. specialize (Hidx i k Hin). lia.
Qed.

Lemma exhausted_file_ends_the_batch_witness :
  exists e, snd (upsert_all (unreachable []) 0
                   [wiki_page "a.txt" "1700000000" "h1"; wiki_page "b.txt" "1700000000" "h2"])
            = Raise e.
Proof.
  exact (proj1 (exhausted_file_ends_the_batch (unreachable [])
                  [wiki_page "a.txt" "1700000000" "h1"; wiki_page "b.txt" "1700000000" "h2"]
                  0 (wiki_page "a.txt" "1700000000" "h1") eq_refl
                  (fun k _ => ex_intro _ timed_out eq_refl))).
Defined.

End Writer.

(** ** gosling/honk.py: numbering and markers *)

Section Numbers.
Import Honk.
Local Set Warnings "-clear-no-such-hyp".

Lemma well_numbered_init : well_numbered numbering_init.
Proof.
  split; cbn [numbering_init reference_numbers current_ref_num].
  - lia.
  - intros u k H. by rewrite lookup_empty in H.
  - intros u v k H. by rewrite lookup_empty in H.
  - intros k Hk. lia.
Qed.

Lemma well_numbered_step (st : numbering) (x : string) :
  well_numbered st -> well_numbered (assign_number st x).
Proof.
  intros [Hstart Hrange Hinj Honto]. unfold assign_number.
  destruct (reference_numbers st !! x) as [n|] eqn:Hx;
    split; cbn [reference_numbers current_ref_num]; try assumption.
  - lia.
  - intros u k. destruct (decide (u = x)) as [->|Hne].
    + rewrite lookup_insert_eq. intros H. injection H as <-. lia.
    + rewrite lookup_insert_ne by done. intros H. specialize (Hrange u k H). lia.
  - intros u v k. destruct (decide (u = x)) as [->|Hu], (decide (v = x)) as [->|Hv];
      rewrite ?lookup_insert_eq, ?lookup_insert_ne by done; try done.
    + intros H1 H2. injection H1 as <-. specialize (Hrange v _ H2). lia.
    + intros H1 H2. injection H2 as <-. specialize (Hrange u _ H1). lia.
    + apply Hinj.
  - intros k Hk. destruct (decide (k = current_ref_num st)) as [->|Hne].
    + exists x. by rewrite lookup_insert_eq.
    + destruct (Honto k ltac:(lia)) as [u Hu]. exists u.
      rewrite lookup_insert_ne; [exact Hu|]. intros ->. congruence.
Qed.

Lemma well_numbered_assign_numbers (cs : list citation) : well_numbered (assign_numbers cs).
Proof.
  unfold assign_numbers. rewrite assign_numbers_flat.
  induction (cited_urls cs) as [|x l IH] using rev_ind; [apply well_numbered_init|].
  rewrite foldl_app. cbn [foldl]. by apply well_numbered_step.
Qed.

(** X11. The first pass numbers exactly the URLs that are cited, gives
    different URLs different numbers, and uses each number from 1 to
    the number of distinct URLs. *)
Theorem reference_numbers_are_1_to_n (cs : list citation) :
  (forall u, is_Some (reference_numbers (assign_numbers cs) !! u) <-> u ∈ cited_urls cs)
  /\ (forall u v k, reference_numbers (assign_numbers cs) !! u = Some k ->
                    reference_numbers (assign_numbers cs) !! v = Some k -> u = v)
  /\ (forall k, (1 <= k <= size (all_references (assign_numbers cs)))%nat <->
                exists u, reference_numbers (assign_numbers cs) !! u = Some k).
Proof.
  destruct (numbered_assign_numbers cs) as [Hall Hdom Hnext _].
  destruct (well_numbered_assign_numbers cs) as [_ Hrange Hinj Honto].
  rewrite Hall. rewrite Hnext in Hrange, Honto.
  split; [|split].
  - intros u. rewrite <- elem_of_dom, Hdom. apply elem_of_list_to_set.
  - exact Hinj.
  - intros k. split.
    + intros Hk. apply Honto. lia.
    + intros [u Hu]. specialize (Hrange u k Hu). lia.
Qed.

Lemma reference_numbers_are_1_to_n_witness :
  exists u, reference_numbers (assign_numbers (citations two_sources)) !! u = Some 3%nat.
Proof.
  apply (proj1 (proj2 (proj2 (reference_numbers_are_1_to_n (citations two_sources))) 3%nat)).
  vm_compute. split; apply le_n || (apply le_S; apply le_S; apply le_n).
Defined.

Lemma slice_index_nonneg (s : string) (pos : Z) : 0 <= pos -> slice_index s pos = Z.to_nat pos.
Proof.
  intros H. unfold slice_index. by replace (pos <? 0) with false by (symmetry; apply Z.ltb_ge; lia).
Qed.

(** The loop that inserts the markers, run on offsets in descending
    order: what was copied below the least offset is untouched. *)
Lemma insertion_loop (nums : gmap string nat) (by_pos : gmap Z (gset string)) (msg : string)
      (ps : list Z) :
  StronglySorted Z.lt ps ->
  Forall (fun p => 0 <= p <= Z.of_nat (String.length msg)) ps ->
  forall q, (q <= String.length msg)%nat -> Forall (fun p => (q <= Z.to_nat p)%nat) ps ->
  str_take q (foldl (insert_marker nums by_pos) msg (reverse ps)) = str_take q msg
  /\ str_drop q (foldl (insert_marker nums by_pos) msg (reverse ps))
     = splice (fun p => superscript nums (default ∅ (by_pos !! p))) msg q ps.
Proof.
  induction ps as [|p ps IH]; intros Hs Hb q Hq Hge; [by split|].
  apply StronglySorted_cons in Hs as [Hlt Hs]. apply Forall_cons in Hb as [Hp Hb].
  apply Forall_cons in Hge as [Hqp _].
  rewrite reverse_cons, foldl_app. cbn [foldl splice].
  destruct (IH Hs Hb (Z.to_nat p)) as [Htake Hdrop]; [lia | |].
  { eapply Forall_impl; [exact Hlt|]. cbn. intros x Hx. lia. }
  unfold insert_marker at 1 3. unfold slice_to, slice_from.
  rewrite slice_index_nonneg by lia. rewrite Htake, Hdrop.
  assert (Hlen : (q <= String.length (str_take (Z.to_nat p) msg))%nat)
    by (rewrite length_str_take; lia).
  rewrite str_take_app, str_drop_app by exact Hlen.
  by rewrite str_take_take by exact Hqp.
Qed.

Lemma elem_of_insert_by {A} (before : A -> A -> bool) (x z : A) (l : list A) :
  z ∈ insert_by before x l <-> z = x \/ z ∈ l.
Proof.
  induction l as [|y l IH]; cbn [insert_by].
  - rewrite list_elem_of_singleton, elem_of_nil. tauto.
  - destruct (before x y); rewrite !elem_of_cons, ?IH; tauto.
Qed.

Lemma elem_of_sorted_reverse (l : list Z) (z : Z) : z ∈ sorted_reverse (fun p => p) l <-> z ∈ l.
Proof.
  unfold sorted_reverse. induction l as [|x l IH]; cbn [foldr]; [reflexivity|].
  rewrite elem_of_insert_by, IH, elem_of_cons. reflexivity.
Qed.

Lemma insert_by_descending (x : Z) (l : list Z) :
  StronglySorted (flip Z.lt) l -> x ∉ l ->
  StronglySorted (flip Z.lt) (insert_by (fun x y => y <=? x) x l).
Proof.
  induction l as [|y l IH]; intros Hs Hx; cbn [insert_by]; [repeat constructor|].
  apply StronglySorted_cons in Hs as [Hall Hs]. apply not_elem_of_cons in Hx as [Hne Hx].
  destruct (y <=? x) eqn:E.
  - apply Z.leb_le in E. apply StronglySorted_cons. split.
    + apply Forall_cons. split; [unfold flip; lia|].
      eapply Forall_impl; [exact Hall|]. unfold flip. cbn. intros z Hz. lia.
    + apply StronglySorted_cons. by split.
  - apply Z.leb_gt in E. apply StronglySorted_cons. split; [|by apply IH].
    apply Forall_forall. intros z Hz. apply elem_of_insert_by in Hz as [->|Hz].
    + exact E.
    + rewrite Forall_forall in Hall. by apply Hall.
Qed.

Lemma sorted_reverse_descending (l : list Z) :
  NoDup l -> StronglySorted (flip Z.lt) (sorted_reverse (fun p => p) l).
Proof.
  induction l as [|x l IH]; intros Hnd; [constructor|].
  apply NoDup_cons in Hnd as [Hx Hnd]. unfold sorted_reverse. cbn [foldr].
  apply insert_by_descending; [by apply IH|].
  intros Hin. apply Hx. apply (elem_of_sorted_reverse l x). exact Hin.
Qed.

Lemma StronglySorted_reverse {A} (R : relation A) (l : list A) :
  StronglySorted R l -> StronglySorted (flip R) (reverse l).
Proof.
  induction l as [|x l IH]; intros Hs; [constructor|].
  apply StronglySorted_cons in Hs as [Hall Hs]. rewrite reverse_cons.
  apply StronglySorted_app_2; [|by apply IH|repeat constructor].
  intros x1 x2 H1 H2. apply list_elem_of_singleton in H2 as ->.
  rewrite elem_of_reverse in H1. rewrite Forall_forall in Hall. unfold flip. by apply Hall.
Qed.

Lemma dom_add_at (m : gmap Z (gset string)) (pos : Z) (u : string) :
  dom (add_at m pos u) = {[pos]} ∪ dom m.
Proof. by rewrite add_at_eq, dom_insert_L. Qed.

Lemma dom_add_refs (m : gmap Z (gset string)) (pos : Z) (refs : list reference) :
  dom (foldl (fun m r => add_at m pos (url r)) m refs)
  = (if refs is [] then ∅ else {[pos]}) ∪ dom m.
Proof.
  revert m. induction refs as [|r refs IH]; intros m; cbn [foldl].
  - by rewrite union_empty_l_L.
  - rewrite IH, dom_add_at. destruct refs; clear; set_solver.
Qed.

Lemma dom_by_position (cs : list citation) (m : gmap Z (gset string)) (p : Z) :
  p ∈ dom (foldl (fun m c => foldl (fun m r => add_at m (position c) (url r)) m (references c))
                 m cs)
  <-> p ∈ dom m \/ exists c, c ∈ cs /\ position c = p /\ references c <> [].
Proof.
  revert m. induction cs as [|c cs IH]; intros m; cbn [foldl].
  - split; [by left|]. intros [H|(c & Hc & _)]; [exact H | by apply elem_of_nil in Hc].
  - rewrite IH, dom_add_refs. split.
    + intros [H|(c' & Hc' & Hp & Hr)].
      * apply elem_of_union in H as [H|H]; [|by left]. right. exists c.
        destruct (references c) eqn:E; [by apply elem_of_empty in H|].
        apply elem_of_singleton in H. repeat split; [by left | by symmetry | done].
      * right. exists c'. split; [by right | done].
    + intros [H|(c' & Hc' & Hp & Hr)].
      * left. apply elem_of_union. by right.
      * apply elem_of_cons in Hc' as [->|Hc'].
        -- left. apply elem_of_union. left. destruct (references c); [done|].
           by apply elem_of_singleton.
        -- right. exists c'. by split.
Qed.

Lemma elem_of_keys (m : gmap Z (gset string)) (p : Z) :
  p ∈ fst <$> map_to_list m <-> p ∈ dom m.
Proof.
  rewrite elem_of_dom, list_elem_of_fmap. split.
  - intros ([i x] & -> & H). apply elem_of_map_to_list in H. by exists x.
  - intros [x H]. exists (p, x). split; [reflexivity|]. by apply elem_of_map_to_list.
Qed.

(** X12. When every citation's position is an offset of the message,
    the formatted text is the references block, if there is one,
    followed by the message with one marker put in at each cited
    offset of the message as it was given: the part of the message
    between two neighbouring offsets is copied unchanged, and no
    earlier insertion moves a later one. *)
Theorem markers_stand_at_original_offsets (nr : normalized_response) :
  (forall c, c ∈ citations nr -> 0 <= position c <= Z.of_nat (String.length (message nr))) ->
  exists ps,
    StronglySorted Z.lt ps
    /\ (forall p, p ∈ ps <->
                  exists c, c ∈ citations nr /\ position c = p /\ references c <> [])
    /\ format_normalized_response nr
       = (if bool_decide (all_references (assign_numbers (citations nr)) = ∅) then ""
          else references_block (assign_numbers (citations nr)) +:+ nl) +:+
         splice (fun p => superscript (reference_numbers (assign_numbers (citations nr)))
                            (default ∅ (citations_by_position (citations nr) !! p)))
                (message nr) 0 ps.
Proof.
  intros Hbound.
  set (keys := fst <$> map_to_list (citations_by_position (citations nr))).
  assert (Hkeys : forall p, p ∈ sorted_reverse (fun p => p) keys <->
                  exists c, c ∈ citations nr /\ position c = p /\ references c <> []).
  { intros p. rewrite elem_of_sorted_reverse. unfold keys. rewrite elem_of_keys.
    unfold citations_by_position. rewrite dom_by_position, dom_empty_L.
    split; [intros [H|H]; [by apply elem_of_empty in H | exact H] | by right]. }
  exists (reverse (sorted_reverse (fun p => p) keys)).
  assert (Hsorted : StronglySorted Z.lt (reverse (sorted_reverse (fun p => p) keys))).
  { apply (StronglySorted_reverse (flip Z.lt)). apply sorted_reverse_descending.
    apply NoDup_fst_map_to_list. }
  split; [exact Hsorted|]. split.
  { intros p. rewrite elem_of_reverse. apply Hkeys. }
  assert (Hin : Forall (fun p => 0 <= p <= Z.of_nat (String.length (message nr)))
                       (reverse (sorted_reverse (fun p => p) keys))).
  { apply Forall_forall. intros p Hp. rewrite elem_of_reverse in Hp. apply Hkeys in Hp.
    destruct Hp as (c & Hc & <- & _). by apply Hbound. }
  destruct (insertion_loop (reference_numbers (assign_numbers (citations nr)))
              (citations_by_position (citations nr)) (message nr) _ Hsorted Hin 0%nat)
    as [_ Hloop]; [lia | apply Forall_forall; intros; lia |].
  rewrite reverse_involutive in Hloop. cbn [str_drop] in Hloop.
  replace (str_drop 0 (foldl (insert_marker (reference_numbers (assign_numbers (citations nr)))
                                            (citations_by_position (citations nr)))
                             (message nr) (sorted_reverse (fun p => p) keys)))
    with (foldl (insert_marker (reference_numbers (assign_numbers (citations nr)))
                               (citations_by_position (citations nr)))
                (message nr) (sorted_reverse (fun p => p) keys)) in Hloop
    by (by destruct (foldl _ _ _)).
  rewrite <- Hloop. unfold format_normalized_response, keys.
  destruct (citations nr) as [|c cs] eqn:E; [vm_compute; reflexivity|].
  destruct (bool_decide _); [reflexivity|]. by rewrite str_app_assoc.
Qed.

Lemma markers_stand_at_original_offsets_witness :
  exists ps,
    StronglySorted Z.lt ps
    /\ (forall p, p ∈ ps <->
                  exists c, c ∈ citations two_sources /\ position c = p /\ references c <> [])
    /\ format_normalized_response two_sources
       = (if bool_decide (all_references (assign_numbers (citations two_sources)) = ∅) then ""
          else references_block (assign_numbers (citations two_sources)) +:+ nl) +:+
         splice (fun p => superscript (reference_numbers (assign_numbers (citations two_sources)))
                            (default ∅ (citations_by_position (citations two_sources) !! p)))
                (message two_sources) 0 ps.
Proof.
  apply markers_stand_at_original_offsets.
  intros c Hc. cbn in Hc.
  repeat (apply elem_of_cons in Hc as [->|Hc]); [cbn; lia .. | by apply elem_of_nil in Hc].
Defined.

Lemma no_references_no_urls (cs : list citation) :
  (forall c, c ∈ cs -> references c = []) ->
  cited_urls cs = [] /\ citations_by_position cs = ∅.
Proof.
  unfold cited_urls, citations_by_position. generalize (∅ : gmap Z (gset string)).
  induction cs as [|c cs IH]; intros m H; [by split|].
  cbn [fmap list_fmap concat foldl]. rewrite (H c) by (by left). cbn [fmap list_fmap app foldl].
  apply IH. intros c' Hc'. apply H. by right.
Qed.

(** X13. When no citation carries a reference, the message comes back
    as it was given: no marker and no references block. *)
Theorem citations_without_references_change_nothing (nr : normalized_response) :
  (forall c, c ∈ citations nr -> references c = []) ->
  format_normalized_response nr = message nr.
Proof.
  intros H. destruct (no_references_no_urls _ H) as [Hu Hp].
  unfold format_normalized_response. destruct (citations nr) as [|c cs] eqn:E; [reflexivity|].
  rewrite Hp. unfold assign_numbers. rewrite assign_numbers_flat, Hu. reflexivity.
Qed.

Lemma citations_without_references_change_nothing_witness :
  format_normalized_response
    {| message := "No source was found."; citations := [ {| position := 5; references := [] |} ] |}
  = "No source was found.".
Proof.
  apply (citations_without_references_change_nothing
           {| message := "No source was found.";
              citations := [ {| position := 5; references := [] |} ] |}).
  intros c Hc. apply list_elem_of_singleton in Hc. by subst c.
Defined.

End Numbers.

Section Normalize.
Import Honk.

Lemma mapM_Forall2 {A B} (f : A -> result B) (P : A -> B -> Prop) (l : list A) (ys : list B) :
  (forall x y, f x = Ok y -> P x y) -> mapM f l = Ok ys -> Forall2 P l ys.
Proof.
  intros Hf. revert ys. induction l as [|x l IH]; intros ys; cbn [mapM].
  - intros H. injection H as <-. constructor.
  - destruct (f x) as [y|e] eqn:Hx; cbn [bind]; [|discriminate].
    destruct (mapM f l) as [ys'|e] eqn:Hl; cbn [bind]; [|discriminate].
    intros H. injection H as <-. constructor; [by apply Hf | by apply IH].
Qed.

(** X14. When the answer of the backend normalizes, the message is its
    content and the citations stand one for one, in order, for the raw
    citations: each keeps its position and its references, and the URL
    of a reference is the [url] of the file's metadata when there is
    one and the name of the file otherwise. *)
Theorem normalization_keeps_citations (c : chat_model) (nr : normalized_response) :
  normalize_pinecone_citations c = Ok nr ->
  message_content c = Some (message nr)
  /\ exists raw, raw_citations c = Some raw
     /\ Forall2 (fun rc c' =>
                   raw_position rc = Some (position c')
                   /\ exists refs, raw_references rc = Some refs
                      /\ Forall2 (fun rr r =>
                                    exists f md, file rr = Some f
                                      /\ file_metadata f = Some md
                                      /\ file_name f = Some (name r)
                                      /\ url r = default (name r) (md !! "url"))
                                  refs (references c'))
                 raw (citations nr).
Proof.
  unfold normalize_pinecone_citations.
  destruct (raw_citations c) as [raw|]; cbn [subscript bind]; [|discriminate].
  destruct (mapM normalize_citation raw) as [cs|e] eqn:Hcs; cbn [bind]; [|discriminate].
  destruct (message_content c) as [msg|]; cbn [subscript bind]; [|discriminate].
  intros H. injection H as <-. cbn [message citations]. split; [reflexivity|].
  exists raw. split; [reflexivity|].
  eapply mapM_Forall2; [|exact Hcs]. clear. intros rc c'. unfold normalize_citation.
  destruct (raw_references rc) as [refs|]; cbn [subscript bind]; [|discriminate].
  destruct (mapM normalize_reference refs) as [rs|e] eqn:Hrs; cbn [bind]; [|discriminate].
  destruct (raw_position rc) as [pos|]; cbn [subscript bind]; [|discriminate].
  intros H. injection H as <-. cbn [position references]. split; [reflexivity|].
  exists refs. split; [reflexivity|].
  eapply mapM_Forall2; [|exact Hrs]. clear. intros rr r. unfold normalize_reference.
  destruct (file rr) as [f|]; cbn [subscript bind]; [|discriminate].
  destruct (file_metadata f) as [md|] eqn:Hmd; [|discriminate].
  destruct (file_name f) as [n|] eqn:Hn; cbn [subscript bind]; [|discriminate].
  intros H. injection H as <-. cbn [name url]. exists f, md. repeat split; assumption.
Qed.

Lemma normalization_keeps_citations_witness :
  message_content answer_with_two_files = Some "Use a sorting key.".
Proof.
  exact (proj1 (normalization_keeps_citations answer_with_two_files
                  {| message := "Use a sorting key.";
                     citations :=
                       [ {| position := 18;
                            references :=
                              [ {| name := "wiki_docs_sorting.txt";
                                   url := "https://wiki.example/doc/sorting" |};
                                {| name := "notes.txt"; url := "notes.txt" |} ] |} ] |}
                  ltac:(vm_compute; reflexivity))).
Defined.

End Normalize.

(** ** slackbot.py: the duplicate check and the thread *)

Section Gate.
Import Slackbot.

(** X15. An event that is checked and whose key is in the table is
    dropped: whatever the routing decided and whatever the processing
    would do, the call returns after one read of the table, without
    marking or processing the event, and the table stays as it is. *)
Theorem duplicate_is_dropped (event_type : string) (ev : Nest.SlackEventData) (w : world)
        (ttl : Z) :
  is_gated event_type ev = true ->
  next_call_ok w = true ->
  event_table w !! dedup_key ev = Some ttl ->
  exists w',
    (forall (run_chat_process : bool) (process_chat_request : Nest.SlackEventData -> Act unit),
       check_and_process event_type run_chat_process process_chat_request ev w = (Ok tt, w'))
    /\ event_table w' = event_table w
    /\ faults w' = tail (faults w).
Proof.
  intros Hg Hok Hin. unfold check_and_process. rewrite Hg.
  unfold next_call_ok in Hok. destruct w as [tbl fs t wl ep lg]. cbn in *.
  exists {| event_table := tbl; faults := tail fs; now := t; wall := wl; epoch_of := ep;
            log := lg |}.
  split; [|by split]. intros run_chat_process process_chat_request.
  destruct fs as [|[e|] fs]; try discriminate;
    cbv [sbind is_duplicate_request try_except get_item table_call ret faults event_table now
         wall epoch_of log];
    rewrite Hin; reflexivity.
Qed.

Lemma duplicate_is_dropped_witness :
  exists w',
    check_and_process "app_mention" true (fun _ w => (Raise throttled, w))
                      (mention "C1" "1700000000.000100")
                      {| event_table := {[ ("C1", "1700000000.000100") := 1700003600 ]};
                         faults := []; now := 1700000100; wall := fun t => t;
                         epoch_of := fun l => l; log := [] |}
    = (Ok tt, w')
    /\ event_table w' = {[ ("C1", "1700000000.000100") := 1700003600 ]}.
Proof.
  assert (Hin : event_table
                   {| event_table := {[ ("C1", "1700000000.000100") := 1700003600 ]};
                      faults := []; now := 1700000100; wall := fun t => t;
                      epoch_of := fun l => l; log := [] |}
                 !! dedup_key (mention "C1" "1700000000.000100") = Some 1700003600)
    by (vm_compute; reflexivity).
  destruct (duplicate_is_dropped "app_mention" (mention "C1" "1700000000.000100")
              {| event_table := {[ ("C1", "1700000000.000100") := 1700003600 ]};
                 faults := []; now := 1700000100; wall := fun t => t;
                 epoch_of := fun l => l; log := [] |}
              1700003600 eq_refl eq_refl Hin) as (w' & Hrun & Htable & _).
  exists w'. split; [apply Hrun | exact Htable].
Defined.

(** X16. A reaction outside a direct-message channel is not checked
    against the table: the table is not read, and an event whose key
    is marked already is marked and processed again. *)
Theorem reactions_are_not_deduplicated (event_type : string)
        (process_chat_request : Nest.SlackEventData -> Act unit)
        (ev : Nest.SlackEventData) (w : world) :
  event_type = "reaction_added" \/ event_type = "reaction_removed" ->
  Nest.is_dm ev = false ->
  check_and_process event_type true process_chat_request ev w
  = (mark_request_started ev ;;; process_chat_request ev) w.
Proof.
  intros Ht Hdm. unfold check_and_process, is_gated. rewrite Hdm.
  destruct Ht as [-> | ->]; reflexivity.
Qed.

Lemma reactions_are_not_deduplicated_witness :
  check_and_process "reaction_added" true (fun _ w => (Ok tt, w))
                    (mention "C1" "1700000000.000100") failing_world
  = (mark_request_started (mention "C1" "1700000000.000100") ;;; (fun w => (Ok tt, w)))
      failing_world.
Proof.
  exact (reactions_are_not_deduplicated "reaction_added" (fun _ w => (Ok tt, w))
           (mention "C1" "1700000000.000100") failing_world (or_introl eq_refl) eq_refl).
Defined.

(** X17. A successful mark stores the key, in place of any expiry the
    key had, and leaves every other key of the table as it was.  The
    expiry is the instant read back from the local wall clock one hour
    ahead of its present reading: that is one hour from now where the
    wall clock keeps one offset from the instants, and need not be
    otherwise. *)
Theorem mark_renews_one_key (ev : Nest.SlackEventData) (w : world) :
  next_call_ok w = true ->
  event_table (snd (mark_request_started ev w))
  = <[dedup_key ev := epoch_of w (wall w (now w) + 60 * 60)]> (event_table w)
  /\ (forall key, key <> dedup_key ev ->
        event_table (snd (mark_request_started ev w)) !! key = event_table w !! key)
  /\ (forall offset, (forall t, wall w t = t + offset) -> (forall l, epoch_of w l = l - offset) ->
        event_table (snd (mark_request_started ev w)) !! dedup_key ev
        = Some (now w + 60 * 60)).
Proof.
  intros Hok. unfold next_call_ok in Hok. destruct w as [tbl fs t wl ep lg]. cbn in Hok.
  assert (H : event_table (snd (mark_request_started ev
                                  {| event_table := tbl; faults := fs; now := t; wall := wl;
                                     epoch_of := ep; log := lg |}))
              = <[dedup_key ev := ep (wl t + 60 * 60)]> tbl).
  { destruct fs as [|[e|] fs]; try discriminate; reflexivity. }
  cbn [event_table now wall epoch_of]. split; [exact H|]. split.
  - intros key Hne. rewrite H. by apply lookup_insert_ne.
  - intros offset Hw He. rewrite H, lookup_insert_eq, Hw, He. f_equal. lia.
Qed.

Lemma mark_renews_one_key_witness :
  event_table (snd (mark_request_started (mention "C1" "1761438600.000100") fall_back_world))
  !! ("C1", "1761438600.000100") = Some (now fall_back_world + 2 * 60 * 60).
Proof.
  rewrite (proj1 (mark_renews_one_key (mention "C1" "1761438600.000100") fall_back_world
                    eq_refl)).
  vm_compute. reflexivity.
Defined.

Lemma context_line_raises (msg : slack_message) (e : exn) :
  context_line msg = Raise e -> exn_class e = "KeyError".
Proof.
  unfold context_line. destruct (0 <=? message_score msg); [|discriminate].
  destruct (user msg); cbn [subscript bind]; [|intros H; by injection H as <-].
  destruct (text msg); cbn [subscript bind]; [discriminate|intros H; by injection H as <-].
Qed.

Lemma context_loop_ok (conv : list slack_message) (ms : list Nest.Message)
      (metas : list message_metadata) :
  context_loop conv = Ok (ms, metas) ->
  metas = metadata_of <$> conv /\ Forall2 (fun msg m => context_line msg = Ok m) conv ms.
Proof.
  revert ms metas. induction conv as [|msg conv IH]; intros ms metas; cbn [context_loop].
  - intros H. injection H as <- <-. split; [reflexivity | constructor].
  - destruct (context_line msg) as [m|e] eqn:Hm; cbn [bind]; [|discriminate].
    destruct (context_loop conv) as [[ms' metas']|e] eqn:Hc; cbn [bind]; [|discriminate].
    intros H. injection H as <- <-. destruct (IH _ _ eq_refl) as [-> HF].
    split; [reflexivity | by constructor].
Qed.

Lemma context_loop_raises (conv : list slack_message) (msg : slack_message) (e : exn) :
  msg ∈ conv -> context_line msg = Raise e ->
  exists e', context_loop conv = Raise e' /\ exn_class e' = "KeyError".
Proof.
  induction conv as [|m conv IH]; intros Hin He; [by apply elem_of_nil in Hin|].
  cbn [context_loop]. destruct (context_line m) as [l|em] eqn:Hm; cbn [bind].
  - apply elem_of_cons in Hin as [->|Hin]; [congruence|].
    destruct (IH Hin He) as (e' & -> & Hc). exists e'. by split.
  - exists em. split; [reflexivity|]. by eapply context_line_raises.
Qed.

(** X18. The context of a thread has one line and one metadata record
    per message of the thread, in the order of the thread, a flagged
    message being kept as its placeholder; and one message that is not
    flagged and lacks its [user] or its [text] makes the whole call
    raise [KeyError]. *)
Theorem context_keeps_every_message (conv : list slack_message) :
  (forall ms metas, get_conversation_context (Ok conv) = Ok (ms, metas) ->
     length ms = length conv
     /\ metas = metadata_of <$> conv
     /\ Forall2 (fun msg m => context_line msg = Ok m) conv ms)
  /\ (forall msg, msg ∈ conv -> 0 <= message_score msg ->
       user msg = None \/ text msg = None ->
       exists e, get_conversation_context (Ok conv) = Raise e /\ exn_class e = "KeyError").
Proof.
  split.
  - intros ms metas H. cbn [get_conversation_context bind] in H.
    destruct (context_loop_ok _ _ _ H) as [Hm HF]. split; [|by split].
    symmetry. by eapply Forall2_length.
  - intros msg Hin Hs Hmiss. cbn [get_conversation_context bind].
    assert (He : exists e, context_line msg = Raise e).
    { unfold context_line. replace (0 <=? message_score msg) with true
        by (symmetry; by apply Z.leb_le).
      destruct Hmiss as [-> | Ht]; [by eexists|].
      destruct (user msg); cbn [subscript bind]; rewrite ?Ht; by eexists. }
    destruct He as [e He]. by eapply context_loop_raises.
Qed.

Lemma context_keeps_every_message_witness :
  exists e, get_conversation_context
              (Ok [one_down; {| ts := "1700000000.000300"; user := None; text := Some "hello";
                                bot_id := Some "B1"; reactions := [] |}])
            = Raise e /\ exn_class e = "KeyError".
Proof.
  apply (proj2 (context_keeps_every_message
                  [one_down; {| ts := "1700000000.000300"; user := None; text := Some "hello";
                                bot_id := Some "B1"; reactions := [] |}])
               {| ts := "1700000000.000300"; user := None; text := Some "hello";
                  bot_id := Some "B1"; reactions := [] |}).
  - apply elem_of_cons. right. apply list_elem_of_singleton. reflexivity.
  - vm_compute. discriminate.
  - left. reflexivity.
Defined.

End Gate.

(** ** gosling/feed.py: the bucket *)

Section Bucket.
Import Feed FeedS3.

Lemma delete_outdated_filter (b : bucket) (current : gset string) (keys : list string) :
  delete_outdated b current keys = S3Delete <$> filter (fun k => k ∉ current) keys.
Proof.
  induction keys as [|k keys IH]; [reflexivity|]. cbn [delete_outdated].
  destruct (decide (k ∉ current)) as [H|H].
  - rewrite (bool_decide_eq_true_2 _ H), filter_cons_True by exact H.
    cbn [fmap list_fmap]. destruct (delete_object b k); by rewrite IH.
  - rewrite (bool_decide_eq_false_2 _ H), filter_cons_False by exact H. exact IH.
Qed.

Lemma upload_changed_filter (b : bucket) (s3_prefix : string)
      (d : list (string * gmap string string)) (files : list FileMetadata) :
  upload_changed b s3_prefix d files
  = (fun f => S3Put (s3_key s3_prefix f) (object_metadata_of f))
      <$> filter (fun f => should_upload s3_prefix d f && can_open b f = true) files.
Proof.
  induction files as [|f files IH]; [reflexivity|]. cbn [upload_changed].
  destruct (should_upload s3_prefix d f) eqn:Hs.
  - destruct (open_file b (file_path f)) as [u|e] eqn:Ho.
    + assert (Hc : can_open b f = true) by (unfold can_open; by rewrite Ho).
      rewrite filter_cons_True by (by rewrite Hs, Hc).
      cbn [fmap list_fmap]. destruct (upload_fileobj b _ _); by rewrite IH.
    + assert (Hc : can_open b f = false) by (unfold can_open; by rewrite Ho).
      rewrite filter_cons_False; [exact IH|]. rewrite Hs, Hc. discriminate.
  - rewrite filter_cons_False; [exact IH|]. rewrite Hs. discriminate.
Qed.

(** X19. Once the listing of the bucket has succeeded the call does
    not raise, whatever the deletions and the uploads answer: it asks
    once for the deletion of each listed key of the source that no
    local file maps to, then once for the upload of each local file
    that can be opened and whose key is not listed or is listed with
    another content hash; timestamps play no part. *)
Theorem s3_changes_after_listing (b : bucket) (s3_prefix : string) (files : list FileMetadata)
        (src : string) (d : list (string * gmap string string)) :
  FeedS3.existing_files_of b src = Ok d ->
  dupsert_files_s3 b s3_prefix files src
  = (((S3Delete <$> filter (fun k => k ∉ s3_key s3_prefix <$> files) (fst <$> d)) ++
      ((fun f => S3Put (s3_key s3_prefix f) (object_metadata_of f))
         <$> filter (fun f => should_upload s3_prefix d f && can_open b f = true)
                    files))%list,
     Ok tt).
Proof.
  intros Hd. unfold dupsert_files_s3. rewrite Hd.
  rewrite delete_outdated_filter, upload_changed_filter. do 3 f_equal.
  apply list_filter_iff. intros k. by rewrite elem_of_list_to_set.
Qed.

Lemma s3_changes_after_listing_witness :
  dupsert_files_s3
    (holding [("docs/a.txt", {[ "source" := "tinybird_docs"; "content_hash" := "h1" ]});
              ("docs/old.txt", {[ "source" := "tinybird_docs"; "content_hash" := "h0" ]});
              ("docs/wiki.txt", {[ "source" := "wiki_docs"; "content_hash" := "hw" ]})])
    "docs/" [wiki_page "a.txt" "1700000000.5" "h1"; wiki_page "b.txt" "1600000000.5" "h2"]
    "tinybird_docs"
  = ([S3Delete "docs/old.txt";
      S3Put "docs/b.txt" (object_metadata_of (wiki_page "b.txt" "1600000000.5" "h2"))], Ok tt).
Proof.
  refine (eq_trans
            (s3_changes_after_listing _ "docs/" _ "tinybird_docs"
               [("docs/a.txt", {[ "source" := "tinybird_docs"; "content_hash" := "h1" ]});
                ("docs/old.txt", {[ "source" := "tinybird_docs"; "content_hash" := "h0" ]})]
               _) _);
    vm_compute; reflexivity.
Defined.

(** X20. When every local file is listed under its key with its own
    content hash, and every listed key of the source is the key of a
    local file, the call asks for no deletion and no upload. *)
Theorem s3_unchanged_inventory (b : bucket) (s3_prefix : string) (files : list FileMetadata)
        (src : string) (d : list (string * gmap string string)) :
  FeedS3.existing_files_of b src = Ok d ->
  (forall k, k ∈ fst <$> d -> k ∈ s3_key s3_prefix <$> files) ->
  (forall f, f ∈ files ->
     exists md, dict_get (s3_key s3_prefix f) d = Some md
                /\ md !! "content_hash" = Some (content_hash f)) ->
  dupsert_files_s3 b s3_prefix files src = ([], Ok tt).
Proof.
  intros Hd Hkeys Hfiles. unfold dupsert_files_s3. rewrite Hd.
  rewrite delete_outdated_filter, upload_changed_filter.
  replace (filter (fun k => k ∉ (list_to_set (s3_key s3_prefix <$> files) : gset string))
                  (fst <$> d)) with (@nil string).
  2:{ symmetry. apply elem_of_nil_inv. intros k Hk. apply list_elem_of_filter in Hk as [Hn Hk].
      apply Hn. apply elem_of_list_to_set. by apply Hkeys. }
  replace (filter (fun f => should_upload s3_prefix d f && can_open b f = true) files)
    with (@nil FileMetadata); [reflexivity|].
  symmetry. apply elem_of_nil_inv. intros f Hf. apply list_elem_of_filter in Hf as [Hu Hf].
  destruct (Hfiles f Hf) as (md & Hget & Hh). unfold should_upload in Hu.
  rewrite Hget, (bool_decide_eq_true_2 _ Hh) in Hu. discriminate.
Qed.

Lemma s3_unchanged_inventory_witness :
  dupsert_files_s3
    (holding [("docs/a.txt", {[ "source" := "tinybird_docs"; "content_hash" := "h1" ]})])
    "docs/" [wiki_page "a.txt" "1700000000.5" "h1"] "tinybird_docs"
  = ([], Ok tt).
Proof.
  apply (s3_unchanged_inventory _ "docs/" _ "tinybird_docs"
           [("docs/a.txt", {[ "source" := "tinybird_docs"; "content_hash" := "h1" ]})]).
  - vm_compute. reflexivity.
  - intros k Hk. exact Hk.
  - intros f Hf. apply list_elem_of_singleton in Hf. subst f. eexists. split; reflexivity.
Defined.

Lemma list_objects_keys (b : bucket) (src : string) (objs : list s3_object) :
  forall d0 d k,
  list_objects b src d0 objs = Ok d -> k ∈ fst <$> d ->
  k ∈ fst <$> d0
  \/ exists obj md, obj ∈ objs /\ key obj = k /\ head_object b k = Ok md
                    /\ md !! "source" = Some src.
Proof.
  induction objs as [|obj objs IH]; intros d0 d k; cbn [list_objects].
  - intros H. injection H as <-. by left.
  - unfold list_object at 1.
    destruct (head_object b (key obj)) as [md|e] eqn:Hh.
    + destruct (bool_decide (md !! "source" = Some src)) eqn:Hs; cbn [bind]; intros Hd Hk.
      * destruct (IH _ _ _ Hd Hk) as [H0|(o & m & Ho & Hko & Hho & Hso)].
        -- assert (Hin : k = key obj \/ k ∈ fst <$> d0).
           { clear -H0. induction d0 as [|[k0 v0] d0 IHd]; cbn [dict_set fmap list_fmap fst] in *.
             - apply list_elem_of_singleton in H0. by left.
             - destruct (String.eqb k0 (key obj)) eqn:E; cbn [fmap list_fmap fst] in H0.
               + apply String.eqb_eq in E. subst k0. apply elem_of_cons in H0 as [->|H0].
                 * by left.
                 * right. by apply elem_of_cons; right.
               + apply elem_of_cons in H0 as [->|H0].
                 * right. by apply elem_of_cons; left.
                 * destruct (IHd H0) as [->|H]; [by left | right; by apply elem_of_cons; right]. }
           destruct Hin as [->|Hin]; [|by left].
           right. exists obj, md. apply bool_decide_eq_true in Hs.
           repeat split; [by left | exact Hh | exact Hs].
        -- right. exists o, m. repeat split; [by right | done ..].
      * destruct (IH _ _ _ Hd Hk) as [H0|(o & m & Ho & Hko & Hho & Hso)]; [by left|].
        right. exists o, m. repeat split; [by right | done ..].
    + destruct (is_client_error e); cbn [bind]; [|discriminate]. intros Hd Hk.
      destruct (IH _ _ _ Hd Hk) as [H0|(o & m & Ho & Hko & Hho & Hso)]; [by left|].
      right. exists o, m. repeat split; [by right | done ..].
Qed.

(** X21. The call only ever asks for the deletion of a key that was
    listed, whose metadata it could read, whose [source] is the source
    being synchronised, and that is the key of no local file. *)
Theorem s3_deletes_only_its_own (b : bucket) (s3_prefix : string) (files : list FileMetadata)
        (src : string) (k : string) :
  S3Delete k ∈ fst (dupsert_files_s3 b s3_prefix files src) ->
  (exists obj md, obj ∈ concat (pages b) /\ key obj = k /\ head_object b k = Ok md
                  /\ md !! "source" = Some src)
  /\ k ∉ s3_key s3_prefix <$> files.
Proof.
  unfold dupsert_files_s3.
  destruct (FeedS3.existing_files_of b src) as [d|e] eqn:Hd; cbn [fst];
    [|intros H; by apply elem_of_nil in H].
  rewrite delete_outdated_filter, upload_changed_filter. intros H.
  apply elem_of_app in H as [H|H].
  - apply list_elem_of_fmap in H as (k' & Heq & Hk). injection Heq as <-.
    apply list_elem_of_filter in Hk as [Hn Hk]. split.
    + unfold FeedS3.existing_files_of in Hd.
      destruct (list_objects b src [] (concat (pages b))) as [d'|e] eqn:Hl; cbn [bind] in Hd;
        [|discriminate].
      destruct (pages_error b); [discriminate|]. injection Hd as ->.
      destruct (list_objects_keys _ _ _ _ _ _ Hl Hk) as [H0|H1]; [by apply elem_of_nil in H0|].
      exact H1.
    + intros Hin. apply Hn. by apply elem_of_list_to_set.
  - apply list_elem_of_fmap in H as (f & Heq & _). discriminate.
Qed.

Lemma s3_deletes_only_its_own_witness :
  "docs/old.txt" ∉ s3_key "docs/" <$> [wiki_page "a.txt" "1700000000.5" "h1"].
Proof.
  apply (s3_deletes_only_its_own
           (holding [("docs/a.txt", {[ "source" := "tinybird_docs"; "content_hash" := "h1" ]});
                     ("docs/old.txt", {[ "source" := "tinybird_docs"; "content_hash" := "h0" ]})])
           "docs/" [wiki_page "a.txt" "1700000000.5" "h1"] "tinybird_docs" "docs/old.txt").
  vm_compute. apply list_elem_of_singleton. reflexivity.
Defined.

End Bucket.

(** ** slackbot.py: parsing *)

Section Parsing.
Import Slackbot.

(** X22. For a mention or a message that was edited, the record takes
    its text and its timestamp from the nested message, not from the
    outer payload: the text is the nested text, or empty when there is
    none, and the thread is the event's own thread when it names one
    and the nested timestamp otherwise. *)
Theorem edited_message_is_parsed_from_nested
        (conversations_replies : string -> string -> result (list slack_message))
        (event_type : string) (event_data : raw_event) (context : option bolt_context)
        (m : raw_message) (s c u : string) :
  event_type = "app_mention" \/ event_type = "message" ->
  subtype event_data = Some "message_changed" ->
  ev_message event_data = Some m ->
  msg_ts m = Some s ->
  ev_channel event_data = Some c ->
  ev_user event_data = Some u ->
  exists r, parse_slack_event conversations_replies event_type event_data context = Ok r
            /\ r_text r = default "" (msg_text m)
            /\ r_event_ts r = Some s
            /\ r_thread_ts r = (if truthy_opt (ev_thread_ts event_data)
                                then ev_thread_ts event_data else Some s)
            /\ r_channel_id r = c /\ r_user_id r = u
            /\ r_is_dm r = String.prefix "D" c.
Proof.
  intros Ht Hsub Hm Hs Hc Hu. unfold parse_slack_event.
  replace (existsb (String.eqb event_type) ["app_mention"; "message"]) with true
    by (destruct Ht as [-> | ->]; reflexivity).
  unfold ts_key, text_key. rewrite (bool_decide_eq_true_2 _ Hsub), Hm, Hc, Hu.
  cbn [mbind option_bind subscript bind]. rewrite Hs. cbn [subscript bind].
  destruct (truthy_opt (ev_thread_ts event_data)); cbn [bind]; eexists; repeat split.
Qed.

Lemma edited_message_is_parsed_from_nested_witness :
  exists r, parse_slack_event (fun _ _ => Ok []) "message" edited_event None = Ok r
            /\ r_text r = "<@UBOT> how do I sort by date?"
            /\ r_event_ts r = Some "1700000000.000100"
            /\ r_thread_ts r = Some "1700000000.000100"
            /\ r_channel_id r = "D42" /\ r_user_id r = "U123"
            /\ r_is_dm r = true.
Proof.
  exact (edited_message_is_parsed_from_nested (fun _ _ => Ok []) "message" edited_event None
           {| msg_text := Some "<@UBOT> how do I sort by date?";
              msg_ts := Some "1700000000.000100" |}
           "1700000000.000100" "D42" "U123"
           (or_intror eq_refl) eq_refl eq_refl eq_refl eq_refl eq_refl).
Defined.

Lemma find_target (conv pre post : list slack_message) (msg : slack_message) (its : string) :
  conv = (pre ++ msg :: post)%list ->
  (forall m, m ∈ pre -> ts m <> its) -> ts msg = its ->
  list_find (fun meta => meta_ts meta = its) (metadata_of <$> conv)
  = Some (length pre, metadata_of msg).
Proof.
  intros -> Hpre Hts. apply list_find_Some. split; [|split].
  - rewrite list_lookup_fmap, list_lookup_middle by reflexivity. reflexivity.
  - exact Hts.
  - intros j y Hj Hlt. rewrite list_lookup_fmap, lookup_app_l in Hj by exact Hlt.
    destruct (pre !! j) as [m|] eqn:E; [|discriminate]. injection Hj as <-.
    apply Hpre. by eapply list_elem_of_lookup_2.
Qed.

Lemma find_no_target (conv : list slack_message) (its : string) :
  (forall m, m ∈ conv -> ts m <> its) ->
  list_find (fun meta => meta_ts meta = its) (metadata_of <$> conv) = None.
Proof.
  intros H. apply list_find_None. apply Forall_forall. intros meta Hin.
  apply list_elem_of_fmap in Hin as (m & -> & Hm). by apply H.
Qed.

(** X23. For a reaction the record describes the message that was
    reacted to: when the thread holds a message with the item's
    timestamp, the text, the bot flag, the reaction names and the
    score are those of the first such message; when it holds none, the
    record is returned as built from the payload, with an empty
    context and a score of 0, and no error is raised. *)
Theorem reaction_is_resolved_to_its_message
        (conversations_replies : string -> string -> result (list slack_message))
        (event_type : string) (event_data : raw_event) (context : option bolt_context)
        (item : raw_item) (its c u rx : string) (conv : list slack_message)
        (ms : list Nest.Message) (metas : list message_metadata) :
  event_type = "reaction_added" \/ event_type = "reaction_removed" ->
  ev_item event_data = Some item ->
  item_ts item = Some its -> item_channel item = Some c ->
  item_user event_data = Some u -> ev_reaction event_data = Some rx ->
  conversations_replies c its = Ok conv ->
  get_conversation_context (Ok conv) = Ok (ms, metas) ->
  exists r, parse_slack_event conversations_replies event_type event_data context = Ok r
    /\ r_event_ts r = Some its /\ r_user_id r = u
    /\ r_response r = "reaction_" +:+ event_type +:+ ":" +:+ rx
    /\ (forall pre msg post, conv = (pre ++ msg :: post)%list ->
          (forall m, m ∈ pre -> ts m <> its) -> ts msg = its ->
          r_text r = default "" (text msg) /\ r_is_bot r = truthy_opt (bot_id msg)
          /\ r_score r = message_score msg /\ r_reactions r = name <$> reactions msg
          /\ r_context r = ms)
    /\ ((forall m, m ∈ conv -> ts m <> its) ->
        r_text r = default "" (item_text item) /\ r_is_bot r = false /\ r_score r = 0
        /\ r_context r = []).
Proof.
  intros Ht Hitem Hits Hch Hu Hrx Hconv Hctx.
  assert (Hmetas : metas = metadata_of <$> conv).
  { cbn [get_conversation_context bind] in Hctx. by destruct (context_loop_ok _ _ _ Hctx). }
  unfold parse_slack_event.
  replace (existsb (String.eqb event_type) ["app_mention"; "message"]) with false
    by (destruct Ht as [-> | ->]; reflexivity).
  replace (String.eqb event_type "honk") with false by (destruct Ht as [-> | ->]; reflexivity).
  replace (existsb (String.eqb event_type) ["reaction_added"; "reaction_removed"]) with true
    by (destruct Ht as [-> | ->]; reflexivity).
  cbn zeta. rewrite Hitem, Hu, Hrx. cbn [mbind option_bind]. rewrite Hits, Hch.
  cbn [subscript bind]. rewrite Hconv, Hctx. cbn [bind]. subst metas.
  destruct (list_find (fun meta => meta_ts meta = its) (metadata_of <$> conv))
    as [[i target]|] eqn:Hfind;
    (eexists; split; [reflexivity|]);
    cbn [r_event_ts r_user_id r_response r_text r_is_bot r_score r_reactions r_context];
    (split; [reflexivity|]); (split; [reflexivity|]); (split; [reflexivity|]); split.
  - intros pre msg post Hdec Hpre Hts.
    rewrite (find_target conv pre post msg its Hdec Hpre Hts) in Hfind.
    injection Hfind as _ <-. repeat split.
  - intros Hnone. rewrite (find_no_target conv its Hnone) in Hfind. discriminate.
  - intros pre msg post Hdec Hpre Hts.
    rewrite (find_target conv pre post msg its Hdec Hpre Hts) in Hfind. discriminate.
  - intros _. repeat split.
Qed.

Lemma reaction_is_resolved_to_its_message_witness :
  exists r, parse_slack_event (fun _ _ => Ok [two_up_one_down; one_down]) "reaction_added"
                              reaction_event None = Ok r
            /\ r_text r = "just drop the table" /\ r_score r = -1.
Proof.
  assert (Hctx : get_conversation_context (Ok [two_up_one_down; one_down])
                 = Ok ([Nest.user_message "U123: try a materialized view";
                        Nest.user_message "[Response marked as incorrect]"],
                       metadata_of <$> [two_up_one_down; one_down]))
    by (vm_compute; reflexivity).
  destruct (reaction_is_resolved_to_its_message
              (fun _ _ => Ok [two_up_one_down; one_down]) "reaction_added" reaction_event None
              {| item_type := Some "message"; item_ts := Some "1700000000.000200";
                 item_channel := Some "C1"; item_text := None |}
              "1700000000.000200" "C1" "U456" "x" [two_up_one_down; one_down]
              [Nest.user_message "U123: try a materialized view";
               Nest.user_message "[Response marked as incorrect]"]
              (metadata_of <$> [two_up_one_down; one_down])
              (or_introl eq_refl) eq_refl eq_refl eq_refl eq_refl eq_refl eq_refl Hctx)
    as (r & Hr & _ & _ & _ & Hfound & _).
  exists r. split; [exact Hr|].
  destruct (Hfound [two_up_one_down] one_down [] eq_refl) as (Ht & _ & Hs & _).
  - intros m Hm. apply list_elem_of_singleton in Hm. subst m. discriminate.
  - reflexivity.
  - rewrite Ht, Hs. split; vm_compute; reflexivity.
Defined.

(** X24. An event kind other than a mention, a message, the command
    and the two reaction kinds makes parsing raise [ValueError],
    whatever the payload holds. *)
Theorem unexpected_event_kind_raises
        (conversations_replies : string -> string -> result (list slack_message))
        (event_type : string) (event_data : raw_event) (context : option bolt_context) :
  event_type ∉ ["app_mention"; "message"; "honk"; "reaction_added"; "reaction_removed"] ->
  parse_slack_event conversations_replies event_type event_data context
  = Raise (Exn "ValueError" ("Unexpected Message Type: " +:+ event_type)).
Proof.
  intros H. unfold parse_slack_event.
  assert (Hne : forall k, k ∈ ["app_mention"; "message"; "honk"; "reaction_added";
                               "reaction_removed"] -> String.eqb event_type k = false).
  { intros k Hk. apply String.eqb_neq. intros ->. contradiction. }
  cbn [existsb]. rewrite !Hne by (repeat (apply elem_of_cons; (by left) || right)).
  reflexivity.
Qed.

Lemma unexpected_event_kind_raises_witness :
  parse_slack_event (fun _ _ => Ok []) "member_joined_channel" plain_event None
  = Raise (Exn "ValueError" "Unexpected Message Type: member_joined_channel").
Proof.
  apply (unexpected_event_kind_raises (fun _ _ => Ok []) "member_joined_channel" plain_event None).
  intros H. repeat (apply elem_of_cons in H as [H|H]; [discriminate|]).
  by apply elem_of_nil in H.
Defined.

End Parsing.

(** ** slackbot.py: answering *)

Section Answering.
Import Slackbot.

Lemma process_chat_request_unfold (sv : services) (event_data : event_record) :
  truthy (r_text event_data) = true ->
  process_chat_request sv event_data
  = chat_try
      (chat_bind (chat_lift (thread_of sv event_data))
         (fun '(thread_context, _) =>
       let conversation_context := with_question thread_context (r_text event_data) in
       chat_bind (send_tinybird conversation_context) (fun _ =>
       chat_bind (send_slack sv event_data
                             (Some (LOADING_MESSAGE +:+ nl +:+ "> " +:+ r_text event_data)))
                 (fun _ =>
       if String.eqb (lower (str_strip (r_text event_data))) "feed" then
         chat_try
           (chat_bind (send_slack sv event_data (Some RAG_STARTING)) (fun _ =>
            chat_bind (record_call RagUpdate) (fun _ =>
            chat_bind (chat_lift (handle_rag_update sv)) (fun _ =>
            send_slack sv event_data (Some RAG_DONE)))))
           (fun e => send_slack sv event_data (Some (RAG_FAILED +:+ str_exn e)))
       else
         chat_bind (record_call (Query conversation_context)) (fun _ =>
         let answer := get_provider_response (chat sv) (str_response sv)
                                             conversation_context in
         chat_bind (send_slack sv event_data (Some answer)) (fun _ =>
         send_tinybird conversation_context))))))
      (fun e => send_slack sv event_data (Some ("Sorry, I encountered an error: " +:+ str_exn e))).
Proof.
  intros Ht. unfold process_chat_request, thread_of. rewrite Ht. cbn [negb].
  destruct (negb (r_ephemeral event_data) && truthy_opt (r_thread_ts event_data)); reflexivity.
Qed.

(** One call to [send_slack]: one call to Slack, with the text given
    unless it is empty. *)
Lemma send_slack_calls (sv : services) (event_data : event_record) (text : string)
      (st : chat_state) :
  truthy text = true ->
  exists c, calls (snd (send_slack sv event_data (Some text) st)) = (calls st ++ [c])%list
            /\ text_of_call c = Some text
            /\ fst (send_slack sv event_data (Some text) st)
               = match slack_api sv (length (calls st)) with
                 | Ok _ => Ok tt
                 | Raise e => Raise e
                 end.
Proof.
  intros Ht. unfold send_slack. cbn [truthy_opt from_option Datatypes.id]. rewrite Ht.
  destruct (truthy_opt (update_ts st)),
           (r_is_dm event_data || negb (truthy (r_user_id event_data))),
           (slack_api sv (length (calls st))); eexists; repeat split.
Qed.

(** X25. When the event has no text, one notice is sent and nothing
    else happens; a failure to send it is raised.  When the thread
    cannot be fetched, the error is caught and one apology with the
    error's text is sent: no request goes to the backend or to the
    analytics. *)
Theorem nothing_to_ask (sv : services) (event_data : event_record) :
  (truthy (r_text event_data) = false ->
   text_of_call <$> calls (snd (process_chat_request sv event_data (fresh event_data)))
   = [Some "Looks like you didn't provide a prompt. Try again."]
   /\ fst (process_chat_request sv event_data (fresh event_data))
      = match slack_api sv 0 with Ok _ => Ok tt | Raise e => Raise e end)
  /\ (forall e, truthy (r_text event_data) = true ->
       thread_of sv event_data = Raise e ->
       text_of_call <$> calls (snd (process_chat_request sv event_data (fresh event_data)))
       = [Some ("Sorry, I encountered an error: " +:+ str_exn e)]
       /\ fst (process_chat_request sv event_data (fresh event_data))
          = match slack_api sv 0 with Ok _ => Ok tt | Raise e' => Raise e' end).
Proof.
  split.
  - intros Ht. unfold process_chat_request. rewrite Ht. cbn [negb].
    destruct (send_slack_calls sv event_data
                "Looks like you didn't provide a prompt. Try again." (fresh event_data) eq_refl)
      as (c & Hc & Htext & Hres).
    rewrite Hc, Hres. cbn. by rewrite Htext.
  - intros e Ht He. rewrite (process_chat_request_unfold _ _ Ht).
    unfold chat_try, chat_bind, chat_lift. rewrite He.
    destruct (send_slack_calls sv event_data ("Sorry, I encountered an error: " +:+ str_exn e)
                (fresh event_data) eq_refl) as (c & Hc & Htext & Hres).
    rewrite Hc, Hres. cbn. by rewrite Htext.
Qed.

Lemma nothing_to_ask_witness :
  text_of_call <$> calls (snd (process_chat_request working (question "C1" "" "1700000000.000100" "")
                                 (fresh (question "C1" "" "1700000000.000100" ""))))
  = [Some "Looks like you didn't provide a prompt. Try again."].
Proof.
  exact (proj1 (proj1 (nothing_to_ask working (question "C1" "" "1700000000.000100" ""))
                      eq_refl)).
Defined.

Lemma send_slack_post (sv : services) (event_data : event_record) (text : string)
      (st : chat_state) (r : option string) :
  truthy_opt (update_ts st) = false ->
  r_is_dm event_data || negb (truthy (r_user_id event_data)) = true ->
  slack_api sv (length (calls st)) = Ok r ->
  send_slack sv event_data (Some text) st
  = (Ok tt,
     {| update_ts := r; response := if truthy text then text else response st;
        calls := calls st ++ [PostMessage (r_channel_id event_data)
                                          (if truthy text then text else response st)
                                          (r_thread_ts event_data)] |}).
Proof.
  intros Hu Ho Ha. unfold send_slack. rewrite Hu, Ho, Ha.
  cbn [truthy_opt from_option Datatypes.id]. reflexivity.
Qed.

Lemma send_slack_update (sv : services) (event_data : event_record) (text t : string)
      (st : chat_state) (r : option string) :
  update_ts st = Some t -> truthy t = true ->
  slack_api sv (length (calls st)) = Ok r ->
  send_slack sv event_data (Some text) st
  = (Ok tt,
     {| update_ts := Some t; response := if truthy text then text else response st;
        calls := calls st ++ [ChatUpdate (r_channel_id event_data) t
                                         (if truthy text then text else response st)] |}).
Proof.
  intros Hu Ht Ha. unfold send_slack. rewrite Hu, Ha.
  cbn [truthy_opt from_option Datatypes.id]. rewrite Ht. reflexivity.
Qed.

(** X26. A question posted where the bot answers in the open (a direct
    message, or an event whose user was cleared) gets one message:
    the loading text is posted, Slack gives the message a timestamp,
    and the answer is written over that message instead of being
    posted as a second one.  An empty answer leaves the loading text. *)
Theorem answer_replaces_loading_message
        (sv : services) (event_data : event_record) (ms : list Nest.Message)
        (metas : list message_metadata) (t : string) :
  truthy (r_text event_data) = true ->
  String.eqb (lower (str_strip (r_text event_data))) "feed" = false ->
  r_is_dm event_data || negb (truthy (r_user_id event_data)) = true ->
  thread_of sv event_data = Ok (ms, metas) ->
  slack_api sv 1 = Ok (Some t) -> truthy t = true ->
  (exists r, slack_api sv 3 = Ok r) ->
  let conversation := with_question ms (r_text event_data) in
  let lines := (fun msg => Nest.role msg +:+ ": " +:+ Nest.content msg) <$> conversation in
  let loading := LOADING_MESSAGE +:+ nl +:+ "> " +:+ r_text event_data in
  let answer := get_provider_response (chat sv) (str_response sv) conversation in
  let shown := if truthy answer then answer else loading in
  process_chat_request sv event_data (fresh event_data)
  = (Ok tt,
     {| update_ts := Some t; response := shown;
        calls := [ Tinybird (r_response event_data) lines;
                   PostMessage (r_channel_id event_data) loading (r_thread_ts event_data);
                   Query conversation;
                   ChatUpdate (r_channel_id event_data) t shown;
                   Tinybird shown lines ] |}).
Proof.
  intros Ht Hfeed Hopen Hthread Hpost Htt [r Hupd]. cbn zeta.
  rewrite (process_chat_request_unfold _ _ Ht).
  unfold chat_try, chat_bind, chat_lift. rewrite Hthread, Hfeed.
  unfold send_tinybird, record_call, fresh. cbn [calls update_ts response app].
  rewrite send_slack_post with (r := Some t);
    [ | reflexivity | exact Hopen | exact Hpost ].
  cbn [calls update_ts response app].
  rewrite send_slack_update with (t := t) (r := r);
    [ | reflexivity | exact Htt | exact Hupd ].
  cbn [calls update_ts response app]. reflexivity.
Qed.

Lemma answer_replaces_loading_message_witness :
  text_of_call <$> calls (snd (process_chat_request working
                                 (question "C1" "" "1700000000.000100" "how do I sort?")
                                 (fresh (question "C1" "" "1700000000.000100" "how do I sort?"))))
  = [None; Some (LOADING_MESSAGE +:+ nl +:+ "> how do I sort?"); None;
     Some "Use a sorting key."; None].
Proof.
  rewrite (answer_replaces_loading_message working
             (question "C1" "" "1700000000.000100" "how do I sort?")
             [Nest.user_message "U123: how do I sort?"]
             [metadata_of {| ts := "1700000000.000100"; user := Some "U123";
                             text := Some "how do I sort?"; bot_id := None; reactions := [] |}]
             "1700000000.000500" eq_refl eq_refl eq_refl eq_refl eq_refl eq_refl
             (ex_intro _ (Some "1700000000.000500") eq_refl)).
  reflexivity.
Defined.


(** Whatever is sent and however Slack answers, a call to [send_slack]
    is one call to Slack. *)
Lemma send_slack_step (sv : services) (event_data : event_record) (new_response : option string)
      (st : chat_state) :
  exists c t, calls (snd (send_slack sv event_data new_response st)) = (calls st ++ [c])%list
              /\ text_of_call c = Some t
              /\ fst (send_slack sv event_data new_response st)
                 = match slack_api sv (length (calls st)) with
                   | Ok _ => Ok tt
                   | Raise e => Raise e
                   end.
Proof.
  unfold send_slack.
  destruct (truthy_opt (update_ts st)),
           (r_is_dm event_data || negb (truthy (r_user_id event_data))),
           (slack_api sv (length (calls st))); eexists; eexists; repeat split.
Qed.

Lemma send_slack_queries (sv : services) (event_data : event_record)
      (new_response : option string) (st : chat_state) :
  queries_of (calls (snd (send_slack sv event_data new_response st))) = queries_of (calls st).
Proof.
  destruct (send_slack_step sv event_data new_response st) as (c & t & Hc & Ht & _).
  rewrite Hc. unfold queries_of. rewrite omap_app. cbn.
  destruct c; try discriminate; by rewrite app_nil_r.
Qed.

Lemma with_question_last (ms : list Nest.Message) (text : string) :
  Nest.content <$> last (with_question ms text) = Some text.
Proof.
  unfold with_question. destruct (last ms) as [m|] eqn:Hl.
  - destruct (String.eqb (Nest.content m) text) eqn:He; cbn [negb].
    + rewrite Hl. cbn. f_equal. by apply String.eqb_eq.
    + by rewrite last_snoc.
  - by rewrite last_snoc.
Qed.

Lemma queries_of_app (cs cs' : list call) :
  queries_of (cs ++ cs') = (queries_of cs ++ queries_of cs')%list.
Proof. apply omap_app. Qed.

Ltac send_step :=
  match goal with
  | |- context [send_slack ?sv ?ev ?r ?st] =>
      let Hq := fresh "Hq" in
      let Hr := fresh "Hr" in
      pose proof (send_slack_queries sv ev r st) as Hq;
      destruct (send_slack_step sv ev r st) as (_ & _ & _ & _ & Hr);
      destruct (send_slack sv ev r st) as [? ?];
      cbn [fst snd calls app length] in Hq, Hr; subst
  end.

Ltac run_chat :=
  repeat first
    [ progress cbn [fst snd calls update_ts response andb negb]
    | progress unfold record_call, send_tinybird
    | send_step
    | match goal with
      | |- context [match slack_api ?sv ?n with _ => _ end] => destruct (slack_api sv n)
      | |- context [match handle_rag_update ?sv with _ => _ end] =>
          destruct (handle_rag_update sv)
      end ];
  repeat first
    [ rewrite queries_of_app
    | match goal with H : queries_of _ = _ |- _ => rewrite H; clear H end ];
  try reflexivity.

(** X27.  The backend is asked at most once for an event, and only
    when the event has a text other than the update command, its
    thread could be read and the loading message could be sent; the
    conversation it is asked about is then the thread followed by the
    question, and always ends with the question, whatever Slack and
    the update of the index do afterwards. *)
Theorem backend_is_asked_once_with_the_question (sv : services) (event_data : event_record) :
  queries_of (calls (snd (process_chat_request sv event_data (fresh event_data))))
  = match thread_of sv event_data, slack_api sv 1 with
    | Ok (ms, _), Ok _ =>
        if truthy (r_text event_data)
           && negb (String.eqb (lower (str_strip (r_text event_data))) "feed")
        then [with_question ms (r_text event_data)]
        else []
    | _, _ => []
    end
  /\ forall ms, Nest.content <$> last (with_question ms (r_text event_data))
                = Some (r_text event_data).
Proof.
  split; [| intros ms; apply with_question_last].
  destruct (truthy (r_text event_data)) eqn:Ht.
  - rewrite (process_chat_request_unfold _ _ Ht).
    unfold chat_try, chat_bind, chat_lift.
    destruct (thread_of sv event_data) as [[ms metas]|e].
    + unfold send_tinybird at 1. unfold record_call at 1. unfold fresh.
      cbn [calls update_ts response app].
      send_step. destruct (slack_api sv 1) as [o|e].
      * destruct (String.eqb (lower (str_strip (r_text event_data))) "feed");
          run_chat.
      * run_chat.
    + unfold fresh. run_chat.
  - unfold process_chat_request, fresh. rewrite Ht. cbn [negb andb].
    send_step. cbn [snd]. rewrite Hq.
    destruct (thread_of sv event_data) as [[ms metas]|e], (slack_api sv 1); reflexivity.
Qed.

Lemma send_slack_ok (sv : services) (event_data : event_record) (text : string)
      (st : chat_state) :
  (forall n, exists r, slack_api sv n = Ok r) ->
  truthy text = true ->
  exists c st', send_slack sv event_data (Some text) st = (Ok tt, st')
                /\ calls st' = (calls st ++ [c])%list
                /\ text_of_call c = Some text
                /\ response st' = text.
Proof.
  intros Hs Ht. destruct (Hs (length (calls st))) as [r Hr].
  unfold send_slack. cbn [truthy_opt from_option Datatypes.id]. rewrite Ht, Hr.
  destruct (truthy_opt (update_ts st)),
           (r_is_dm event_data || negb (truthy (r_user_id event_data)));
    eexists; eexists; (split; [reflexivity|]); (split; [reflexivity|]); split; reflexivity.
Qed.

Lemma feed_has_text (text : string) :
  String.eqb (lower (str_strip text)) "feed" = true -> truthy text = true.
Proof. destruct text; [discriminate | reflexivity]. Qed.

(** X28.  The update command, when Slack works.  Five calls are made,
    in this order: the analytics record of the request, the loading
    message, the notice that the update starts, the update of the
    index, and a last message with the outcome: success, or the failure
    with the text of its error.  So the index is updated once, a failed
    update is reported and not raised, and the backend is not asked
    anything. *)
Theorem index_update_is_reported (sv : services) (event_data : event_record)
        (ms : list Nest.Message) (metas : list message_metadata) :
  String.eqb (lower (str_strip (r_text event_data))) "feed" = true ->
  thread_of sv event_data = Ok (ms, metas) ->
  (forall n, exists r, slack_api sv n = Ok r) ->
  let lines := (fun msg => Nest.role msg +:+ ": " +:+ Nest.content msg)
                 <$> with_question ms (r_text event_data) in
  let outcome := match handle_rag_update sv with
                 | Ok _ => RAG_DONE
                 | Raise e => RAG_FAILED +:+ str_exn e
                 end in
  exists loading starting ending st,
    process_chat_request sv event_data (fresh event_data) = (Ok tt, st)
    /\ calls st = [ Tinybird (r_response event_data) lines; loading; starting; RagUpdate;
                    ending ]
    /\ text_of_call loading = Some (LOADING_MESSAGE +:+ nl +:+ "> " +:+ r_text event_data)
    /\ text_of_call starting = Some RAG_STARTING
    /\ text_of_call ending = Some outcome
    /\ response st = outcome.
Proof.
  intros Hfeed Hthread Hs. cbn zeta.
  rewrite (process_chat_request_unfold _ _ (feed_has_text _ Hfeed)).
  unfold chat_try, chat_bind, chat_lift. rewrite Hthread, Hfeed.
  unfold send_tinybird, record_call, fresh. cbn [calls update_ts response app].
  match goal with |- context [send_slack sv event_data (Some ?x) ?st] =>
    destruct (send_slack_ok sv event_data x st Hs eq_refl) as (c1 & st1 & -> & Hc1 & Ht1 & _)
  end.
  destruct (send_slack_ok sv event_data RAG_STARTING st1 Hs eq_refl)
    as (c2 & st2 & -> & Hc2 & Ht2 & _).
  cbn [calls update_ts response app].
  destruct (handle_rag_update sv) as [[]|e];
    match goal with |- context [send_slack sv event_data (Some ?x) ?st] =>
      destruct (send_slack_ok sv event_data x st Hs eq_refl)
        as (c3 & st3 & -> & Hc3 & Ht3 & Hr3)
    end;
    exists c1, c2, c3, st3; cbn [calls] in *; rewrite Hc3, Hc2, Hc1; cbn [app];
    repeat (split; [done|]); done.
Qed.

Lemma index_update_is_reported_witness :
  exists loading starting ending st,
    process_chat_request working (question "C1" "" "1700000000.000100" " Feed ")
                         (fresh (question "C1" "" "1700000000.000100" " Feed "))
    = (Ok tt, st)
    /\ calls st = [ Tinybird "" ["user: U123: how do I sort?"; "user:  Feed "];
                    loading; starting; RagUpdate; ending ]
    /\ text_of_call ending = Some RAG_DONE.
Proof.
  assert (Hth : thread_of working (question "C1" "" "1700000000.000100" " Feed ")
                = Ok ([Nest.user_message "U123: how do I sort?"],
                      [metadata_of {| ts := "1700000000.000100"; user := Some "U123";
                                      text := Some "how do I sort?"; bot_id := None;
                                      reactions := [] |}]))
    by (vm_compute; reflexivity).
  destruct (index_update_is_reported working
              (question "C1" "" "1700000000.000100" " Feed ") _ _ eq_refl Hth
              (fun n => ex_intro _ (Some "1700000000.000500") eq_refl))
    as (loading & starting & ending & st & Hrun & Hcalls & _ & _ & Hend & _).
  exists loading, starting, ending, st. split; [exact Hrun|]. split; [exact Hcalls | exact Hend].
Defined.

End Answering.

(** ** slackbot.py: access checks *)

Section Access.
Import Slackbot.

(** X29.  An event that was parsed and is not a dropped bot message
    goes through two checks.  The one thing done before them is the
    analytics record of a reaction to a bot message.  When the channel
    cannot be verified, the event is dropped without an error; the user
    is told only when the error's text, in lower case, mentions
    [operation_timeout], and a failure to tell is swallowed.  When the
    channel was verified but is not on the allow list (and the list is
    not the single entry [*]), the function raises [AttributeError],
    because it sends the refusal through the payload dict: no refusal
    reaches Slack.  In both cases what follows the checks is not run. *)
Theorem event_that_fails_the_access_checks
        (sv : services) (ac : access) (event_type : string) (event_data : raw_event)
        (context : option bolt_context) (check_and_process : event_record -> Chat unit)
        (slack_data : event_record) :
  (is_reaction event_type = true -> ev_item event_data ≫= item_type = Some "message") ->
  parse_slack_event (conversations_replies sv) event_type event_data context = Ok slack_data ->
  r_is_bot slack_data && negb (is_reaction event_type) = false ->
  let out := process_slack_event sv ac event_type event_data context check_and_process in
  let analytics :=
    if r_is_bot slack_data
    then [ Tinybird (r_response slack_data)
                    ((fun msg => Nest.role msg +:+ ": " +:+ Nest.content msg)
                       <$> r_context slack_data) ]
    else [] in
  (forall e, access_check ac slack_data = Raise e ->
     fst out = Ok tt
     /\ exists notice,
          snd out = (analytics ++ notice)%list
          /\ text_of_call <$> notice
             = if contains "operation_timeout" (lower (str_exn e))
               then [Some TIMED_OUT] else [])
  /\ (forall channel, access_check ac slack_data = Ok channel ->
        allowed_channels ac <> ["*"] -> channel ∉ allowed_channels ac ->
        out = (Raise (Exn "AttributeError" "'dict' object has no attribute 'send_slack'"),
               analytics)).
Proof.
  intros Hitem Hparse Hbot. cbn zeta.
  assert (Hpre : negb (bool_decide (ev_item event_data ≫= item_type = Some "message"))
                 && is_reaction event_type = false).
  { destruct (is_reaction event_type); [| apply andb_false_r].
    by rewrite (bool_decide_eq_true_2 _ (Hitem eq_refl)). }
  unfold process_slack_event. rewrite Hpre, Hparse, Hbot.
  unfold verify_channel_access, chat_bind, chat_try, chat_lift, chat_ret, fresh. split.
  - intros e He. rewrite He.
    destruct (contains "operation_timeout" (lower (str_exn e))).
    + destruct (r_is_bot slack_data); unfold send_tinybird, record_call;
        cbn [calls update_ts response app];
        match goal with |- context [send_slack sv slack_data (Some TIMED_OUT) ?st] =>
          destruct (send_slack_calls sv slack_data TIMED_OUT st eq_refl) as (c & Hc & Ht & _);
          destruct (send_slack sv slack_data (Some TIMED_OUT) st) as [[[]|e'] st']
        end; cbn [fst snd calls negb app] in *; (split; [reflexivity|]);
        exists [c]; rewrite Hc; cbn [fmap list_fmap]; by rewrite Ht.
    + destruct (r_is_bot slack_data); cbn; (split; [reflexivity|]); by exists [].
  - intros channel Hch Hstar Hout. rewrite Hch.
    destruct (r_is_bot slack_data); unfold send_tinybird, record_call;
      cbn [calls update_ts response app negb with_channel r_channel_id];
      rewrite (bool_decide_eq_false_2 _ Hstar), (bool_decide_eq_false_2 _ Hout); by cbn.
Qed.

Lemma event_that_fails_the_access_checks_witness :
  process_slack_event working open_access "app_mention" other_event None
                      (process_chat_request working)
  = (Raise (Exn "AttributeError" "'dict' object has no attribute 'send_slack'"), []).
Proof.
  assert (Hparse : parse_slack_event (conversations_replies working) "app_mention" other_event
                                     None
                   = Ok (question "C7" "U123" "1700000000.000100" "<@UBOT> how do I sort?"))
    by (vm_compute; reflexivity).
  assert (Hstar : allowed_channels open_access <> ["*"]) by (vm_compute; discriminate).
  assert (Hout : "C7" ∉ allowed_channels open_access)
    by (apply (bool_decide_eq_false_1 _); vm_compute; reflexivity).
  assert (Hitem : is_reaction "app_mention" = true ->
                  ev_item other_event ≫= item_type = Some "message")
    by (intros H; discriminate H).
  exact (proj2 (event_that_fails_the_access_checks working open_access "app_mention"
                  other_event None (process_chat_request working) _ Hitem Hparse eq_refl)
               "C7" eq_refl Hstar Hout).
Defined.

End Access.

(** ** gosling/feed.py: fetching the documentation file *)

Section Fetch.
Import Llms.

(** X30.  The documentation file is requested at most three times.
    A request is repeated only after an error of the requests
    library, after a pause of one second and then of two; any other
    error is raised at once.  The outcome is that of the last request
    made, so after three failures the third error is raised as it
    is. *)
Theorem fetch_gives_up_after_three_requests (get : nat -> result string) :
  exists k, (k < 3)%nat
    /\ (forall i, (i < k)%nat -> is_retried (get i) = true)
    /\ ((k < 2)%nat -> is_retried (get k) = false)
    /\ fetch get = (retries k 1, get k).
Proof.
  unfold fetch, max_retries. cbn [fetch_loop Nat.eqb Nat.sub].
  destruct (get 0%nat) as [t0|e0] eqn:H0.
  { exists 0%nat. split; [lia|]. split; [intros; lia|]. split; by rewrite H0. }
  destruct (is_request_exception e0) eqn:R0.
  2:{ exists 0%nat. split; [lia|]. split; [intros; lia|]. split; by rewrite H0. }
  assert (Hfirst : forall i, (i < 1)%nat -> is_retried (get i) = true).
  { intros i Hi. assert (i = 0%nat) as -> by lia. by rewrite H0. }
  destruct (get 1%nat) as [t1|e1] eqn:H1.
  { exists 1%nat. split; [lia|]. split; [exact Hfirst|]. split; by rewrite H1. }
  destruct (is_request_exception e1) eqn:R1.
  2:{ exists 1%nat. split; [lia|]. split; [exact Hfirst|]. split; by rewrite H1. }
  exists 2%nat. split; [lia|]. split; [| split; [intros; lia|]].
  - intros i Hi. destruct i as [|[|i]]; [by rewrite H0 | by rewrite H1 | lia].
  - destruct (get 2%nat) as [t2|e2]; [reflexivity |].
    by destruct (is_request_exception e2).
Qed.

End Fetch.
